(** * The ZAP scan orchestration script [step2_configurable_scan.py]

    A shallow embedding of the threshold-gated polling and decision
    pipeline: configuration validation, the readiness poller, the two
    scan drivers, the risk aggregator, the threshold gate, report
    saving and the exit code chosen by [main].

    Conventions of the embedding.
    - Python [int] is [Z]; a [dict] keyed by strings is a [gmap string _];
      a [list] is a [list]; [str] is [string] (one character per code
      point).
    - A reading of the clock is a [float]: a double, given by its integer
      mantissa and its exponent, and the elapsed time is computed as
      binary64 arithmetic computes it, by rounding the exact difference
      to 53 bits.
    - A function that can raise returns a [result]; the exception
      hierarchy is kept as far as [except Exception] needs it.
    - Everything the script asks of the outside world (the HTTP status
      request, the ZAP client, the clock, [time.sleep], the file system)
      is a [call]; the outside world is an arbitrary function from the
      history of earlier calls to the outcome of the next one, so a
      statement quantified over [world] covers every behaviour of the
      scanner, the network and the user.
    - The user's interrupt is delivered while a request is pending, the
      only places where the script waits.
    - Console output ([print]) is not part of the embedding. *)

From Stdlib Require Import ZArith String List Lia.
From stdpp Require Import base gmap strings list fin_maps.

Open Scope string_scope.
Open Scope list_scope.

(** ** Exceptions and results *)

(** The exceptions the script can see.  [KeyboardInterrupt] and
    [SystemExit] derive from [BaseException] only, so [except Exception]
    lets them through. *)
Inductive exn : Type :=
| KeyError (key : string)
| ValueError
| AttributeError
| EnvironmentFault (what : string)
| KeyboardInterrupt
| SystemExit (code : Z).

Definition is_Exception (e : exn) : bool :=
  match e with
  | KeyboardInterrupt | SystemExit _ => false
  | _ => true
  end.

(** [OutOfFuel] is the outcome of a [while] loop that has not finished
    within the number of iterations the model was given. *)
Inductive result (A : Type) : Type :=
| Done (a : A)
| Raised (e : exn)
| OutOfFuel.
Arguments Done {A} a.
Arguments Raised {A} e.
Arguments OutOfFuel {A}.

#[global] Instance result_ret : MRet result := fun A a => Done a.
#[global] Instance result_bind : MBind result := fun A B k r =>
  match r with
  | Done a => k a
  | Raised e => Raised e
  | OutOfFuel => OutOfFuel
  end.

(** [d[k]] on a dictionary. *)
Definition getitem {V : Type} (d : gmap string V) (k : string) : result V :=
  match d !! k with
  | Some v => Done v
  | None => Raised (KeyError k)
  end.

(** ** Configuration *)

Record ScanConfig : Type := {
  target_url : string;
  scan_type : string;
  zap_host : string;
  zap_port : Z;
  max_high : Z;
  max_medium : Z;
  max_low : Z;
  report_dir : string
}.

Record ScanTypeProfile : Type := {
  name : string;
  description : string;
  spider_max_depth : Z;
  spider_max_duration : Z;
  active_scan : bool;
  duration_estimate : string
}.

Module ScanTypeConfig.

Definition quick : ScanTypeProfile := {|
  name := "Quick Scan";
  description := "Fast surface-level scan";
  spider_max_depth := 1;
  spider_max_duration := 2;
  active_scan := false;
  duration_estimate := "~2 minutes" |}.

Definition standard : ScanTypeProfile := {|
  name := "Standard Scan";
  description := "Balanced scan for regular builds";
  spider_max_depth := 2;
  spider_max_duration := 5;
  active_scan := true;
  duration_estimate := "~10 minutes" |}.

Definition full : ScanTypeProfile := {|
  name := "Full Scan";
  description := "Comprehensive security assessment";
  spider_max_depth := 0;
  spider_max_duration := 0;
  active_scan := true;
  duration_estimate := "30+ minutes" |}.

Definition TYPES : gmap string ScanTypeProfile :=
  list_to_map [("quick", quick); ("standard", standard); ("full", full)].

Definition get (scan_type : string) : result ScanTypeProfile :=
  getitem TYPES scan_type.

End ScanTypeConfig.

(** ** Findings, the risk aggregator and the threshold gate *)

(** A finding is the dictionary the scanner reports for one alert. *)
Abbreviation alert := (gmap string string).

Definition severities : list string :=
  ["High"; "Medium"; "Low"; "Informational"].

(** [alert.get('risk', 'Informational')] *)
Definition risk_of (a : alert) : string :=
  default "Informational" (a !! "risk").

(** [risk_counts[risk] += 1]: reads the entry first, so a key that is not
    in the dictionary raises [KeyError] and is never added. *)
Definition increment (risk : string) (risk_counts : gmap string Z)
  : result (gmap string Z) :=
  n ← getitem risk_counts risk;
  Done (<[risk := (n + 1)%Z]> risk_counts).

Fixpoint tally (risk_counts : gmap string Z) (alerts : list alert)
  : result (gmap string Z) :=
  match alerts with
  | [] => Done risk_counts
  | a :: rest =>
      risk_counts' ← increment (risk_of a) risk_counts;
      tally risk_counts' rest
  end.

Definition analyze_alerts (alerts : list alert) : result (gmap string Z) :=
  tally (list_to_map
           [("High", 0%Z); ("Medium", 0%Z); ("Low", 0%Z); ("Informational", 0%Z)])
        alerts.

(** The attribute of [Fore] a check is printed with. *)
Inductive Fore : Type := RED | YELLOW | BLUE.

Record ThresholdCheck : Type := {
  chk_level : string;
  chk_count : Z;
  chk_max : Z;
  chk_passed : bool;
  chk_color : Fore
}.

Definition check_thresholds (risk_counts : gmap string Z) (config : ScanConfig)
  : result (bool * list ThresholdCheck) :=
  high ← getitem risk_counts "High";
  let high_pass := (high <=? max_high config)%Z in
  let checks := [ {| chk_level := "High"; chk_count := high;
                     chk_max := max_high config; chk_passed := high_pass;
                     chk_color := RED |} ] in
  medium ← getitem risk_counts "Medium";
  let medium_pass := (medium <=? max_medium config)%Z in
  let checks := (checks ++
                [ {| chk_level := "Medium"; chk_count := medium;
                     chk_max := max_medium config; chk_passed := medium_pass;
                     chk_color := YELLOW |} ])%list in
  low ← getitem risk_counts "Low";
  let low_pass := (low <=? max_low config)%Z in
  let checks := (checks ++
                [ {| chk_level := "Low"; chk_count := low;
                     chk_max := max_low config; chk_passed := low_pass;
                     chk_color := BLUE |} ])%list in
  let all_passed := forallb chk_passed checks in
  Done (all_passed, checks).

(** The number of findings the aggregator files under [s]. *)
Definition count_risk (s : string) (alerts : list alert) : Z :=
  Z.of_nat (length (filter (λ a, risk_of a = s) alerts)).

(** Every severity tag that is present is one of the four known ones. *)
Definition well_tagged (alerts : list alert) : Prop :=
  ∀ a s, a ∈ alerts → a !! "risk" = Some s → s ∈ severities.


(** ** The outside world *)

(** What [response.json()] finds in the body of a status response. *)
Inductive body : Type :=
| NotJson
| JsonNotObject
| JsonObject (version : option string).

Record response : Type := {
  status_code : Z;
  content : body
}.

(** [response.json().get('version', 'Unknown')]: decoding raises a
    [ValueError] on a body that is not JSON, and [.get] raises an
    [AttributeError] on a JSON value that is not an object. *)
Definition reported_version (r : response) : result string :=
  match content r with
  | NotJson => Raised ValueError
  | JsonNotObject => Raised AttributeError
  | JsonObject v => Done (default "Unknown" v)
  end.

Record HighRiskAlert : Type := {
  hra_name : string;
  hra_url : string;
  hra_description : string
}.

(** The dictionary [save_reports] dumps as the run summary. *)
Record Summary : Type := {
  sum_timestamp : string;
  sum_target_url : string;
  sum_scan_type : string;
  sum_total_alerts : Z;
  sum_risk_counts : gmap string Z;
  sum_thresholds : Z * Z * Z;
  sum_passed : bool;
  sum_high_risk_alerts : list HighRiskAlert
}.

(** What is written to a report file; [json.dump] is taken to store the
    value it is given. *)
Inductive file_content : Type :=
| HtmlReport (html : string)
| AlertsJson (alerts : list alert)
| SummaryJson (summary : Summary).

(** The requests the script makes.  [RequestsGet host port timeout] is
    the GET of [http://host:port/JSON/core/view/version/]; [WriteFile dir
    file c] opens [dir / file] for writing and writes [c]. *)
Inductive call : Type :=
| RequestsGet (host : string) (port : Z) (timeout : Z)
| Sleep (seconds : Z)
| Time
| ZapUrlopen (url : string)
| SpiderSetOptionMaxDepth (depth : Z)
| SpiderScan (url : string)
| SpiderStatus (scan_id : string)
| SpiderStop (scan_id : string)
| SpiderResults (scan_id : string)
| AscanScan (url : string)
| AscanStatus (scan_id : string)
| CoreAlerts (baseurl : string)
| CoreHtmlreport
| Mkdir (dir : string)
| Strftime
| WriteFile (dir : string) (file : string) (c : file_content).

(** *** The clock

    [time.time()] returns a double.  A finite double is [m * 2^e] for
    integers [m] and [e] with [|m| < 2^53] and [-1074 <= e]; a reading of
    the clock is one of magnitude below [2^1022], so that the difference
    of two readings does not overflow. *)
Definition is_double (m e : Z) : bool :=
  (Z.abs m <? 2 ^ 53)%Z && (-1074 <=? e)%Z && (e <=? 969)%Z.

Record float : Type := Float {
  mantissa : Z;
  exponent : Z;
  float_is_double : is_double mantissa exponent = true
}.

(** [m * 2^e] rounded to a mantissa of 53 bits, to nearest and ties to
    even, the rounding of binary64 arithmetic: the bits of the mantissa
    beyond the 53 leading ones are dropped, and the mantissa is
    incremented when they are more than half a unit of its last place, or
    exactly half and the mantissa is odd. *)
Definition round_double (m e : Z) : Z * Z :=
  let drop := (Z.log2 (Z.abs m) + 1 - 53)%Z in
  if (drop <=? 0)%Z then (m, e)
  else
    let q := (Z.abs m / 2 ^ drop)%Z in
    let r := (Z.abs m mod 2 ^ drop)%Z in
    let half := (2 ^ (drop - 1))%Z in
    let q' := if (half <? r)%Z || ((r =? half)%Z && Z.odd q)
              then (q + 1)%Z else q in
    ((Z.sgn m * q')%Z, (e + drop)%Z).

(** [x - y] on doubles: the exact difference, rounded.  The result is
    given by mantissa and exponent. *)
Definition float_sub (x y : float) : Z * Z :=
  let e := Z.min (exponent x) (exponent y) in
  round_double (mantissa x * 2 ^ (exponent x - e)
                - mantissa y * 2 ^ (exponent y - e))%Z e.

(** [int(x)] of a float: truncation towards zero. *)
Definition int_of_float (x : Z * Z) : Z :=
  let '(m, e) := x in
  if (0 <=? e)%Z then (m * 2 ^ e)%Z else Z.quot m (2 ^ (- e)).

Definition reply (c : call) : Type :=
  match c with
  | RequestsGet _ _ _ => response
  | Time => float
  | SpiderScan _ | SpiderStatus _ | AscanScan _ | AscanStatus _
  | CoreHtmlreport | Strftime => string
  | SpiderResults _ => list string
  | CoreAlerts _ => list alert
  | _ => unit
  end.

(** How a request ends: with its value, with an exception derived from
    [Exception] (connection refused, timeout, I/O error, ...), or cut
    short by the user's interrupt. *)
Inductive outcome (T : Type) : Type :=
| Returns (t : T)
| Fails (what : string)
| Interrupted.
Arguments Returns {T} t.
Arguments Fails {T} what.
Arguments Interrupted {T}.

Record event : Type := Event {
  ev_call : call;
  ev_outcome : outcome (reply ev_call)
}.

Definition world : Type := list event → ∀ c : call, outcome (reply c).

(** A computation reads the world and extends the history of events. *)
Definition M (A : Type) : Type := world → list event → result A * list event.

#[global] Instance M_ret : MRet M := fun A a _ h => (Done a, h).
#[global] Instance M_bind : MBind M := fun A B k m w h =>
  match m w h with
  | (Done a, h') => k a w h'
  | (Raised e, h') => (Raised e, h')
  | (OutOfFuel, h') => (OutOfFuel, h')
  end.

Definition lift {A : Type} (r : result A) : M A := fun _ h => (r, h).

Definition raise {A : Type} (e : exn) : M A := lift (Raised e).

Definition perform (c : call) : M (reply c) := fun w h =>
  let o := w h c in
  (match o with
   | Returns v => Done v
   | Fails what => Raised (EnvironmentFault what)
   | Interrupted => Raised KeyboardInterrupt
   end, h ++ [Event c o]).

(** [try: body except Exception: handler] *)
Definition try_except {A : Type} (body : M A) (handler : exn → M A) : M A :=
  fun w h =>
    match body w h with
    | (Raised e, h') =>
        if is_Exception e then handler e w h' else (Raised e, h')
    | other => other
    end.

(** A decimal reading of [int(s)] for strings of ASCII digits, used where
    a concrete instance of the conversion is needed. *)
Fixpoint decimal_digits (acc : Z) (s : string) : option Z :=
  match s with
  | EmptyString => Some acc
  | String c rest =>
      let d := (Z.of_nat (Ascii.nat_of_ascii c) - 48)%Z in
      if ((0 <=? d) && (d <=? 9))%Z
      then decimal_digits (10 * acc + d)%Z rest
      else None
  end.

Definition decimal_int (s : string) : option Z :=
  match s with
  | EmptyString => None
  | _ => decimal_digits 0 s
  end.

(** A value a function of the script returns where the kind of value is
    at issue. *)
Inductive pyval : Type :=
| PyBool (b : bool)
| PyStr (s : string).

(** Truth value of a returned value, as [if] and [not] see it. *)
Definition truthy (v : pyval) : bool :=
  match v with
  | PyBool b => b
  | PyStr s => negb (String.eqb s "")
  end.

(** ** The script *)

Section Scanner.

Set Default Proof Using "Type".

(** [int(s)] of a string: [None] where Python raises [ValueError]. *)
Variable py_int : string → option Z.

Definition int (s : string) : result Z :=
  match py_int s with
  | Some n => Done n
  | None => Raised ValueError
  end.

(** *** ScanConfig

    [environ] is the process environment after [load_dotenv()]. *)

Definition _get_required (environ : gmap string string) (key : string)
  : result string :=
  match environ !! key with
  | Some value =>
      if String.eqb value "" then Raised (SystemExit 2) else Done value
  | None => Raised (SystemExit 2)
  end.

Definition _get_optional (environ : gmap string string) (key default_ : string)
  : string :=
  default default_ (environ !! key).

Definition _validate (self : ScanConfig) : result unit :=
  let valid_types := ["quick"; "standard"; "full"] in
  if negb (bool_decide (scan_type self ∈ valid_types))
  then Raised (SystemExit 2)
  else if negb (String.prefix "http://" (target_url self)
                || String.prefix "https://" (target_url self))
  then Raised (SystemExit 2)
  else if ((max_high self <? 0) || (max_medium self <? 0)
           || (max_low self <? 0))%Z
  then Raised (SystemExit 2)
  else Done tt.

Definition ScanConfig_init (environ : gmap string string) : result ScanConfig :=
  target_url ← _get_required environ "ZAP_TARGET_URL";
  let scan_type := _get_optional environ "ZAP_SCAN_TYPE" "standard" in
  let zap_host := _get_optional environ "ZAP_HOST" "localhost" in
  zap_port ← int (_get_optional environ "ZAP_PORT" "8080");
  max_high ← int (_get_optional environ "ZAP_MAX_HIGH" "0");
  max_medium ← int (_get_optional environ "ZAP_MAX_MEDIUM" "5");
  max_low ← int (_get_optional environ "ZAP_MAX_LOW" "999");
  let report_dir := _get_optional environ "ZAP_REPORT_DIR" "./reports" in
  let self := {| target_url := target_url; scan_type := scan_type;
                 zap_host := zap_host; zap_port := zap_port;
                 max_high := max_high; max_medium := max_medium;
                 max_low := max_low; report_dir := report_dir |} in
  _ ← _validate self;
  Done self.

(** *** Step 1: the readiness poller *)

(** The [try] block of one attempt: [true] when it reaches [return True]. *)
Definition status_attempt (config : ScanConfig) : M bool :=
  try_except
    (response ← perform (RequestsGet (zap_host config) (zap_port config) 5);
     if (status_code response =? 200)%Z
     then (_ ← lift (reported_version response); mret true)
     else mret false)
    (λ _, mret false).

Fixpoint wait_attempts (config : ScanConfig) (attempts : nat) : M pyval :=
  match attempts with
  | O => mret (PyBool false)
  | S attempts' =>
      ready ← status_attempt config;
      if ready : bool then mret (PyBool true)
      else (_ ← perform (Sleep 2); wait_attempts config attempts')
  end.

Definition wait_for_zap (config : ScanConfig) : M pyval :=
  wait_attempts config 30.

(** *** Step 3 *)

Definition access_target (config : ScanConfig) : M unit :=
  _ ← perform (ZapUrlopen (target_url config));
  perform (Sleep 2).

(** *** Step 4: the crawl driver *)

Fixpoint spider_wait (fuel : nat) (scan_id : string)
    (start_time : float) (max_duration : Z) : M unit :=
  match fuel with
  | O => lift OutOfFuel
  | S fuel' =>
      status ← perform (SpiderStatus scan_id);
      n ← lift (int status);
      if (n <? 100)%Z then
        (progress ← perform (SpiderStatus scan_id);
         now ← perform Time;
         let elapsed := int_of_float (float_sub now start_time) in
         if ((0 <? max_duration) && (max_duration <? elapsed))%Z
         then (_ ← perform (SpiderStop scan_id); mret tt)
         else (_ ← perform (Sleep 2);
               spider_wait fuel' scan_id start_time max_duration))
      else mret tt
  end.

Definition run_spider_scan (fuel : nat) (config : ScanConfig)
    (scan_type_config : ScanTypeProfile) : M (list string) :=
  _ ← (if (0 <? spider_max_depth scan_type_config)%Z
       then perform (SpiderSetOptionMaxDepth (spider_max_depth scan_type_config))
       else mret tt);
  scan_id ← perform (SpiderScan (target_url config));
  start_time ← perform Time;
  let max_duration := (spider_max_duration scan_type_config * 60)%Z in
  _ ← spider_wait fuel scan_id start_time max_duration;
  urls ← perform (SpiderResults scan_id);
  mret urls.

(** *** Step 5: the active scan driver *)

Fixpoint ascan_wait (fuel : nat) (scan_id : string) : M unit :=
  match fuel with
  | O => lift OutOfFuel
  | S fuel' =>
      status ← perform (AscanStatus scan_id);
      n ← lift (int status);
      if (n <? 100)%Z then
        (status' ← perform (AscanStatus scan_id);
         progress ← lift (int status');
         _ ← perform (Sleep 5);
         ascan_wait fuel' scan_id)
      else mret tt
  end.

Definition run_active_scan (fuel : nat) (config : ScanConfig)
    (scan_type_config : ScanTypeProfile) : M unit :=
  if negb (active_scan scan_type_config) then mret tt
  else (scan_id ← perform (AscanScan (target_url config));
        ascan_wait fuel scan_id).

(** *** Step 6 *)

Definition get_alerts (config : ScanConfig) : M (list alert) :=
  perform (CoreAlerts (target_url config)).

(** The subscripts [display_results] evaluates while printing one of the
    first three high-risk findings. *)
Definition shown (a : alert) : result unit :=
  _ ← getitem a "alert";
  _ ← getitem a "url";
  _ ← getitem a "description";
  Done tt.

Fixpoint show_all (alerts : list alert) : result unit :=
  match alerts with
  | [] => Done tt
  | a :: rest => _ ← shown a; show_all rest
  end.

Definition display_results (alerts : list alert) (risk_counts : gmap string Z)
    (config : ScanConfig) : result bool :=
  _ ← getitem risk_counts "High";
  _ ← getitem risk_counts "Medium";
  _ ← getitem risk_counts "Low";
  _ ← getitem risk_counts "Informational";
  let high_risk_alerts := filter (λ a, a !! "risk" = Some "High") alerts in
  _ ← show_all (take 3 high_risk_alerts);
  '(all_passed, checks) ← check_thresholds risk_counts config;
  Done all_passed.

(** *** Step 7 *)

Fixpoint high_risk_entries (alerts : list alert) : result (list HighRiskAlert) :=
  match alerts with
  | [] => Done []
  | a :: rest =>
      if bool_decide (a !! "risk" = Some "High") then
        name ← getitem a "alert";
        url ← getitem a "url";
        description ← getitem a "description";
        entries ← high_risk_entries rest;
        Done ({| hra_name := name; hra_url := url;
                 hra_description := String.substring 0 200 description |}
              :: entries)
      else high_risk_entries rest
  end.

Definition build_summary (timestamp : string) (alerts : list alert)
    (config : ScanConfig) (risk_counts : gmap string Z) (scan_passed : bool)
  : result Summary :=
  entries ← high_risk_entries alerts;
  Done {| sum_timestamp := timestamp;
          sum_target_url := target_url config;
          sum_scan_type := scan_type config;
          sum_total_alerts := Z.of_nat (length alerts);
          sum_risk_counts := risk_counts;
          sum_thresholds := (max_high config, max_medium config, max_low config);
          sum_passed := scan_passed;
          sum_high_risk_alerts := entries |}.

Definition save_reports (alerts : list alert) (config : ScanConfig)
    (risk_counts : gmap string Z) (scan_passed : bool) : M unit :=
  let report_dir := report_dir config in
  _ ← perform (Mkdir report_dir);
  timestamp ← perform Strftime;
  _ ← try_except
        (html_report ← perform CoreHtmlreport;
         perform (WriteFile report_dir ("zap_report_" +:+ timestamp +:+ ".html")
                            (HtmlReport html_report)))
        (λ _, mret tt);
  _ ← try_except
        (perform (WriteFile report_dir ("zap_report_" +:+ timestamp +:+ ".json")
                            (AlertsJson alerts)))
        (λ _, mret tt);
  try_except
    (summary ← lift (build_summary timestamp alerts config risk_counts scan_passed);
     perform (WriteFile report_dir ("zap_summary_" +:+ timestamp +:+ ".json")
                        (SummaryJson summary)))
    (λ _, mret tt).

(** *** main *)

Definition sys_exit {A : Type} (code : Z) : M A := raise (SystemExit code).

(** The phases after the crawl. *)
Definition after_spider (fuel : nat) (config : ScanConfig)
    (scan_type_config : ScanTypeProfile) (urls : list string) : M unit :=
  _ ← run_active_scan fuel config scan_type_config;
  alerts ← get_alerts config;
  risk_counts ← lift (analyze_alerts alerts);
  scan_passed ← lift (display_results alerts risk_counts config);
  _ ← save_reports alerts config risk_counts scan_passed;
  if scan_passed : bool then sys_exit 0 else sys_exit 1.

(** The body of the [try] statement of [main].  [connect_to_zap] only
    builds the client object and makes no request. *)
Definition main_try (environ : gmap string string) (fuel : nat) : M unit :=
  config ← lift (ScanConfig_init environ);
  scan_type_config ← lift (ScanTypeConfig.get (scan_type config));
  ready ← wait_for_zap config;
  if negb (truthy ready) then sys_exit 2
  else (_ ← access_target config;
        urls ← run_spider_scan fuel config scan_type_config;
        after_spider fuel config scan_type_config urls).

Definition main (environ : gmap string string) (fuel : nat) : M unit :=
  fun w h =>
    match main_try environ fuel w h with
    | (Raised KeyboardInterrupt, h') => (Raised (SystemExit 130), h')
    | (Raised e, h') =>
        if is_Exception e then (Raised (SystemExit 2), h') else (Raised e, h')
    | other => other
    end.

(** ** Specifications of computations *)

(** What [perform] makes of the outcome of a request. *)
Definition result_of {T : Type} (o : outcome T) : result T :=
  match o with
  | Returns v => Done v
  | Fails what => Raised (EnvironmentFault what)
  | Interrupted => Raised KeyboardInterrupt
  end.

(** [satisfies m Q]: from every history and in every world, [m] only
    appends events, and its result and the appended events satisfy [Q]. *)
Definition satisfies {A : Type} (m : M A)
    (Q : result A → list event → Prop) : Prop :=
  ∀ (w : world) (h : list event),
    ∃ new, (m w h).2 = h ++ new ∧ Q (m w h).1 new.

(** An event during which the user did not interrupt. *)
Definition quiet (e : event) : Prop :=
  match ev_outcome e with
  | Interrupted => False
  | _ => True
  end.

(** The shape of every run: [KeyboardInterrupt] is raised exactly when the
    last request was interrupted, no earlier request was, and [SystemExit]
    is raised with one of [codes] only. *)
Definition sane {A : Type} (codes : list Z) (r : result A) (new : list event)
  : Prop :=
  match r with
  | Raised KeyboardInterrupt =>
      ∃ pre c, new = pre ++ [Event c Interrupted] ∧ Forall quiet pre
  | Raised (SystemExit code) => code ∈ codes ∧ Forall quiet new
  | _ => Forall quiet new
  end.

(** [inv C codes]: a sane run all of whose requests are in the footprint
    [C]. *)
Definition inv {A : Type} (C : call → bool) (codes : list Z)
    (r : result A) (new : list event) : Prop :=
  Forall (λ e, C (ev_call e) = true) new ∧ sane codes r new.

(** A result of a pure function that is neither an interrupt nor an exit
    with a code outside [codes]. *)
Definition harmless {A : Type} (codes : list Z) (r : result A) : Prop :=
  match r with
  | Raised KeyboardInterrupt => False
  | Raised (SystemExit code) => code ∈ codes
  | _ => True
  end.

(** The world answers the requests of [script], in order, from history
    [h] on. *)
Fixpoint answers (w : world) (h : list event) (script : list event) : Prop :=
  match script with
  | [] => True
  | e :: rest => w h (ev_call e) = ev_outcome e ∧ answers w (h ++ [e]) rest
  end.

#[global] Instance HighRiskAlert_eq_dec : EqDecision HighRiskAlert.
Proof. solve_decision. Defined.

#[global] Instance Summary_eq_dec : EqDecision Summary.
Proof. solve_decision. Defined.

#[global] Instance file_content_eq_dec : EqDecision file_content.
Proof. solve_decision. Defined.

#[global] Instance call_eq_dec : EqDecision call.
Proof. solve_decision. Defined.

(** The world that plays [script]: the request made after [n] events is
    answered as the [n]-th event of the script says, when it is that
    request. *)
Definition scripted (script : list event) : world :=
  λ h c,
    match script !! length h with
    | Some e =>
        match decide (ev_call e = c) with
        | left H =>
            eq_rect (ev_call e) (λ c, outcome (reply c)) (ev_outcome e) c H
        | right _ => Fails "unscripted"
        end
    | None => Fails "unscripted"
    end.

(** In every world that answers [script], [m] makes exactly the requests
    of [script] and ends with [r]. *)
Definition produces {A : Type} (m : M A) (script : list event) (r : result A)
  : Prop :=
  ∀ (w : world) (h : list event),
    answers w h script → m w h = (r, h ++ script).

(** *** Footprints: the requests a function may make *)

Definition wait_calls (config : ScanConfig) (c : call) : bool :=
  match c with
  | RequestsGet host port timeout =>
      bool_decide (host = zap_host config ∧ port = zap_port config
                   ∧ timeout = 5%Z)
  | Sleep seconds => bool_decide (seconds = 2%Z)
  | _ => false
  end.

Definition access_calls (config : ScanConfig) (c : call) : bool :=
  match c with
  | ZapUrlopen url => bool_decide (url = target_url config)
  | Sleep seconds => bool_decide (seconds = 2%Z)
  | _ => false
  end.

Definition spider_calls (config : ScanConfig) (profile : ScanTypeProfile)
    (c : call) : bool :=
  match c with
  | SpiderSetOptionMaxDepth depth =>
      bool_decide (0 < spider_max_depth profile
                   ∧ depth = spider_max_depth profile)%Z
  | SpiderScan url => bool_decide (url = target_url config)
  | SpiderStatus _ | SpiderResults _ | Time => true
  | SpiderStop _ => bool_decide (0 < spider_max_duration profile)%Z
  | Sleep seconds => bool_decide (seconds = 2%Z)
  | _ => false
  end.

Definition ascan_calls (config : ScanConfig) (profile : ScanTypeProfile)
    (c : call) : bool :=
  match c with
  | AscanScan url => active_scan profile && bool_decide (url = target_url config)
  | AscanStatus _ => active_scan profile
  | Sleep seconds => active_scan profile && bool_decide (seconds = 5%Z)
  | _ => false
  end.

Definition alerts_calls (config : ScanConfig) (c : call) : bool :=
  match c with
  | CoreAlerts baseurl => bool_decide (baseurl = target_url config)
  | _ => false
  end.

(** [save_reports] writes under the report directory only, and a summary
    it writes carries the risk counts and the verdict it was given. *)
Definition report_calls (config : ScanConfig) (risk_counts : gmap string Z)
    (scan_passed : bool) (c : call) : bool :=
  match c with
  | Mkdir dir => bool_decide (dir = report_dir config)
  | Strftime | CoreHtmlreport => true
  | WriteFile dir _ (SummaryJson summary) =>
      bool_decide (dir = report_dir config
                   ∧ sum_risk_counts summary = risk_counts
                   ∧ sum_passed summary = scan_passed)
  | WriteFile dir _ _ => bool_decide (dir = report_dir config)
  | _ => false
  end.


Definition is_status_request (e : event) : bool :=
  match ev_call e with
  | RequestsGet _ _ _ => true
  | _ => false
  end.

(** The requests [main] may make before it has the findings. *)
Definition before_gate_calls (config : ScanConfig) (profile : ScanTypeProfile)
    (c : call) : bool :=
  wait_calls config c || access_calls config c
  || spider_calls config profile c || ascan_calls config profile c
  || alerts_calls config c.

(** What [main] does with the result of the [try] body of [after_spider]
    once [save_reports] has ended with [r']. *)
Definition verdict (passed : bool) (r' : result unit) : result unit :=
  match r' with
  | Done _ => Raised (SystemExit (if passed then 0 else 1))
  | Raised e => Raised e
  | OutOfFuel => OutOfFuel
  end.

(** The findings were retrieved and the gate was computed: the history
    is [pre], the retrieval of [alerts], then the requests [post] of
    [save_reports], which ended with [r']. *)
Definition gated (config : ScanConfig) (w : world) (pre : list event)
    (alerts : list alert) (risk_counts : gmap string Z) (passed : bool)
    (post : list event) (r' : result unit) : Prop :=
  let retrieved :=
    pre ++ [Event (CoreAlerts (target_url config)) (Returns alerts)] in
  analyze_alerts alerts = Done risk_counts
  ∧ display_results alerts risk_counts config = Done passed
  ∧ save_reports alerts config risk_counts passed w retrieved
    = (r', retrieved ++ post)
  ∧ Forall (λ e, report_calls config risk_counts passed (ev_call e) = true) post
  ∧ sane [] r' post.

(** *** Scripts of the readiness poller *)

(** An answer to the status request after which the poller tries again:
    an exception, a status other than 200, or a 200 whose body does not
    decode to a JSON object. *)
Definition unready (o : outcome response) : bool :=
  match o with
  | Returns r =>
      negb (status_code r =? 200)%Z
      || match content r with JsonObject _ => false | _ => true end
  | Fails _ => true
  | Interrupted => false
  end.

Definition status_request (config : ScanConfig) (o : outcome response) : event :=
  Event (RequestsGet (zap_host config) (zap_port config) 5) o.

(** One unsuccessful attempt for each answer of [os]: the request, then
    the two-second sleep. *)
Fixpoint failed_attempts (config : ScanConfig) (os : list (outcome response))
  : list event :=
  match os with
  | [] => []
  | o :: rest =>
      status_request config o :: Event (Sleep 2) (Returns tt)
      :: failed_attempts config rest
  end.

(** *** Scripts of the crawl driver *)

(** [int(time.time() - start_time)] at the reading [now]: the whole
    seconds of the rounded difference of the two doubles. *)
Definition elapsed_since (start_time now : float) : Z :=
  int_of_float (float_sub now start_time).

(** The duration check of [run_spider_scan]. *)
Definition over_time (max_duration : Z) (start_time now : float) : bool :=
  ((0 <? max_duration) && (max_duration <? elapsed_since start_time now))%Z.

Definition spider_prelude (config : ScanConfig) (profile : ScanTypeProfile)
    (scan_id : string) (start_time : float) : list event :=
  (if (0 <? spider_max_depth profile)%Z
   then [Event (SpiderSetOptionMaxDepth (spider_max_depth profile)) (Returns tt)]
   else [])
  ++ [Event (SpiderScan (target_url config)) (Returns scan_id);
      Event Time (Returns start_time)].

(** Polls that found the crawl unfinished and within its time: each is
    the two status readings, the clock reading and the sleep. *)
Fixpoint spider_rounds (scan_id : string)
    (rounds : list (string * string * float)) : list event :=
  match rounds with
  | [] => []
  | (status, progress, now) :: rest =>
      Event (SpiderStatus scan_id) (Returns status)
      :: Event (SpiderStatus scan_id) (Returns progress)
      :: Event Time (Returns now)
      :: Event (Sleep 2) (Returns tt)
      :: spider_rounds scan_id rest
  end.

(** The poll that finds the crawl over its time, the stop request and the
    collection of the results. *)
Definition spider_timeout (scan_id status progress : string)
    (now : float) (urls : list string) : list event :=
  [Event (SpiderStatus scan_id) (Returns status);
   Event (SpiderStatus scan_id) (Returns progress);
   Event Time (Returns now);
   Event (SpiderStop scan_id) (Returns tt);
   Event (SpiderResults scan_id) (Returns urls)].

(** The requests of [save_reports] when every one of them returns. *)
Definition reports_script (config : ScanConfig) (timestamp html : string)
    (alerts : list alert) (summary : Summary) : list event :=
  [Event (Mkdir (report_dir config)) (Returns tt);
   Event Strftime (Returns timestamp);
   Event CoreHtmlreport (Returns html);
   Event (WriteFile (report_dir config) ("zap_report_" +:+ timestamp +:+ ".html")
                    (HtmlReport html)) (Returns tt);
   Event (WriteFile (report_dir config) ("zap_report_" +:+ timestamp +:+ ".json")
                    (AlertsJson alerts)) (Returns tt);
   Event (WriteFile (report_dir config) ("zap_summary_" +:+ timestamp +:+ ".json")
                    (SummaryJson summary)) (Returns tt)].

(** Some request of the history was cut short by the user. *)
Definition user_interrupt (tr : list event) : Prop :=
  ∃ c, Event c Interrupted ∈ tr.

Definition sys_exited (code : Z) : result unit := Raised (SystemExit code).

(** The first request [main] makes once the crawl has returned. *)
Definition next_after_crawl (config : ScanConfig) (profile : ScanTypeProfile)
  : call :=
  if active_scan profile then AscanScan (target_url config)
  else CoreAlerts (target_url config).

(** *** Sample inputs *)

(** The double that is the whole number [n] of seconds, for [n] of
    magnitude below [2^53]. *)
Definition seconds (n : Z) : float :=
  match Sumbool.sumbool_of_bool (is_double n 0) with
  | left H => Float n 0 H
  | right _ => Float 0 0 eq_refl
  end.

(** The doubles written [0.1] and [121.1]. *)
Definition tenth : float := Float 3602879701896397 (-55) eq_refl.

Definition two_minutes_later : float := Float 8521654919915110 (-46) eq_refl.

Definition sample_config : ScanConfig := {|
  target_url := "http://target.test";
  scan_type := "quick";
  zap_host := "localhost";
  zap_port := 8080;
  max_high := 0;
  max_medium := 5;
  max_low := 999;
  report_dir := "./reports" |}.

Definition sample_environ : gmap string string :=
  <["ZAP_SCAN_TYPE" := "quick"]> {[ "ZAP_TARGET_URL" := "http://target.test" ]}.

Definition sample_alerts : list alert :=
  [ <["risk" := "Medium"]> {[ "alert" := "X-Frame-Options Header Not Set" ]};
    {[ "alert" := "Modern Web Application" ]} ].

(** A scanner that is ready at the first request and reports [version],
    whose jobs are finished at the first poll, and that reports [alerts];
    every other request returns. *)
Definition prompt_world (version : string) (alerts : list alert) : world :=
  λ h c,
    match c with
    | RequestsGet _ _ _ =>
        Returns {| status_code := 200; content := JsonObject (Some version) |}
    | Time => Returns (seconds 0)
    | SpiderScan _ | AscanScan _ => Returns "0"
    | SpiderStatus _ | AscanStatus _ => Returns "100"
    | SpiderResults _ => Returns []
    | CoreAlerts _ => Returns alerts
    | CoreHtmlreport => Returns "<html></html>"
    | Strftime => Returns "20240101_000000"
    | _ => Returns tt
    end.

(** As [prompt_world], but the crawl stays at 50% and the clock jumps 200
    seconds ahead once five requests have been made. *)
Definition slow_world (alerts : list alert) : world :=
  λ h c,
    match c as c' return outcome (reply c') with
    | SpiderStatus _ => Returns "50"
    | Time =>
        Returns (seconds (if (length h <=? 5)%nat then 0 else 200))
    | SpiderResults _ => Returns ["http://target.test/"; "http://target.test/login"]
    | c' => prompt_world "2.14.0" alerts h c'
    end.

(** A scanner whose crawl stays at 50% while the clock, read as 0.1 when
    the crawl starts, reads 121.1 at the first poll. *)
Definition overdue_world (alerts : list alert) : world :=
  λ h c,
    match c as c' return outcome (reply c') with
    | SpiderStatus _ => Returns "50"
    | Time => Returns (if (length h <=? 5)%nat then tenth else two_minutes_later)
    | SpiderResults _ => Returns ["http://target.test/"]
    | c' => prompt_world "2.14.0" alerts h c'
    end.

(** A scanner that answers 200 with a body that is not JSON. *)
Definition garbled_world : world :=
  λ h c,
    match c as c' return outcome (reply c') with
    | RequestsGet _ _ _ => Returns {| status_code := 200; content := NotJson |}
    | c' => prompt_world "2.14.0" [] h c'
    end.

Definition sample_counts : gmap string Z :=
  list_to_map [("High", 0%Z); ("Medium", 3%Z); ("Low", 10%Z);
               ("Informational", 7%Z)].

(** *** Further vocabulary *)

(** The findings tagged High, as [alert.get('risk') == 'High'] selects
    them. *)
Definition high_findings (alerts : list alert) : list alert :=
  filter (λ a, a !! "risk" = Some "High") alerts.

(** The keys read from a high-risk finding. *)
Definition detail_keys : list string := ["alert"; "url"; "description"].

(** The finding has the three entries that are shown and summarised for a
    high-risk finding. *)
Definition has_details (a : alert) : Prop :=
  is_Some (a !! "alert") ∧ is_Some (a !! "url") ∧ is_Some (a !! "description").

(** The outcome is not the user's interrupt. *)
Definition uninterrupted {T : Type} (o : outcome T) : bool :=
  match o with
  | Interrupted => false
  | _ => true
  end.

(** The seconds slept in a history. *)
Definition sleep_seconds (e : event) : Z :=
  match ev_call e with
  | Sleep seconds => seconds
  | _ => 0%Z
  end.

Definition total_sleep (tr : list event) : Z :=
  foldr (λ e acc, (sleep_seconds e + acc)%Z) 0%Z tr.

(** The requests of the polling loop of the active scan driver. *)
Definition ascan_poll_calls (c : call) : bool :=
  match c with
  | AscanStatus _ => true
  | Sleep seconds => bool_decide (seconds = 5%Z)
  | _ => false
  end.

(** Polls that found the active scan unfinished: the two status readings
    and the five-second sleep. *)
Fixpoint ascan_rounds (scan_id : string) (rounds : list (string * string))
  : list event :=
  match rounds with
  | [] => []
  | (status, progress) :: rest =>
      Event (AscanStatus scan_id) (Returns status)
      :: Event (AscanStatus scan_id) (Returns progress)
      :: Event (Sleep 5) (Returns tt)
      :: ascan_rounds scan_id rest
  end.

(** The report requests of [save_reports] after the directory was made and
    the timestamp taken, when the scanner answers the report request with
    [o_html] and the three writes end in [o_write_html], [o_write_json]
    and [o_write_summary]: the HTML file is written only if the report
    was obtained, the summary only if it could be built. *)
Definition report_attempts (config : ScanConfig) (timestamp : string)
    (alerts : list alert) (summary : result Summary)
    (o_html : outcome string)
    (o_write_html o_write_json o_write_summary : outcome unit) : list event :=
  match o_html with
  | Returns html =>
      [Event CoreHtmlreport (Returns html);
       Event (WriteFile (report_dir config)
                        ("zap_report_" +:+ timestamp +:+ ".html")
                        (HtmlReport html)) o_write_html]
  | Fails what => [Event CoreHtmlreport (Fails what)]
  | Interrupted => [Event CoreHtmlreport Interrupted]
  end
  ++ [Event (WriteFile (report_dir config)
                       ("zap_report_" +:+ timestamp +:+ ".json")
                       (AlertsJson alerts)) o_write_json]
  ++ match summary with
     | Done s =>
         [Event (WriteFile (report_dir config)
                           ("zap_summary_" +:+ timestamp +:+ ".json")
                           (SummaryJson s)) o_write_summary]
     | _ => []
     end.

(** What [save_reports] may request, with the contents of what it
    writes: every file goes to the report directory, the JSON report
    holds the findings and the summary the values it was built from. *)
Definition report_contents (config : ScanConfig) (alerts : list alert)
    (risk_counts : gmap string Z) (scan_passed : bool) (c : call) : bool :=
  match c with
  | Mkdir dir => bool_decide (dir = report_dir config)
  | Strftime | CoreHtmlreport => true
  | WriteFile dir _ (HtmlReport _) => bool_decide (dir = report_dir config)
  | WriteFile dir _ (AlertsJson dumped) =>
      bool_decide (dir = report_dir config ∧ dumped = alerts)
  | WriteFile dir _ (SummaryJson summary) =>
      bool_decide (dir = report_dir config
                   ∧ sum_target_url summary = target_url config
                   ∧ sum_scan_type summary = scan_type config
                   ∧ sum_total_alerts summary = Z.of_nat (length alerts)
                   ∧ sum_risk_counts summary = risk_counts
                   ∧ sum_thresholds summary
                     = (max_high config, max_medium config, max_low config)
                   ∧ sum_passed summary = scan_passed)
  | _ => false
  end.

Definition is_write (c : call) : bool :=
  match c with
  | WriteFile _ _ _ | Mkdir _ => true
  | _ => false
  end.

(** A scanner whose jobs never get beyond 50%, with a clock that stands
    still; every other request returns. *)
Definition stuck_world : world :=
  λ h c,
    match c as c' return outcome (reply c') with
    | SpiderStatus _ | AscanStatus _ => Returns "50"
    | c' => prompt_world "2.14.0" [] h c'
    end.

(** What [save_reports] may request once the directory is made. *)
Definition after_mkdir_calls (c : call) : bool :=
  match c with
  | Strftime | CoreHtmlreport | WriteFile _ _ _ => true
  | _ => false
  end.

(** The request ended with an exception derived from [Exception]. *)
Definition failed (e : event) : bool :=
  match ev_outcome e with
  | Fails _ => true
  | _ => false
  end.

(** The world of [prompt_world] with a report directory that cannot be
    created. *)
Definition readonly_world (alerts : list alert) : world :=
  λ h c,
    match c as c' return outcome (reply c') with
    | Mkdir _ => Fails "permission denied"
    | c' => prompt_world "2.14.0" alerts h c'
    end.

(** The requests [main] may make once the crawl has returned: those of
    the active scan if the profile enables it, the retrieval of the
    findings and the requests of [save_reports]. *)
Definition after_crawl_calls (config : ScanConfig) (profile : ScanTypeProfile)
    (c : call) : bool :=
  match c with
  | AscanScan url => active_scan profile && bool_decide (url = target_url config)
  | AscanStatus _ => active_scan profile
  | Sleep seconds => active_scan profile && bool_decide (seconds = 5%Z)
  | CoreAlerts baseurl => bool_decide (baseurl = target_url config)
  | Mkdir dir | WriteFile dir _ _ => bool_decide (dir = report_dir config)
  | Strftime | CoreHtmlreport => true
  | _ => false
  end.

(** The world of [prompt_world] in which the user interrupts the request
    for the HTML report. *)
Definition impatient_world (alerts : list alert) : world :=
  λ h c,
    match c as c' return outcome (reply c') with
    | CoreHtmlreport => Interrupted
    | c' => prompt_world "2.14.0" alerts h c'
    end.

(** Findings with a high-risk one that has its details. *)
Definition risky_alerts : list alert :=
  [ <["risk" := "High"]>
      (<["alert" := "SQL Injection"]>
         (<["url" := "http://target.test/login"]>
            {[ "description" := "The query is built from user input." ]}));
    {[ "alert" := "Modern Web Application" ]} ].
(** ** The clock's arithmetic *)

(** [round_double] is rounding to nearest with ties to even: a mantissa
    of fewer than 54 bits is kept, and a longer one is replaced by a
    mantissa of 53 bits (or by [2^53]) at most half a unit of the last
    place away, an even one when exactly half. *)
Section Rounding.
Local Open Scope Z_scope.

Lemma round_double_exact (m e : Z) :
  Z.abs m < 2 ^ 53 → round_double m e = (m, e).
Proof.
  intros Hm. unfold round_double.
  destruct (Z.eq_dec m 0) as [->|Hne]; [reflexivity|].
  assert (Z.log2 (Z.abs m) < 53) by (apply Z.log2_lt_pow2; lia).
  destruct (Z.leb_spec (Z.log2 (Z.abs m) + 1 - 53) 0); [reflexivity | lia].
Qed.

Lemma round_double_nearest (m e : Z) :
  2 ^ 53 ≤ Z.abs m →
  ∃ drop q,
    round_double m e = (q, e + drop) ∧ 0 < drop
    ∧ 2 ^ 52 ≤ Z.abs q ≤ 2 ^ 53
    ∧ 2 * Z.abs (m - q * 2 ^ drop) ≤ 2 ^ drop
    ∧ (2 * Z.abs (m - q * 2 ^ drop) = 2 ^ drop → Z.even q = true).
Proof.
  intros Hm. unfold round_double.
  set (drop := Z.log2 (Z.abs m) + 1 - 53).
  assert (Hlog : 53 ≤ Z.log2 (Z.abs m)) by (apply Z.log2_le_pow2; lia).
  assert (Hdrop : 0 < drop) by (unfold drop; lia).
  destruct (Z.leb_spec drop 0) as [|_]; [lia|].
  destruct (Z.log2_spec (Z.abs m)) as [Hlo Hhi]; [lia|].
  assert (Hp : 2 ^ drop = 2 * 2 ^ (drop - 1)).
  { rewrite <- Z.pow_succ_r by lia. f_equal. lia. }
  assert (Hpos : 0 < 2 ^ (drop - 1)) by (apply Z.pow_pos_nonneg; lia).
  assert (Hl : 2 ^ Z.log2 (Z.abs m) = 2 ^ 52 * 2 ^ drop).
  { rewrite <- Z.pow_add_r by lia. f_equal. unfold drop. lia. }
  assert (Hs : 2 ^ Z.succ (Z.log2 (Z.abs m)) = 2 ^ 53 * 2 ^ drop).
  { rewrite <- Z.pow_add_r by lia. f_equal. unfold drop. lia. }
  pose proof (Z.div_mod (Z.abs m) (2 ^ drop) ltac:(lia)) as Hdm.
  pose proof (Z.mod_pos_bound (Z.abs m) (2 ^ drop) ltac:(lia)) as Hr.
  set (q0 := Z.abs m / 2 ^ drop) in *. set (r := Z.abs m mod 2 ^ drop) in *.
  set (half := 2 ^ (drop - 1)) in *.
  assert (Hq0 : 2 ^ 52 ≤ q0 < 2 ^ 53) by nia.
  set (q' := if (half <? r) || ((r =? half) && Z.odd q0) then q0 + 1 else q0).
  exists drop, (Z.sgn m * q'). split; [reflexivity|]. split; [lia|].
  assert (Hq' : 2 ^ 52 ≤ q' ≤ 2 ^ 53
                ∧ 2 * Z.abs (Z.abs m - q' * 2 ^ drop) ≤ 2 ^ drop
                ∧ (2 * Z.abs (Z.abs m - q' * 2 ^ drop) = 2 ^ drop →
                   Z.even q' = true)).
  { unfold q'. destruct (Z.ltb_spec half r) as [Hgt|Hle]; simpl.
    - split; [lia|]. split; [nia|]. intros Heq. exfalso. nia.
    - destruct (Z.eqb_spec r half) as [Heq|Hne]; simpl.
      + destruct (Z.odd q0) eqn:Hodd.
        * split; [lia|]. split; [nia|]. intros _.
          rewrite Z.add_1_r, Z.even_succ. exact Hodd.
        * split; [lia|]. split; [nia|]. intros _.
          rewrite <- Z.negb_odd, Hodd. reflexivity.
      + split; [lia|]. split; [nia|]. intros Heq. exfalso. nia. }
  destruct Hq' as (Hb & Hd & He).
  assert (Hsgn : Z.abs (Z.sgn m * q') = q'
                 ∧ Z.abs (m - Z.sgn m * q' * 2 ^ drop)
                   = Z.abs (Z.abs m - q' * 2 ^ drop)
                 ∧ Z.even (Z.sgn m * q') = Z.even q').
  { destruct (Z.sgn_spec m) as [[? ->]|[[? ->]|[? ->]]]; [|lia|].
    - rewrite Z.mul_1_l, (Z.abs_eq m) by lia.
      split; [lia|]. split; reflexivity.
    - rewrite (Z.abs_neq m) by lia. split; [lia|]. split.
      + replace (- (1) * q' * 2 ^ drop) with (- (q' * 2 ^ drop)) by ring.
        generalize (q' * 2 ^ drop). intros p. lia.
      + replace (- (1) * q') with (- q') by ring. apply Z.even_opp. }
  destruct Hsgn as (-> & -> & ->). done.
Qed.

End Rounding.

(** ** Properties of the risk aggregator and the threshold gate *)

Lemma risk_of_severity (alerts : list alert) (a : alert) :
  well_tagged alerts → a ∈ alerts → risk_of a ∈ severities.
Proof.
  intros Hw Ha. unfold risk_of.
  destruct (a !! "risk") as [s|] eqn:E; simpl.
  - exact (Hw a s Ha E).
  - unfold severities. set_solver.
Qed.

Lemma well_tagged_cons (a : alert) (alerts : list alert) :
  well_tagged (a :: alerts) → well_tagged alerts.
Proof. intros Hw b s Hb. apply Hw. by right. Qed.

Lemma count_risk_cons (s : string) (a : alert) (alerts : list alert) :
  count_risk s (a :: alerts) =
  ((if decide (risk_of a = s) then 1 else 0) + count_risk s alerts)%Z.
Proof.
  unfold count_risk. rewrite filter_cons.
  destruct (decide (risk_of a = s)); simpl; lia.
Qed.

Lemma increment_present (s : string) (rc : gmap string Z) (n : Z) :
  rc !! s = Some n → increment s rc = Done (<[s := (n + 1)%Z]> rc).
Proof. intros H. unfold increment, getitem. by rewrite H. Qed.

(** Closes one case of [tally_counts]: the rest of the list was counted
    into [rc'] after one bucket was incremented. *)
Ltac tally_bucket rc' Ht Hd H1 H2 H3 H4 :=
  exists rc'; rewrite Ht, Hd, H1, H2, H3, H4;
  rewrite dom_insert_lookup_L by eauto;
  repeat split; try done; f_equal; repeat case_decide; try done; lia.

(** The loop of [analyze_alerts], started from any dictionary that has the
    four buckets. *)
Lemma tally_counts (alerts : list alert) :
  ∀ (rc : gmap string Z) (h m l i : Z),
    rc !! "High" = Some h → rc !! "Medium" = Some m →
    rc !! "Low" = Some l → rc !! "Informational" = Some i →
    well_tagged alerts →
    ∃ rc', tally rc alerts = Done rc'
         ∧ dom rc' = dom rc
         ∧ rc' !! "High" = Some (h + count_risk "High" alerts)%Z
         ∧ rc' !! "Medium" = Some (m + count_risk "Medium" alerts)%Z
         ∧ rc' !! "Low" = Some (l + count_risk "Low" alerts)%Z
         ∧ rc' !! "Informational" = Some (i + count_risk "Informational" alerts)%Z.
Proof.
  induction alerts as [|a rest IH]; intros rc h m l i Hh Hm Hl Hi Hw.
  - exists rc. unfold count_risk. simpl. rewrite !Z.add_0_r. done.
  - assert (Hs : risk_of a ∈ severities)
      by (apply (risk_of_severity (a :: rest)); [done | by left]).
    apply well_tagged_cons in Hw.
    rewrite !count_risk_cons. simpl.
    unfold severities in Hs.
    repeat (apply elem_of_cons in Hs as [Hs | Hs]);
      [ | | | |by apply elem_of_nil in Hs]; rewrite Hs.
    + rewrite (increment_present _ _ _ Hh). simpl.
      destruct (IH (<["High" := (h + 1)%Z]> rc) (h + 1)%Z m l i)
        as (rc' & Ht & Hd & H1 & H2 & H3 & H4); [by simplify_map_eq.. | done |].
      tally_bucket rc' Ht Hd H1 H2 H3 H4.
    + rewrite (increment_present _ _ _ Hm). simpl.
      destruct (IH (<["Medium" := (m + 1)%Z]> rc) h (m + 1)%Z l i)
        as (rc' & Ht & Hd & H1 & H2 & H3 & H4); [by simplify_map_eq.. | done |].
      tally_bucket rc' Ht Hd H1 H2 H3 H4.
    + rewrite (increment_present _ _ _ Hl). simpl.
      destruct (IH (<["Low" := (l + 1)%Z]> rc) h m (l + 1)%Z i)
        as (rc' & Ht & Hd & H1 & H2 & H3 & H4); [by simplify_map_eq.. | done |].
      tally_bucket rc' Ht Hd H1 H2 H3 H4.
    + rewrite (increment_present _ _ _ Hi). simpl.
      destruct (IH (<["Informational" := (i + 1)%Z]> rc) h m l (i + 1)%Z)
        as (rc' & Ht & Hd & H1 & H2 & H3 & H4); [by simplify_map_eq.. | done |].
      tally_bucket rc' Ht Hd H1 H2 H3 H4.
Qed.

Lemma count_risk_total (alerts : list alert) :
  well_tagged alerts →
  (count_risk "High" alerts + count_risk "Medium" alerts
   + count_risk "Low" alerts + count_risk "Informational" alerts)%Z
  = Z.of_nat (length alerts).
Proof.
  induction alerts as [|a rest IH]; intros Hw; [done|].
  assert (Hs : risk_of a ∈ severities)
    by (apply (risk_of_severity (a :: rest)); [done | by left]).
  specialize (IH (well_tagged_cons _ _ Hw)).
  rewrite !count_risk_cons, length_cons, Nat2Z.inj_succ, <- IH.
  unfold severities in Hs.
  repeat (apply elem_of_cons in Hs as [Hs | Hs]);
    [ | | | |by apply elem_of_nil in Hs];
    rewrite Hs; repeat case_decide; try done; lia.
Qed.

Lemma tally_app (l1 l2 : list alert) :
  ∀ rc, tally rc (l1 ++ l2) = tally rc l1 ≫= λ rc', tally rc' l2.
Proof.
  induction l1 as [|a l1 IH]; intros rc; simpl; [done|].
  destruct (increment (risk_of a) rc) as [rc1| |]; simpl; [apply IH|done..].
Qed.





(** ** Main results: aggregation and gating *)

(** C1.  Given the High, Medium and Low counts of a RiskCounts mapping,
    [check_thresholds] succeeds for every configuration (validated or
    not), returns exactly one check per gated severity, in the order
    High, Medium, Low, each passed flag being [observed <= maximum], and
    its overall result is true if and only if all three counts are within
    their maxima; one count above its maximum makes it false.  With
    maxima 0 / 5 / 999 the counts 0 / 3 / 10 pass and the counts 1 / 0 / 0
    fail. *)
Theorem check_thresholds_gate
    (risk_counts : gmap string Z) (config : ScanConfig) (high medium low : Z) :
  risk_counts !! "High" = Some high →
  risk_counts !! "Medium" = Some medium →
  risk_counts !! "Low" = Some low →
  ∃ all_passed,
    check_thresholds risk_counts config =
      Done (all_passed,
            [ {| chk_level := "High"; chk_count := high;
                 chk_max := max_high config;
                 chk_passed := (high <=? max_high config)%Z;
                 chk_color := RED |};
              {| chk_level := "Medium"; chk_count := medium;
                 chk_max := max_medium config;
                 chk_passed := (medium <=? max_medium config)%Z;
                 chk_color := YELLOW |};
              {| chk_level := "Low"; chk_count := low;
                 chk_max := max_low config;
                 chk_passed := (low <=? max_low config)%Z;
                 chk_color := BLUE |} ])
    ∧ (all_passed = true ↔
         (high ≤ max_high config ∧ medium ≤ max_medium config
          ∧ low ≤ max_low config)%Z)
    ∧ ((max_high config < high ∨ max_medium config < medium
        ∨ max_low config < low)%Z → all_passed = false)
    ∧ (max_high config = 0%Z → max_medium config = 5%Z →
       max_low config = 999%Z →
         (high = 0%Z → medium = 3%Z → low = 10%Z → all_passed = true)
         ∧ (high = 1%Z → medium = 0%Z → low = 0%Z → all_passed = false)).
Proof.
  intros Hh Hm Hl.
  exists ((high <=? max_high config)%Z && ((medium <=? max_medium config)%Z
          && ((low <=? max_low config)%Z && true))).
  split; [|split; [|split]].
  - unfold check_thresholds, getitem. rewrite Hh, Hm, Hl. reflexivity.
  - rewrite !andb_true_iff, !Z.leb_le. tauto.
  - intros H. apply not_true_is_false.
    rewrite !andb_true_iff, !Z.leb_le. lia.
  - intros -> -> ->. split; intros -> -> ->; reflexivity.
Qed.

(** C2 (amended).  On every finding list whose severity tags, where
    present, are among High, Medium, Low and Informational,
    [analyze_alerts] succeeds; the mapping it returns has exactly those
    four keys, and the count under each key is the number of findings
    with that severity, a finding without a tag counting as
    Informational.  Being a function of the finding list alone, the
    result is deterministic and nothing else is read or changed. *)
Theorem analyze_alerts_total_on_known_severities (alerts : list alert) :
  well_tagged alerts →
  ∃ risk_counts,
    analyze_alerts alerts = Done risk_counts
    ∧ dom risk_counts = list_to_set severities
    ∧ ∀ s, s ∈ severities → risk_counts !! s = Some (count_risk s alerts).
Proof.
  intros Hw.
  destruct (tally_counts alerts
              (list_to_map [("High", 0%Z); ("Medium", 0%Z); ("Low", 0%Z);
                            ("Informational", 0%Z)]) 0 0 0 0)
    as (rc & Ht & Hd & H1 & H2 & H3 & H4); [by simplify_map_eq.. | done |].
  exists rc. split; [exact Ht|]. split.
  - rewrite Hd. apply set_eq. intros x.
    rewrite elem_of_dom, elem_of_list_to_set. unfold severities.
    rewrite !elem_of_cons, elem_of_nil.
    split.
    + intros [v Hv].
      destruct (decide (x = "High")); [auto|].
      destruct (decide (x = "Medium")); [auto|].
      destruct (decide (x = "Low")); [auto|].
      destruct (decide (x = "Informational")); [auto 6|].
      by simplify_map_eq.
    + intros [->|[->|[->|[->|[]]]]]; by simplify_map_eq.
  - intros s Hs. unfold severities in Hs.
    repeat (apply elem_of_cons in Hs as [-> | Hs]);
      [ | | | |by apply elem_of_nil in Hs]; by simplify_eq.
Qed.

(** C2 does not hold for every finding list: a finding tagged with a
    severity outside the four buckets makes the aggregator raise
    [KeyError]. *)
Lemma analyze_alerts_unknown_severity_raises :
  analyze_alerts [ {[ "risk" := "Critical" ]} ] = Raised (KeyError "Critical")
  ∧ ¬ ∃ risk_counts,
        analyze_alerts [ {[ "risk" := "Critical" ]} ] = Done risk_counts.
Proof.
  assert (H : analyze_alerts [ {[ "risk" := "Critical" ]} ]
              = Raised (KeyError "Critical")) by (vm_compute; reflexivity).
  split; [exact H|]. intros [rc Hrc]. rewrite H in Hrc. discriminate.
Qed.


(** C10.  On a finding list whose severity tags, where present, are among
    the four known ones, the four counts returned by [analyze_alerts] add
    up to the number of findings. *)
Theorem analyze_alerts_counts_sum (alerts : list alert) :
  well_tagged alerts →
  ∃ risk_counts high medium low informational,
    analyze_alerts alerts = Done risk_counts
    ∧ risk_counts !! "High" = Some high
    ∧ risk_counts !! "Medium" = Some medium
    ∧ risk_counts !! "Low" = Some low
    ∧ risk_counts !! "Informational" = Some informational
    ∧ (high + medium + low + informational)%Z = Z.of_nat (length alerts).
Proof.
  intros Hw.
  destruct (tally_counts alerts
              (list_to_map [("High", 0%Z); ("Medium", 0%Z); ("Low", 0%Z);
                            ("Informational", 0%Z)]) 0 0 0 0)
    as (rc & Ht & Hd & H1 & H2 & H3 & H4); [by simplify_map_eq.. | done |].
  exists rc. do 4 eexists.
  split; [exact Ht|]. repeat (split; [eassumption|]).
  rewrite !Z.add_0_l. by apply count_risk_total.
Qed.

(** ** Reasoning about computations *)

Lemma sane_app {A : Type} (codes : list Z) (r : result A) (new1 new2 : list event) :
  Forall quiet new1 → sane codes r new2 → sane codes r (new1 ++ new2).
Proof.
  intros H1. unfold sane.
  destruct r as [a|[]|]; try (intros H2; apply Forall_app; done).
  - intros (pre & c & -> & Hpre). exists (new1 ++ pre), c.
    split; [by rewrite app_assoc | by apply Forall_app].
  - intros [Hc H2]. split; [done | by apply Forall_app].
Qed.

Lemma sane_quiet {A : Type} (codes : list Z) (r : result A) (new : list event) :
  sane codes r new → r ≠ Raised KeyboardInterrupt → Forall quiet new.
Proof.
  unfold sane. destruct r as [a|[]|]; try done. by intros [_ H].
Qed.

Lemma inv_ret {A : Type} (C : call → bool) (codes : list Z) (a : A) :
  satisfies (mret a) (inv C codes).
Proof.
  intros w h. exists []. unfold mret, M_ret. simpl. rewrite app_nil_r.
  split; [done|]. split; constructor.
Qed.

Lemma inv_lift {A : Type} (C : call → bool) (codes : list Z) (r : result A) :
  harmless codes r → satisfies (lift r) (inv C codes).
Proof.
  intros Hr w h. exists []. unfold lift. simpl. rewrite app_nil_r.
  split; [done|]. split; [constructor|]. unfold sane, harmless in *.
  destruct r as [a|[]|]; try done; try constructor; try done; constructor.
Qed.

Lemma inv_perform (C : call → bool) (codes : list Z) (c : call) :
  C c = true → satisfies (perform c) (inv C codes).
Proof.
  intros Hc w h. exists [Event c (w h c)]. unfold perform. simpl.
  repeat split.
  - by apply Forall_singleton.
  - unfold sane. destruct (w h c) eqn:E; simpl.
    + by apply Forall_singleton; unfold quiet; simpl; rewrite ?E.
    + by apply Forall_singleton; unfold quiet; simpl; rewrite ?E.
    + by exists [], c.
Qed.

Lemma inv_bind {A B : Type} (C : call → bool) (codes : list Z)
    (m : M A) (k : A → M B) :
  satisfies m (inv C codes) →
  (∀ a, satisfies (k a) (inv C codes)) →
  satisfies (m ≫= k) (inv C codes).
Proof.
  intros Hm Hk w h. unfold mbind, M_bind.
  destruct (Hm w h) as (new1 & Hh & HC & Hs).
  destruct (m w h) as [[a|e|] h1]; simpl in *; subst h1;
    [|by exists new1..].
  destruct (Hk a w (h ++ new1)) as (new2 & Hh2 & HC2 & Hs2).
  exists (new1 ++ new2). rewrite Hh2, app_assoc. split; [done|]. split.
  - by apply Forall_app.
  - by apply sane_app.
Qed.

Lemma inv_try_except {A : Type} (C : call → bool) (codes : list Z)
    (body : M A) (handler : exn → M A) :
  satisfies body (inv C codes) →
  (∀ e, satisfies (handler e) (inv C codes)) →
  satisfies (try_except body handler) (inv C codes).
Proof.
  intros Hb Hh w h. unfold try_except.
  destruct (Hb w h) as (new1 & Heq & HC & Hs).
  destruct (body w h) as [[a|e|] h1]; simpl in *; subst h1;
    [by exists new1| |by exists new1].
  destruct (is_Exception e) eqn:He; [|by exists new1].
  destruct (Hh e w (h ++ new1)) as (new2 & Hh2 & HC2 & Hs2).
  exists (new1 ++ new2). rewrite Hh2, app_assoc. split; [done|]. split.
  - by apply Forall_app.
  - apply sane_app; [|done].
    apply (sane_quiet codes (@Raised A e)); [done|]. by intros [= ->].
Qed.

Lemma inv_bind_lift {A B : Type} (C : call → bool) (codes : list Z)
    (r : result A) (k : A → M B) :
  harmless codes r →
  (∀ a, r = Done a → satisfies (k a) (inv C codes)) →
  satisfies (lift r ≫= k) (inv C codes).
Proof.
  intros Hr Hk. destruct r as [a|e|].
  - intros w h. apply (Hk a eq_refl w h).
  - apply (inv_lift C codes (@Raised B e)). exact Hr.
  - by apply (inv_lift C codes (@OutOfFuel B)).
Qed.

Lemma harmless_bind {A B : Type} (codes : list Z) (r : result A) (k : A → result B) :
  harmless codes r → (∀ a, harmless codes (k a)) → harmless codes (r ≫= k).
Proof. destruct r as [a|e|]; simpl; auto. Qed.

Lemma harmless_getitem {V : Type} (codes : list Z) (d : gmap string V) (k : string) :
  harmless codes (getitem d k).
Proof. unfold getitem. by destruct (d !! k). Qed.

Lemma harmless_int (codes : list Z) (s : string) : harmless codes (int s).
Proof. unfold int. by destruct (py_int s). Qed.

Lemma harmless_tally (codes : list Z) (alerts : list alert) :
  ∀ rc, harmless codes (tally rc alerts).
Proof.
  induction alerts as [|a rest IH]; intros rc; simpl; [done|].
  apply harmless_bind; [|done].
  apply harmless_bind; [apply harmless_getitem | done].
Qed.

Lemma harmless_analyze_alerts (codes : list Z) (alerts : list alert) :
  harmless codes (analyze_alerts alerts).
Proof. apply harmless_tally. Qed.

Lemma harmless_check_thresholds (codes : list Z) (rc : gmap string Z)
    (config : ScanConfig) :
  harmless codes (check_thresholds rc config).
Proof.
  unfold check_thresholds.
  repeat (apply harmless_bind; [apply harmless_getitem | intros ?]). done.
Qed.

Lemma harmless_show_all (codes : list Z) (alerts : list alert) :
  harmless codes (show_all alerts).
Proof.
  induction alerts as [|a rest IH]; simpl; [done|].
  apply harmless_bind; [|done]. unfold shown.
  repeat (apply harmless_bind; [apply harmless_getitem | intros ?]). done.
Qed.

Lemma harmless_display_results (codes : list Z) (alerts : list alert)
    (rc : gmap string Z) (config : ScanConfig) :
  harmless codes (display_results alerts rc config).
Proof.
  unfold display_results.
  repeat (apply harmless_bind; [apply harmless_getitem | intros ?]).
  apply harmless_bind; [apply harmless_show_all | intros ?].
  apply harmless_bind; [apply harmless_check_thresholds | by intros []].
Qed.

Lemma harmless_high_risk_entries (codes : list Z) (alerts : list alert) :
  harmless codes (high_risk_entries alerts).
Proof.
  induction alerts as [|a rest IH]; simpl; [done|].
  case_bool_decide; [|done].
  repeat (apply harmless_bind; [apply harmless_getitem | intros ?]).
  by apply harmless_bind.
Qed.

Lemma harmless_build_summary (codes : list Z) ts alerts config rc passed :
  harmless codes (build_summary ts alerts config rc passed).
Proof.
  unfold build_summary.
  apply harmless_bind; [apply harmless_high_risk_entries | done].
Qed.

Lemma harmless_reported_version (codes : list Z) (r : response) :
  harmless codes (reported_version r).
Proof. unfold reported_version. by destruct (content r). Qed.

Create HintDb scan.
#[local] Hint Resolve harmless_reported_version harmless_getitem
  harmless_int harmless_analyze_alerts
  harmless_check_thresholds harmless_display_results harmless_build_summary
  : scan.

(** One step of a footprint proof. *)
Ltac footprint_step :=
  first
    [ apply inv_ret
    | apply inv_lift; solve [auto with scan | done]
    | apply inv_perform; simpl; rewrite ?andb_true_iff, ?bool_decide_eq_true;
      solve [auto | repeat split; auto; lia]
    | apply inv_try_except; [|intros ?]
    | apply inv_bind; [|intros ?] ].

(** *** The footprint of each phase *)

Lemma status_attempt_footprint (config : ScanConfig) :
  satisfies (status_attempt config) (inv (wait_calls config) []).
Proof.
  unfold status_attempt. repeat footprint_step.
  destruct (_ =? _)%Z; repeat footprint_step.
Qed.

Lemma wait_attempts_footprint (config : ScanConfig) (attempts : nat) :
  satisfies (wait_attempts config attempts) (inv (wait_calls config) []).
Proof.
  induction attempts as [|n IH]; simpl; [apply inv_ret|].
  apply inv_bind; [apply status_attempt_footprint|].
  intros []; repeat footprint_step. exact IH.
Qed.

Lemma access_target_footprint (config : ScanConfig) :
  satisfies (access_target config) (inv (access_calls config) []).
Proof. unfold access_target. repeat footprint_step. Qed.

Lemma spider_wait_footprint (config : ScanConfig) (profile : ScanTypeProfile)
    (fuel : nat) (scan_id : string) (start_time : float) :
  satisfies
    (spider_wait fuel scan_id start_time (spider_max_duration profile * 60))
    (inv (spider_calls config profile) []).
Proof.
  induction fuel as [|fuel IH]; simpl; [by apply inv_lift|].
  repeat footprint_step.
  destruct (_ <? 100)%Z; [|apply inv_ret].
  repeat footprint_step.
  destruct (0 <? _)%Z eqn:Hpos; simpl.
  - apply Z.ltb_lt in Hpos.
    destruct (_ <? _)%Z; repeat footprint_step. exact IH.
  - repeat footprint_step. exact IH.
Qed.

Lemma run_spider_scan_footprint (fuel : nat) (config : ScanConfig)
    (profile : ScanTypeProfile) :
  satisfies (run_spider_scan fuel config profile)
            (inv (spider_calls config profile) []).
Proof.
  unfold run_spider_scan.
  apply inv_bind.
  { destruct (0 <? _)%Z eqn:Hpos; [|apply inv_ret].
    apply Z.ltb_lt in Hpos. footprint_step. }
  intros _. repeat footprint_step. apply spider_wait_footprint.
Qed.

Lemma ascan_wait_footprint (config : ScanConfig) (profile : ScanTypeProfile)
    (fuel : nat) (scan_id : string) :
  active_scan profile = true →
  satisfies (ascan_wait fuel scan_id) (inv (ascan_calls config profile) []).
Proof.
  intros Hact.
  induction fuel as [|fuel IH]; simpl; [by apply inv_lift|].
  repeat footprint_step.
  destruct (_ <? 100)%Z; [|apply inv_ret].
  repeat footprint_step. exact IH.
Qed.

Lemma run_active_scan_footprint (fuel : nat) (config : ScanConfig)
    (profile : ScanTypeProfile) :
  satisfies (run_active_scan fuel config profile)
            (inv (ascan_calls config profile) []).
Proof.
  unfold run_active_scan.
  destruct (active_scan profile) eqn:Hact; simpl; [|apply inv_ret].
  repeat footprint_step. by apply ascan_wait_footprint.
Qed.

Lemma get_alerts_footprint (config : ScanConfig) :
  satisfies (get_alerts config) (inv (alerts_calls config) []).
Proof. unfold get_alerts. footprint_step. Qed.

Lemma build_summary_fields ts alerts config rc passed (summary : Summary) :
  build_summary ts alerts config rc passed = Done summary →
  sum_risk_counts summary = rc ∧ sum_passed summary = passed.
Proof.
  unfold build_summary. destruct (high_risk_entries alerts); simpl; [|done..].
  by intros [= <-].
Qed.

Lemma save_reports_footprint (alerts : list alert) (config : ScanConfig)
    (risk_counts : gmap string Z) (scan_passed : bool) :
  satisfies (save_reports alerts config risk_counts scan_passed)
            (inv (report_calls config risk_counts scan_passed) []).
Proof.
  unfold save_reports.
  do 4 (apply inv_bind; [repeat footprint_step | intros ?]).
  apply inv_try_except; [|intros ?; apply inv_ret].
  apply inv_bind_lift; [auto with scan|].
  intros summary [Hrc Hp]%build_summary_fields.
  apply inv_perform. simpl. by rewrite bool_decide_eq_true.
Qed.

(** ** How a run of [main] unfolds *)

Lemma display_results_gate (alerts : list alert) (rc : gmap string Z)
    (config : ScanConfig) (passed : bool) :
  display_results alerts rc config = Done passed →
  ∃ checks, check_thresholds rc config = Done (passed, checks).
Proof.
  unfold display_results.
  repeat (match goal with
          | |- (?m ≫= _) = _ → _ => destruct m as [?| |]; simpl; [|done..]
          end).
  match goal with x : bool * list ThresholdCheck |- _ => destruct x as [p checks] end.
  intros [= ->]. by exists checks.
Qed.

Lemma terminates_bind {A B : Type} (r : result A) (k : A → result B) :
  r ≠ OutOfFuel → (∀ a, k a ≠ OutOfFuel) → r ≫= k ≠ OutOfFuel.
Proof. destruct r as [a|e|]; simpl; auto. Qed.

Lemma harmless_validate (config : ScanConfig) : harmless [2%Z] (_validate config).
Proof.
  unfold _validate.
  repeat (match goal with
          | |- context [if ?b then _ else _] => destruct b; simpl
          end; [set_solver|]).
  done.
Qed.

Lemma harmless_ScanConfig_init (environ : gmap string string) :
  harmless [2%Z] (ScanConfig_init environ).
Proof.
  unfold ScanConfig_init.
  apply harmless_bind.
  { unfold _get_required. destruct (environ !! _) as [v|]; simpl; [|set_solver].
    destruct (String.eqb v ""); simpl; [set_solver | done]. }
  intros ?. repeat (apply harmless_bind; [apply harmless_int | intros ?]).
  apply harmless_bind; [apply harmless_validate | done].
Qed.

Lemma ScanConfig_init_not_out_of_fuel (environ : gmap string string) :
  ScanConfig_init environ ≠ OutOfFuel.
Proof.
  unfold ScanConfig_init.
  apply terminates_bind.
  { unfold _get_required. destruct (environ !! _) as [v|]; simpl; [|done].
    by destruct (String.eqb v ""). }
  intros ?.
  repeat (apply terminates_bind;
          [unfold int; by destruct (py_int _) | intros ?]).
  apply terminates_bind; [|done].
  unfold _validate.
  repeat (match goal with
          | |- context [if ?b then _ else _] => destruct b; simpl
          end; [done|]).
  done.
Qed.

Lemma ScanConfig_init_validated (environ : gmap string string) (config : ScanConfig) :
  ScanConfig_init environ = Done config → _validate config = Done tt.
Proof.
  unfold ScanConfig_init.
  repeat (match goal with
          | |- (?m ≫= _) = _ → _ => destruct m as [?| |] eqn:?; simpl; [|done..]
          end).
  intros [= <-]. by match goal with u : unit |- _ => destruct u end.
Qed.

Lemma validated_profile (config : ScanConfig) :
  _validate config = Done tt →
  ∃ profile, ScanTypeConfig.get (scan_type config) = Done profile
             ∧ (scan_type config = "quick" → profile = ScanTypeConfig.quick)
             ∧ (scan_type config = "standard" → profile = ScanTypeConfig.standard)
             ∧ (scan_type config = "full" → profile = ScanTypeConfig.full).
Proof.
  unfold _validate. case_bool_decide as Hin; simpl; [|done]. intros _.
  repeat (apply elem_of_cons in Hin as [-> | Hin]);
    [ | | |by apply elem_of_nil in Hin];
    eexists; (split; [vm_compute; reflexivity|]); repeat split; done.
Qed.

Lemma bind_run {A B : Type} (m : M A) (k : A → M B) (w : world) (h : list event) :
  (m ≫= k) w h =
  match m w h with
  | (Done a, h') => k a w h'
  | (Raised e, h') => (Raised e, h')
  | (OutOfFuel, h') => (OutOfFuel, h')
  end.
Proof. reflexivity. Qed.

Lemma footprint_or_l (C1 C2 : call → bool) (l : list event) :
  Forall (λ e, C1 (ev_call e) = true) l →
  Forall (λ e, C1 (ev_call e) || C2 (ev_call e) = true) l.
Proof. intros H. apply (Forall_impl _ _ _ H). intros e ->. done. Qed.

Lemma after_spider_run (fuel : nat) (config : ScanConfig)
    (profile : ScanTypeProfile) (urls : list string)
    (w : world) (h : list event) (r : result unit) (tr : list event) :
  after_spider fuel config profile urls w h = (r, tr) →
  (∃ new, tr = h ++ new
     ∧ Forall (λ e, ascan_calls config profile (ev_call e)
                    || alerts_calls config (ev_call e) = true) new
     ∧ sane [] r new ∧ ∀ u, r ≠ Done u)
  ∨ (∃ new alerts risk_counts passed post r',
       Forall (λ e, ascan_calls config profile (ev_call e) = true) new
       ∧ Forall quiet new
       ∧ gated config w (h ++ new) alerts risk_counts passed post r'
       ∧ tr = (h ++ new)
              ++ [Event (CoreAlerts (target_url config)) (Returns alerts)]
              ++ post
       ∧ r = verdict passed r').
Proof.
  unfold after_spider. rewrite bind_run.
  destruct (run_active_scan_footprint fuel config profile w h)
    as (new & Htr & Hfp & Hs).
  destruct (run_active_scan fuel config profile w h) as [[[]|e|] h1];
    simpl in Htr, Hs; subst h1.
  2,3: intros [= <- <-]; left; exists new;
       repeat split; [by apply footprint_or_l|done..].
  rewrite bind_run. unfold get_alerts, perform.
  destruct (w (h ++ new) (CoreAlerts (target_url config))) as [alerts|what|] eqn:Hw;
    simpl.
  - rewrite !bind_run. unfold lift.
    assert (Hstop : ∀ (r0 : result unit),
      harmless [] r0 → (∀ u, r0 ≠ Done u) →
      (∃ new0, (h ++ new) ++ [Event (CoreAlerts (target_url config)) (Returns alerts)]
               = h ++ new0
         ∧ Forall (λ e, ascan_calls config profile (ev_call e)
                        || alerts_calls config (ev_call e) = true) new0
         ∧ sane [] r0 new0 ∧ ∀ u, r0 ≠ Done u)).
    { intros r0 He Hnd.
      exists (new ++ [Event (CoreAlerts (target_url config)) (Returns alerts)]).
      rewrite app_assoc. split; [done|]. split; [|split; [|done]].
      - apply Forall_app. split; [by apply footprint_or_l|].
        apply Forall_singleton. simpl. by rewrite bool_decide_true.
      - unfold sane, harmless in *.
        destruct r0 as [u|e|]; [by destruct (Hnd u)| |];
          try destruct e; try done; try (by apply elem_of_nil in He);
          (apply Forall_app; split; [done | by apply Forall_singleton]). }
    pose proof (harmless_analyze_alerts [] alerts) as Han.
    destruct (analyze_alerts alerts) as [rc|e|] eqn:Hrc;
      [|intros [= <- <-]; left; by apply Hstop..].
    pose proof (harmless_display_results [] alerts rc config) as Hdi.
    destruct (display_results alerts rc config) as [passed|e|] eqn:Hpassed;
      [|intros [= <- <-]; left; by apply Hstop..].
    intros Hr. repeat (rewrite bind_run in Hr; cbv beta iota in Hr).
    match type of Hr with
    | context [save_reports ?a ?c ?k ?p ?w0 ?h0] =>
        destruct (save_reports_footprint a c k p w0 h0)
          as (post & Hpost & Hfp' & Hs');
        destruct (save_reports a c k p w0 h0) as [r' h2] eqn:Hsave
    end.
    simpl in Hpost, Hs'. subst h2.
    right. exists new, alerts, rc, passed, post, r'.
    split; [done|]. split; [done|]. split; [|split].
    + unfold gated. cbv zeta. by repeat split.
    + destruct r' as [[]|e|]; [destruct passed|..]; injection Hr as <- <-;
        by rewrite <- app_assoc.
    + destruct r' as [[]|e|]; [destruct passed|..]; by injection Hr as <- <-.
  - intros [= <- <-]. left.
    exists (new ++ [Event (CoreAlerts (target_url config)) (Fails what)]).
    rewrite app_assoc. split; [done|]. split; [|split; [|done]].
    + apply Forall_app. split; [by apply footprint_or_l|].
      apply Forall_singleton. simpl. by rewrite bool_decide_true.
    + simpl. apply Forall_app; split; [done | by apply Forall_singleton].
  - intros [= <- <-]. left.
    exists (new ++ [Event (CoreAlerts (target_url config)) Interrupted]).
    rewrite app_assoc. split; [done|]. split; [|split; [|done]].
    + apply Forall_app. split; [by apply footprint_or_l|].
      apply Forall_singleton. simpl. by rewrite bool_decide_true.
    + simpl. by exists new, (CoreAlerts (target_url config)).
Qed.

Lemma sane_weaken {A B : Type} (codes : list Z) (r : result A) (r' : result B)
    (new : list event) :
  sane [] r new →
  match r, r' with
  | Done _, Done _ | OutOfFuel, OutOfFuel => True
  | Raised e, Raised e' => e = e'
  | _, _ => False
  end →
  sane codes r' new.
Proof.
  unfold sane. destruct r as [a|e|], r' as [a'|e'|]; try done.
  intros H <-. destruct e; try done. destruct H as [H _].
  by apply elem_of_nil in H.
Qed.

Lemma before_gate_wait (config : ScanConfig) (profile : ScanTypeProfile)
    (l : list event) :
  Forall (λ e, wait_calls config (ev_call e) = true) l →
  Forall (λ e, before_gate_calls config profile (ev_call e) = true) l.
Proof.
  intros H. apply (Forall_impl _ _ _ H). intros e He.
  unfold before_gate_calls. by rewrite He.
Qed.

Lemma before_gate_access (config : ScanConfig) (profile : ScanTypeProfile)
    (l : list event) :
  Forall (λ e, access_calls config (ev_call e) = true) l →
  Forall (λ e, before_gate_calls config profile (ev_call e) = true) l.
Proof.
  intros H. apply (Forall_impl _ _ _ H). intros e He.
  unfold before_gate_calls. rewrite He. by destruct (wait_calls _ _).
Qed.

Lemma before_gate_spider (config : ScanConfig) (profile : ScanTypeProfile)
    (l : list event) :
  Forall (λ e, spider_calls config profile (ev_call e) = true) l →
  Forall (λ e, before_gate_calls config profile (ev_call e) = true) l.
Proof.
  intros H. apply (Forall_impl _ _ _ H). intros e He.
  unfold before_gate_calls. rewrite He.
  by destruct (wait_calls _ _), (access_calls _ _).
Qed.

Lemma before_gate_after (config : ScanConfig) (profile : ScanTypeProfile)
    (l : list event) :
  Forall (λ e, ascan_calls config profile (ev_call e)
               || alerts_calls config (ev_call e) = true) l →
  Forall (λ e, before_gate_calls config profile (ev_call e) = true) l.
Proof.
  intros H. apply (Forall_impl _ _ _ H). intros e He.
  unfold before_gate_calls.
  destruct (wait_calls _ _), (access_calls _ _), (spider_calls _ _ _); try done.
Qed.

Lemma before_gate_ascan (config : ScanConfig) (profile : ScanTypeProfile)
    (l : list event) :
  Forall (λ e, ascan_calls config profile (ev_call e) = true) l →
  Forall (λ e, before_gate_calls config profile (ev_call e) = true) l.
Proof. intros H. by apply before_gate_after, footprint_or_l. Qed.

(** Every run of the [try] body of [main] either fails in the
    configuration, or stops before the gate, or reaches the gate. *)
Lemma main_try_run (environ : gmap string string) (fuel : nat) (w : world)
    (r : result unit) (tr : list event) :
  main_try environ fuel w [] = (r, tr) →
  (∃ e, ScanConfig_init environ = Raised e ∧ r = Raised e ∧ tr = [])
  ∨ ∃ config profile,
      ScanConfig_init environ = Done config
      ∧ ScanTypeConfig.get (scan_type config) = Done profile
      ∧ ((Forall (λ e, before_gate_calls config profile (ev_call e) = true) tr
          ∧ sane [2%Z] r tr ∧ ∀ u, r ≠ Done u)
         ∨ ∃ pre alerts risk_counts passed post r',
             Forall (λ e, before_gate_calls config profile (ev_call e) = true) pre
             ∧ Forall quiet pre
             ∧ gated config w pre alerts risk_counts passed post r'
             ∧ tr = pre ++ [Event (CoreAlerts (target_url config)) (Returns alerts)]
                        ++ post
             ∧ r = verdict passed r').
Proof.
  unfold main_try. rewrite bind_run. unfold lift at 1.
  pose proof (ScanConfig_init_not_out_of_fuel environ) as Hnf.
  destruct (ScanConfig_init environ) as [config|e|] eqn:Hcfg; [| |done].
  2: { intros [= <- <-]. left. by exists e. }
  destruct (validated_profile config (ScanConfig_init_validated _ _ Hcfg))
    as (profile & Hprof & _).
  rewrite bind_run. unfold lift at 1. rewrite Hprof.
  intros Hr. right. exists config, profile. do 2 (split; [done|]).
  revert Hr. rewrite bind_run.
  destruct (wait_attempts_footprint config 30 w []) as (new1 & Htr1 & Hfp1 & Hs1).
  unfold wait_for_zap.
  destruct (wait_attempts config 30 w []) as [[ready|e|] h1];
    cbn [fst snd] in Htr1, Hs1; subst h1.
  2,3: intros [= <- <-]; left; split; [by apply before_gate_wait|];
       split; [|done]; (eapply sane_weaken; [eassumption | done]).
  apply before_gate_wait with (profile := profile) in Hfp1.
  destruct (truthy ready); simpl.
  2: { intros [= <- <-]. left. split; [done|]. split; [|done].
       simpl. split; [set_solver | done]. }
  rewrite bind_run.
  destruct (access_target_footprint config w new1) as (new2 & Htr2 & Hfp2 & Hs2).
  apply before_gate_access with (profile := profile) in Hfp2.
  destruct (access_target config w new1) as [[[]|e|] h2];
    cbn [fst snd] in Htr2, Hs2; subst h2.
  2,3: intros [= <- <-]; left; split; [by apply Forall_app|];
       split; [|done]; apply sane_app; [done|]; (eapply sane_weaken; [eassumption | done]).
  rewrite bind_run.
  destruct (run_spider_scan_footprint fuel config profile w (new1 ++ new2))
    as (new3 & Htr3 & Hfp3 & Hs3).
  apply before_gate_spider in Hfp3.
  destruct (run_spider_scan fuel config profile w (new1 ++ new2)) as [[urls|e|] h3];
    cbn [fst snd] in Htr3, Hs3; subst h3.
  2,3: intros [= <- <-]; left; split; [by repeat apply Forall_app_2|];
       split; [|done]; apply sane_app; [by apply Forall_app|];
       (eapply sane_weaken; [eassumption | done]).
  intros [(new4 & -> & Hfp4 & Hs4 & Hnd)
         |(new4 & alerts & rc & passed & post & r' & Hfp4 & Hq4 & Hg & -> & ->)]
         %after_spider_run.
  - left. apply before_gate_after in Hfp4.
    split; [by repeat apply Forall_app_2|]. split; [|done].
    apply sane_app; [by repeat apply Forall_app_2|].
    destruct r as [u|e|]; [by destruct (Hnd u)|(eapply sane_weaken; [eassumption | done])..].
  - right. apply before_gate_ascan in Hfp4.
    exists ((new1 ++ new2) ++ new3 ++ new4), alerts, rc, passed, post, r'.
    rewrite <- !app_assoc in *.
    split; [by repeat apply Forall_app_2|].
    split; [by repeat apply Forall_app_2|]. done.
Qed.

(** ** Scripted runs *)

Lemma answers_app (w : world) (s1 s2 : list event) :
  ∀ h, answers w h (s1 ++ s2) ↔ answers w h s1 ∧ answers w (h ++ s1) s2.
Proof.
  induction s1 as [|e s1 IH]; intros h; simpl.
  - rewrite app_nil_r. tauto.
  - rewrite IH, <- app_assoc. simpl. tauto.
Qed.

(** Every script is answered by the world that plays it, so a statement
    about the worlds that answer a script is never empty. *)
Lemma scripted_answers_from (script : list event) :
  ∀ h rest, script = h ++ rest → answers (scripted script) h rest.
Proof.
  intros h rest. revert h.
  induction rest as [|e rest IH]; intros h Hs; simpl; [done|]. split.
  - unfold scripted. rewrite Hs.
    rewrite lookup_app_r by lia. rewrite Nat.sub_diag. simpl.
    destruct (decide (ev_call e = ev_call e)) as [H|]; [|done].
    by rewrite (proof_irrel H eq_refl).
  - apply IH. by rewrite <- app_assoc.
Qed.

Lemma produces_scripted {A : Type} (m : M A) (script : list event) (r : result A) :
  produces m script r → m (scripted script) [] = (r, script).
Proof. intros Hm. by apply (Hm _ []), scripted_answers_from. Qed.

Lemma produces_ret {A : Type} (a : A) : produces (mret a) [] (Done a).
Proof. intros w h _. by rewrite app_nil_r. Qed.

Lemma produces_lift {A : Type} (r : result A) : produces (lift r) [] r.
Proof. intros w h _. unfold lift. by rewrite app_nil_r. Qed.

Lemma produces_perform (c : call) (o : outcome (reply c)) :
  produces (perform c) [Event c o] (result_of o).
Proof. intros w h [Hw _]. unfold perform. simpl in Hw. by rewrite Hw. Qed.

Lemma produces_bind {A B : Type} (m : M A) (k : A → M B) (a : A)
    (s1 s2 : list event) (r : result B) :
  produces m s1 (Done a) → produces (k a) s2 r →
  produces (m ≫= k) (s1 ++ s2) r.
Proof.
  intros Hm Hk w h [H1 H2]%answers_app.
  rewrite bind_run, (Hm w h H1), (Hk w (h ++ s1) H2). by rewrite app_assoc.
Qed.

Lemma produces_try_done {A : Type} (body : M A) (handler : exn → M A) (a : A)
    (s : list event) :
  produces body s (Done a) → produces (try_except body handler) s (Done a).
Proof. intros Hb w h H. unfold try_except. by rewrite (Hb w h H). Qed.

Lemma produces_step {B : Type} (c : call) (v : reply c) (k : reply c → M B)
    (s : list event) (r : result B) :
  produces (k v) s r →
  produces (perform c ≫= k) (Event c (Returns v) :: s) r.
Proof.
  intros Hk. apply (produces_bind _ _ v [_] s); [|done].
  apply (produces_perform c (Returns v)).
Qed.

(** *** The readiness poller *)

Lemma status_attempt_unready (config : ScanConfig) (o : outcome response) :
  unready o = true →
  produces (status_attempt config) [status_request config o] (Done false).
Proof.
  intros Ho w h [Hw _]. simpl in Hw.
  unfold status_attempt, try_except. rewrite bind_run. unfold perform.
  rewrite Hw. destruct o as [resp|what|]; [| |done]; simpl in *.
  - destruct (status_code resp =? 200)%Z; simpl in *; [|done].
    rewrite bind_run. unfold lift, reported_version.
    by destruct (content resp).
  - done.
Qed.

Lemma status_attempt_ready (config : ScanConfig) (resp : response)
    (version : option string) :
  status_code resp = 200%Z → content resp = JsonObject version →
  produces (status_attempt config) [status_request config (Returns resp)]
           (Done true).
Proof.
  intros Hcode Hbody w h [Hw _]. simpl in Hw.
  unfold status_attempt, try_except. rewrite bind_run. unfold perform.
  rewrite Hw. simpl. rewrite Hcode. simpl.
  rewrite bind_run. unfold lift, reported_version. by rewrite Hbody.
Qed.

Lemma wait_attempts_exhausted (config : ScanConfig) (os : list (outcome response)) :
  Forall (λ o, unready o = true) os →
  produces (wait_attempts config (length os)) (failed_attempts config os)
           (Done (PyBool false)).
Proof.
  induction 1 as [|o os Ho _ IH]; simpl; [apply produces_ret|].
  apply (produces_bind _ _ false [_] (_ :: _));
    [by apply status_attempt_unready|].
  apply (produces_bind _ _ tt [_] _); [apply (produces_perform (Sleep 2))|].
  exact IH.
Qed.

Lemma wait_attempts_ready (config : ScanConfig) (os : list (outcome response))
    (resp : response) (version : option string) (spare : nat) :
  Forall (λ o, unready o = true) os →
  status_code resp = 200%Z → content resp = JsonObject version →
  produces (wait_attempts config (length os + S spare))
           (failed_attempts config os ++ [status_request config (Returns resp)])
           (Done (PyBool true)).
Proof.
  intros Hos Hcode Hbody.
  induction Hos as [|o os Ho _ IH]; simpl.
  - apply (produces_bind _ _ true [_] []);
      [by eapply status_attempt_ready | apply produces_ret].
  - apply (produces_bind _ _ false [_] (_ :: _));
      [by apply status_attempt_unready|].
    apply (produces_bind _ _ tt [_] _); [apply (produces_perform (Sleep 2))|].
    exact IH.
Qed.

Lemma status_attempt_trace (config : ScanConfig) (w : world) (h : list event) :
  (status_attempt config w h).2
  = h ++ [status_request config
            (w h (RequestsGet (zap_host config) (zap_port config) 5))].
Proof.
  unfold status_attempt, try_except. rewrite bind_run. unfold perform.
  destruct (w h _) as [resp|what|]; simpl; [|done..].
  destruct (status_code resp =? 200)%Z; simpl; [|done].
  rewrite bind_run. unfold lift, reported_version.
  by destruct (content resp).
Qed.

(** However the world behaves, [attempts] attempts make at most
    [attempts] status requests. *)
Lemma wait_attempts_budget (config : ScanConfig) (attempts : nat) :
  ∀ (w : world) (h : list event),
    ∃ new, (wait_attempts config attempts w h).2 = h ++ new
           ∧ (length (List.filter is_status_request new) ≤ attempts)%nat.
Proof.
  induction attempts as [|n IH]; intros w h; simpl.
  - exists []. by rewrite app_nil_r.
  - rewrite bind_run. pose proof (status_attempt_trace config w h) as Htr.
    destruct (status_attempt config w h) as [[[]|e|] h1]; simpl in Htr; subst h1.
    + eexists [_]. split; [done|]. simpl. lia.
    + rewrite bind_run. unfold perform.
      destruct (w _ (Sleep 2)) as [[]|what|]; simpl.
      * destruct (IH w ((h ++ [status_request config
                                 (w h (RequestsGet (zap_host config) (zap_port config) 5))])
                        ++ [Event (Sleep 2) (Returns tt)])) as (new & -> & Hn).
        eexists (_ :: _ :: new). rewrite <- !app_assoc. split; [done|].
        simpl. lia.
      * eexists [_; _]. rewrite <- app_assoc. split; [done|]. simpl. lia.
      * eexists [_; _]. rewrite <- app_assoc. split; [done|]. simpl. lia.
    + eexists [_]. split; [done|]. simpl. lia.
    + eexists [_]. split; [done|]. simpl. lia.
Qed.

(** *** The crawl driver *)

Lemma spider_wait_rounds (scan_id : string) (start_time : float)
    (max_duration : Z) (rounds : list (string * string * float))
    (script : list event) (r : result unit) (fuel : nat) :
  Forall (λ '(status, progress, now),
            (∃ n, py_int status = Some n ∧ (n < 100)%Z)
            ∧ over_time max_duration start_time now = false) rounds →
  produces (spider_wait fuel scan_id start_time max_duration) script r →
  produces (spider_wait (length rounds + fuel) scan_id start_time max_duration)
           (spider_rounds scan_id rounds ++ script) r.
Proof.
  intros Hrounds Hrest.
  induction Hrounds as [|[[status progress] now] rounds [(n & Hn & Hlt) Hot] _ IH];
    simpl; [done|].
  intros w h Hans. simpl in Hans.
  destruct Hans as (Hw1 & Hw2 & Hw3 & Hw4 & Hans).
  rewrite bind_run. unfold perform at 1. rewrite Hw1. cbv beta iota zeta.
  rewrite bind_run. unfold lift at 1, int at 1. rewrite Hn. cbv beta iota.
  apply Z.ltb_lt in Hlt. rewrite Hlt.
  rewrite bind_run. unfold perform at 1. rewrite Hw2. cbv beta iota zeta.
  rewrite bind_run. unfold perform at 1. rewrite Hw3. cbv beta iota zeta.
  unfold over_time, elapsed_since in Hot. rewrite Hot.
  rewrite bind_run. unfold perform at 1. rewrite Hw4. cbv beta iota zeta.
  rewrite (IH w _ Hans). by rewrite <- !app_assoc.
Qed.

(** The next request of the computation is answered as [H] says. *)
Ltac answered H :=
  rewrite ?bind_run; unfold perform at 1; rewrite H; cbv beta iota zeta.

Lemma spider_wait_timeout (scan_id status progress : string)
    (start_time now : float) (max_duration n : Z) (fuel : nat) :
  py_int status = Some n → (n < 100)%Z →
  over_time max_duration start_time now = true →
  produces (spider_wait (S fuel) scan_id start_time max_duration)
           [Event (SpiderStatus scan_id) (Returns status);
            Event (SpiderStatus scan_id) (Returns progress);
            Event Time (Returns now);
            Event (SpiderStop scan_id) (Returns tt)]
           (Done tt).
Proof.
  intros Hn Hlt Hot w h (Hw1 & Hw2 & Hw3 & Hw4 & _). simpl in *.
  answered Hw1.
  rewrite bind_run. unfold lift at 1, int at 1. rewrite Hn. cbv beta iota.
  apply Z.ltb_lt in Hlt. rewrite Hlt.
  answered Hw2. answered Hw3.
  unfold over_time, elapsed_since in Hot. rewrite Hot.
  answered Hw4. by rewrite <- !app_assoc.
Qed.

Lemma run_spider_scan_timeout (config : ScanConfig) (profile : ScanTypeProfile)
    (scan_id status progress : string) (start_time now : float)
    (n : Z) (rounds : list (string * string * float))
    (urls : list string) (fuel : nat) :
  let max_duration := (spider_max_duration profile * 60)%Z in
  Forall (λ '(status, progress, now),
            (∃ n, py_int status = Some n ∧ (n < 100)%Z)
            ∧ over_time max_duration start_time now = false) rounds →
  py_int status = Some n → (n < 100)%Z →
  over_time max_duration start_time now = true →
  produces (run_spider_scan (length rounds + S fuel) config profile)
           (spider_prelude config profile scan_id start_time
            ++ spider_rounds scan_id rounds
            ++ spider_timeout scan_id status progress now urls)
           (Done urls).
Proof.
  intros max_duration Hrounds Hn Hlt Hot. unfold run_spider_scan.
  unfold spider_prelude. rewrite <- app_assoc.
  apply (produces_bind _ _ tt).
  { destruct (0 <? _)%Z; [|apply produces_ret].
    apply (produces_perform (SpiderSetOptionMaxDepth _) (Returns tt)). }
  simpl. apply (produces_step (SpiderScan _)), (produces_step Time).
  change (spider_timeout scan_id status progress now urls)
    with ([Event (SpiderStatus scan_id) (Returns status);
           Event (SpiderStatus scan_id) (Returns progress);
           Event Time (Returns now);
           Event (SpiderStop scan_id) (Returns tt)]
          ++ [Event (SpiderResults scan_id) (Returns urls)]).
  rewrite app_assoc. apply (produces_bind _ _ tt).
  { apply spider_wait_rounds; [done|]. by eapply spider_wait_timeout. }
  apply (produces_step (SpiderResults _)), produces_ret.
Qed.

(** *** Saving the reports *)

Lemma save_reports_all_written (alerts : list alert) (config : ScanConfig)
    (risk_counts : gmap string Z) (scan_passed : bool)
    (timestamp html : string) (summary : Summary) :
  build_summary timestamp alerts config risk_counts scan_passed = Done summary →
  produces (save_reports alerts config risk_counts scan_passed)
           (reports_script config timestamp html alerts summary) (Done tt).
Proof.
  intros Hsum. unfold save_reports, reports_script.
  apply (produces_step (Mkdir _)), (produces_step Strftime).
  apply (produces_bind _ _ tt [_; _]).
  { apply produces_try_done, (produces_step CoreHtmlreport).
    apply (produces_perform (WriteFile _ _ _) (Returns tt)). }
  apply (produces_bind _ _ tt [_]).
  { apply produces_try_done.
    apply (produces_perform (WriteFile _ _ _) (Returns tt)). }
  apply produces_try_done.
  apply (produces_bind _ _ summary []); [rewrite Hsum; apply produces_lift|].
  apply (produces_perform (WriteFile _ _ _) (Returns tt)).
Qed.

(** ** The exit code of [main] *)

(** Membership in a list that is written out. *)
Ltac list_mem :=
  try (intros ? ?);
  repeat match goal with
         | H : _ ∈ _ :: _ |- _ => apply elem_of_cons in H as [H|H]
         | H : _ ∈ [] |- _ => by apply elem_of_nil in H
         | H : _ ∨ _ |- _ => destruct H
         end;
  subst; try done; by repeat constructor.

Lemma main_handled (environ : gmap string string) (fuel : nat) (w : world)
    (h : list event) :
  main environ fuel w h =
  (match (main_try environ fuel w h).1 with
   | Raised KeyboardInterrupt => sys_exited 130
   | Raised e => if is_Exception e then sys_exited 2 else Raised e
   | other => other
   end, (main_try environ fuel w h).2).
Proof.
  unfold main. destruct (main_try environ fuel w h) as [[u|e|] h'];
    [done| |done].
  destruct e; simpl; done.
Qed.

Lemma sane_interrupt {A : Type} (codes : list Z) (r : result A) (tr : list event) :
  sane codes r tr → (r = Raised KeyboardInterrupt ↔ user_interrupt tr).
Proof.
  intros Hs. split.
  - intros ->. destruct Hs as (pre & c & -> & _). exists c.
    apply elem_of_app. right. by left.
  - intros [c Hc].
    assert (Hq : r ≠ Raised KeyboardInterrupt → False).
    { intros Hne. pose proof (sane_quiet codes r tr Hs Hne) as Hq.
      rewrite Forall_forall in Hq. exact (Hq _ Hc). }
    destruct r as [a|[]|]; try done; by destruct Hq.
Qed.

Lemma sane_mono {A : Type} (codes codes' : list Z) (r : result A) (tr : list event) :
  codes ⊆ codes' → sane codes r tr → sane codes' r tr.
Proof.
  intros Hsub. unfold sane. destruct r as [a|[]|]; try done.
  intros [Hin Hq]. split; [by apply Hsub | done].
Qed.

Lemma main_try_sane (environ : gmap string string) (fuel : nat) (w : world)
    (r : result unit) (tr : list event) :
  main_try environ fuel w [] = (r, tr) →
  sane [0; 1; 2]%Z r tr ∧ ∀ u, r ≠ Done u.
Proof.
  intros [(e & Hcfg & -> & ->)
         |(config & profile & Hcfg & Hprof &
           [(Hfp & Hs & Hnd)
           |(pre & alerts & rc & passed & post & r' & Hfp & Hq & Hg & -> & ->)])]
         %main_try_run.
  - split; [|done]. pose proof (harmless_ScanConfig_init environ) as Hh.
    rewrite Hcfg in Hh. unfold harmless in Hh. unfold sane.
    destruct e; try done; try (by constructor).
    split; [list_mem | constructor].
  - split; [|done]. apply (sane_mono [2%Z]); [list_mem | done].
  - destruct Hg as (_ & _ & _ & _ & Hs').
    assert (Hev : Forall quiet (pre ++ [Event (CoreAlerts (target_url config))
                                          (Returns alerts)])).
    { apply Forall_app. split; [done|]. by apply Forall_singleton. }
    rewrite app_assoc.
    destruct r' as [[]|e|]; unfold verdict; (split; [|done]).
    + split; [destruct passed; list_mem | by apply Forall_app].
    + apply (sane_app _ (@Raised unit e)); [done|].
      apply (sane_mono []); [list_mem | done].
    + by apply (sane_app _ (@OutOfFuel unit)).
Qed.

(** Once the findings are retrieved, a run that exits with 0 or 1 does so
    by the gate. *)
Lemma main_try_exit_gate (environ : gmap string string) (fuel : nat) (w : world)
    (code : Z) (tr : list event) :
  main_try environ fuel w [] = (sys_exited code, tr) →
  code = 0%Z ∨ code = 1%Z →
  ∃ config profile pre alerts risk_counts post,
    ScanConfig_init environ = Done config
    ∧ ScanTypeConfig.get (scan_type config) = Done profile
    ∧ Forall (λ e, before_gate_calls config profile (ev_call e) = true) pre
    ∧ gated config w pre alerts risk_counts (bool_decide (code = 0%Z)) post
            (Done tt)
    ∧ tr = pre ++ [Event (CoreAlerts (target_url config)) (Returns alerts)]
               ++ post.
Proof.
  intros [(e & Hcfg & He & ->)
         |(config & profile & Hcfg & Hprof &
           [(Hfp & Hs & Hnd)
           |(pre & alerts & rc & passed & post & r' & Hfp & Hq & Hg & -> & Hr)])]
         %main_try_run Hcode.
  - pose proof (harmless_ScanConfig_init environ) as Hh.
    rewrite Hcfg in Hh. injection He as <-. simpl in Hh. list_mem.
  - destruct Hs as [Hin _]. list_mem.
  - exists config, profile, pre, alerts, rc, post.
    do 3 (split; [done|]). split; [|done].
    destruct r' as [[]|e|]; simpl in Hr; [| |done].
    + injection Hr as ->. by destruct passed.
    + injection Hr as <-. destruct Hg as (_ & _ & _ & _ & [Hin _]).
      by apply elem_of_nil in Hin.
Qed.

(** ** Main results: the run *)

Lemma main_completed (environ : gmap string string) (fuel : nat) (w : world)
    (config : ScanConfig) (profile : ScanTypeProfile) (ready : pyval)
    (h1 h2 h3 h4 h5 : list event) (urls : list string) (alerts : list alert)
    (risk_counts : gmap string Z) (passed : bool) :
  ScanConfig_init environ = Done config →
  ScanTypeConfig.get (scan_type config) = Done profile →
  wait_for_zap config w [] = (Done ready, h1) → truthy ready = true →
  access_target config w h1 = (Done tt, h2) →
  run_spider_scan fuel config profile w h2 = (Done urls, h3) →
  run_active_scan fuel config profile w h3 = (Done tt, h4) →
  w h4 (CoreAlerts (target_url config)) = Returns alerts →
  analyze_alerts alerts = Done risk_counts →
  display_results alerts risk_counts config = Done passed →
  save_reports alerts config risk_counts passed w
    (h4 ++ [Event (CoreAlerts (target_url config)) (Returns alerts)])
  = (Done tt, h5) →
  main environ fuel w [] = (sys_exited (if passed then 0 else 1), h5).
Proof.
  intros Hcfg Hprof Hwait Hready Haccess Hspider Hascan Halerts Hrc Hpassed Hsave.
  assert (Htry : main_try environ fuel w []
                 = (sys_exited (if passed then 0 else 1), h5));
    [|rewrite main_handled, Htry; by destruct passed].
  unfold main_try, after_spider, get_alerts.
  rewrite bind_run. unfold lift at 1. rewrite Hcfg. cbv beta iota.
  rewrite bind_run. unfold lift at 1. rewrite Hprof. cbv beta iota.
  rewrite bind_run, Hwait. cbv beta iota. rewrite Hready. cbn [negb].
  rewrite bind_run, Haccess. cbv beta iota.
  rewrite bind_run, Hspider. cbv beta iota.
  rewrite bind_run, Hascan. cbv beta iota. answered Halerts.
  rewrite bind_run. unfold lift at 1. rewrite Hrc. cbv beta iota.
  rewrite bind_run. unfold lift at 1. rewrite Hpassed. cbv beta iota.
  rewrite bind_run, Hsave. by destruct passed.
Qed.

Lemma main_exits_by_gate (environ : gmap string string) (fuel : nat) (w : world)
    (code : Z) :
  (main environ fuel w []).1 = sys_exited code → code = 0%Z ∨ code = 1%Z →
  ∃ config alerts risk_counts checks,
    ScanConfig_init environ = Done config
    ∧ Event (CoreAlerts (target_url config)) (Returns alerts)
      ∈ (main environ fuel w []).2
    ∧ analyze_alerts alerts = Done risk_counts
    ∧ check_thresholds risk_counts config
      = Done (bool_decide (code = 0%Z), checks).
Proof.
  rewrite main_handled.
  destruct (main_try environ fuel w []) as [r tr] eqn:Hrun. cbn [fst snd].
  intros Hr Hcode.
  assert (r = sys_exited code) as ->.
  { destruct r as [u|e|]; [done| |done].
    destruct e; simpl in Hr; try done; injection Hr as <-;
      by destruct Hcode. }
  destruct (main_try_exit_gate _ _ _ _ _ Hrun Hcode)
    as (config & profile & pre & alerts & rc & post & Hcfg & _ & _ & Hg & ->).
  destruct Hg as (Hrc & Hpassed & _).
  destruct (display_results_gate _ _ _ _ Hpassed) as [checks Hchecks].
  exists config, alerts, rc, checks. repeat split; try done.
  apply elem_of_app. right. by left.
Qed.

(** C4.  Whenever a run of [main] writes a run summary, the summary's risk
    counts are the result of [analyze_alerts] on the findings the scanner
    returned in that run, its verdict is the overall result of
    [check_thresholds] on those counts, and if the run exits with 0 or 1
    the code is 0 exactly when that verdict is true.  [save_reports]
    itself puts into every summary it writes the counts and the verdict
    it was given, and when its requests all return it writes the summary
    built from them.  And [main] does write it: in a run whose phases
    complete and whose report requests return, the summary built from
    the counts of [analyze_alerts] on the retrieved findings and from the
    verdict of the gate is written, and the run exits with 0 or 1 by
    that verdict. *)
Theorem summary_matches_computed_values :
  (∀ (environ : gmap string string) (fuel : nat) (w : world)
     (dir file : string) (summary : Summary) (o : outcome unit),
     let run := main environ fuel w [] in
     Event (WriteFile dir file (SummaryJson summary)) o ∈ run.2 →
     ∃ config alerts risk_counts checks,
       ScanConfig_init environ = Done config
       ∧ Event (CoreAlerts (target_url config)) (Returns alerts) ∈ run.2
       ∧ analyze_alerts alerts = Done risk_counts
       ∧ sum_risk_counts summary = risk_counts
       ∧ check_thresholds risk_counts config = Done (sum_passed summary, checks)
       ∧ (∀ code, run.1 = sys_exited code → code = 0%Z ∨ code = 1%Z →
            code = if sum_passed summary then 0%Z else 1%Z))
  ∧ (∀ (alerts : list alert) (config : ScanConfig) (risk_counts : gmap string Z)
       (scan_passed : bool) (w : world) (h : list event),
       ∃ new, (save_reports alerts config risk_counts scan_passed w h).2 = h ++ new
         ∧ ∀ dir file summary (o : outcome unit),
             Event (WriteFile dir file (SummaryJson summary)) o ∈ new →
             sum_risk_counts summary = risk_counts
             ∧ sum_passed summary = scan_passed)
  ∧ (∀ (alerts : list alert) (config : ScanConfig) (risk_counts : gmap string Z)
       (scan_passed : bool) (timestamp html : string) (summary : Summary),
       build_summary timestamp alerts config risk_counts scan_passed = Done summary →
       sum_risk_counts summary = risk_counts
       ∧ sum_passed summary = scan_passed
       ∧ produces (save_reports alerts config risk_counts scan_passed)
                  (reports_script config timestamp html alerts summary)
                  (Done tt)
       ∧ Event (WriteFile (report_dir config)
                          ("zap_summary_" +:+ timestamp +:+ ".json")
                          (SummaryJson summary)) (Returns tt)
         ∈ (save_reports alerts config risk_counts scan_passed
              (scripted (reports_script config timestamp html alerts summary))
              []).2)
  ∧ (∀ (environ : gmap string string) (fuel : nat) (w : world)
       (config : ScanConfig) (profile : ScanTypeProfile) (ready : pyval)
       (h1 h2 h3 h4 : list event) (urls : list string) (alerts : list alert)
       (risk_counts : gmap string Z) (passed : bool)
       (timestamp html : string) (summary : Summary),
       let retrieved :=
         h4 ++ [Event (CoreAlerts (target_url config)) (Returns alerts)] in
       let run := main environ fuel w [] in
       ScanConfig_init environ = Done config →
       ScanTypeConfig.get (scan_type config) = Done profile →
       wait_for_zap config w [] = (Done ready, h1) → truthy ready = true →
       access_target config w h1 = (Done tt, h2) →
       run_spider_scan fuel config profile w h2 = (Done urls, h3) →
       run_active_scan fuel config profile w h3 = (Done tt, h4) →
       w h4 (CoreAlerts (target_url config)) = Returns alerts →
       analyze_alerts alerts = Done risk_counts →
       display_results alerts risk_counts config = Done passed →
       build_summary timestamp alerts config risk_counts passed = Done summary →
       answers w retrieved
               (reports_script config timestamp html alerts summary) →
       run = (sys_exited (if passed then 0 else 1),
              retrieved ++ reports_script config timestamp html alerts summary)
       ∧ Event (WriteFile (report_dir config)
                          ("zap_summary_" +:+ timestamp +:+ ".json")
                          (SummaryJson summary)) (Returns tt) ∈ run.2
       ∧ sum_risk_counts summary = risk_counts
       ∧ sum_passed summary = passed
       ∧ ∃ checks, check_thresholds risk_counts config = Done (passed, checks)).
Proof.
  assert (Hwritten : ∀ config rc passed post dir file summary (o : outcome unit),
    Forall (λ e, report_calls config rc passed (ev_call e) = true) post →
    Event (WriteFile dir file (SummaryJson summary)) o ∈ post →
    sum_risk_counts summary = rc ∧ sum_passed summary = passed).
  { intros config rc passed post dir file summary o Hfp Hin.
    rewrite Forall_forall in Hfp. specialize (Hfp _ Hin). simpl in Hfp.
    apply bool_decide_eq_true in Hfp. tauto. }
  assert (Hnone : ∀ config profile pre dir file summary (o : outcome unit),
    Forall (λ e, before_gate_calls config profile (ev_call e) = true) pre →
    Event (WriteFile dir file (SummaryJson summary)) o ∈ pre → False).
  { intros config profile pre dir file summary o Hfp Hin.
    rewrite Forall_forall in Hfp. specialize (Hfp _ Hin). simpl in Hfp.
    unfold before_gate_calls in Hfp. simpl in Hfp.
    by destruct (active_scan profile). }
  split; [|split; [|split]].
  - intros environ fuel w dir file summary o run. subst run.
    rewrite main_handled. cbn [fst snd].
    destruct (main_try environ fuel w []) as [r tr] eqn:Hrun. cbn [fst snd].
    intros Hin.
    destruct (main_try_run _ _ _ _ _ Hrun)
      as [(e & Hcfg & -> & ->)
         |(config & profile & Hcfg & Hprof &
           [(Hfp & Hs & Hnd)
           |(pre & alerts & rc & passed & post & r' & Hfp & Hq & Hg & -> & ->)])].
    + by apply elem_of_nil in Hin.
    + destruct (Hnone config profile _ _ _ _ _ Hfp Hin).
    + destruct Hg as (Hrc & Hpassed & Hsave & Hfp' & Hs').
      apply elem_of_app in Hin as [Hin|Hin];
        [destruct (Hnone config profile _ _ _ _ _ Hfp Hin)|].
      apply elem_of_cons in Hin as [Hin|Hin]; [done|].
      destruct (Hwritten config rc passed _ _ _ _ _ Hfp' Hin) as [Hsrc Hsp].
      destruct (display_results_gate _ _ _ _ Hpassed) as [checks Hchecks].
      exists config, alerts, rc, checks. rewrite Hsrc, Hsp.
      repeat split; try done.
      { apply elem_of_app. right. by left. }
      intros code Hcode Hor.
      destruct r' as [[]|e|]; simpl in Hcode.
      * destruct passed; by injection Hcode as <-.
      * destruct e; simpl in Hcode; try done; injection Hcode as <-;
          try (by destruct Hor); destruct Hs' as [He _];
          by apply elem_of_nil in He.
      * done.
  - intros alerts config rc passed w h.
    destruct (save_reports_footprint alerts config rc passed w h)
      as (new & Htr & Hfp & _).
    exists new. split; [done|]. intros dir file summary o.
    by apply (Hwritten config).
  - intros alerts config rc passed ts html summary Hsum.
    destruct (build_summary_fields _ _ _ _ _ _ Hsum) as [H1 H2].
    pose proof (save_reports_all_written alerts config rc passed ts html
                  summary Hsum) as Hsaved.
    repeat split; try done.
    rewrite (produces_scripted _ _ _ Hsaved). unfold reports_script. simpl.
    do 5 apply list_elem_of_further. apply list_elem_of_here.
  - intros environ fuel w config profile ready h1 h2 h3 h4 urls alerts rc
           passed ts html summary retrieved run Hcfg Hprof Hwait Hready
           Haccess Hspider Hascan Halerts Hrc Hpassed Hsum Hans.
    destruct (build_summary_fields _ _ _ _ _ _ Hsum) as [H1 H2].
    pose proof (save_reports_all_written alerts config rc passed ts html
                  summary Hsum w retrieved Hans) as Hsaved.
    assert (Hrun : run = (sys_exited (if passed then 0 else 1),
                          retrieved
                          ++ reports_script config ts html alerts summary))
      by (eapply main_completed; eassumption).
    split; [exact Hrun|]. rewrite Hrun. cbn [snd].
    split; [|split; [done|split; [done|by eapply display_results_gate]]].
    apply elem_of_app. right. unfold reports_script.
    do 5 apply list_elem_of_further. apply list_elem_of_here.
Qed.

(** C5.  A run of [main] that ends, ends by exiting with 0, 1, 2 or 130.
    The code is 130 exactly when the user interrupted a request; a
    configuration error gives 2 before any request is made; a scanner that
    never became available gives 2; an exception raised in the body of
    [main] gives 2; a run exits with 0 or 1 only after the findings were
    retrieved, with 0 exactly when [check_thresholds] passes on their
    counts; and when every phase completes the code is 0 or 1 by the
    verdict of the gate alone. *)
Theorem main_exit_code (environ : gmap string string) (fuel : nat) (w : world) :
  let run := main environ fuel w [] in
  (run.1 = OutOfFuel
   ∨ ∃ code, run.1 = sys_exited code ∧ code ∈ [0; 1; 2; 130]%Z)
  ∧ (run.1 = sys_exited 130 ↔ user_interrupt run.2)
  ∧ (∀ e, ScanConfig_init environ = Raised e → run = (sys_exited 2, []))
  ∧ (∀ config ready h,
       ScanConfig_init environ = Done config →
       wait_for_zap config w [] = (Done ready, h) → truthy ready = false →
       run = (sys_exited 2, h))
  ∧ (∀ e h, main_try environ fuel w [] = (Raised e, h) →
       is_Exception e = true → run = (sys_exited 2, h))
  ∧ (∀ code, run.1 = sys_exited code → code = 0%Z ∨ code = 1%Z →
       ∃ config alerts risk_counts checks,
         ScanConfig_init environ = Done config
         ∧ Event (CoreAlerts (target_url config)) (Returns alerts) ∈ run.2
         ∧ analyze_alerts alerts = Done risk_counts
         ∧ check_thresholds risk_counts config
           = Done (bool_decide (code = 0%Z), checks))
  ∧ (∀ config profile ready h1 h2 urls h3 h4 alerts risk_counts passed h5,
       ScanConfig_init environ = Done config →
       ScanTypeConfig.get (scan_type config) = Done profile →
       wait_for_zap config w [] = (Done ready, h1) → truthy ready = true →
       access_target config w h1 = (Done tt, h2) →
       run_spider_scan fuel config profile w h2 = (Done urls, h3) →
       run_active_scan fuel config profile w h3 = (Done tt, h4) →
       w h4 (CoreAlerts (target_url config)) = Returns alerts →
       analyze_alerts alerts = Done risk_counts →
       display_results alerts risk_counts config = Done passed →
       save_reports alerts config risk_counts passed w
         (h4 ++ [Event (CoreAlerts (target_url config)) (Returns alerts)])
       = (Done tt, h5) →
       run = (sys_exited (if passed then 0 else 1), h5)
       ∧ ∃ checks, check_thresholds risk_counts config = Done (passed, checks)).
Proof.
  intros run. subst run. rewrite main_handled.
  destruct (main_try environ fuel w []) as [r tr] eqn:Hrun. cbn [fst snd].
  destruct (main_try_sane _ _ _ _ _ Hrun) as [Hs Hnd].
  repeat split.
  - destruct r as [u|e|]; [by destruct (Hnd u)| |by left]. right.
    destruct e; simpl; try (exists 2%Z; split; [done | list_mem]).
    + exists 130%Z. split; [done | list_mem].
    + exists code. split; [done|]. destruct Hs as [Hin _]. list_mem.
  - intros Hr. apply (sane_interrupt _ _ _ Hs).
    destruct r as [u|e|]; [done| |done].
    destruct e; simpl in Hr; try done. injection Hr as ->.
    destruct Hs as [Hin _]. list_mem.
  - intros Hi. apply (sane_interrupt _ _ _ Hs) in Hi. by rewrite Hi.
  - intros e He. unfold main_try in Hrun. rewrite bind_run in Hrun.
    unfold lift at 1 in Hrun. rewrite He in Hrun. injection Hrun as <- <-.
    pose proof (harmless_ScanConfig_init environ) as Hh. rewrite He in Hh.
    destruct e; simpl in *; try done.
    apply list_elem_of_singleton in Hh as ->. done.
  - intros config ready h Hcfg Hwait Hready.
    destruct (validated_profile config (ScanConfig_init_validated _ _ Hcfg))
      as (profile & Hprof & _).
    unfold main_try in Hrun. rewrite bind_run in Hrun.
    unfold lift at 1 in Hrun. rewrite Hcfg in Hrun. cbv beta iota in Hrun.
    rewrite bind_run in Hrun. unfold lift at 1 in Hrun.
    rewrite Hprof in Hrun. cbv beta iota in Hrun.
    rewrite bind_run, Hwait in Hrun. cbv beta iota in Hrun.
    rewrite Hready in Hrun. by injection Hrun as <- <-.
  - intros e h [= -> ->] He. destruct e; simpl in *; done.
  - intros code Hr Hcode.
    pose proof (main_exits_by_gate environ fuel w code) as Hgate.
    rewrite main_handled, Hrun in Hgate. by apply Hgate.
  - pose proof (main_completed environ fuel w config profile ready h1 h2 h3 h4
                  h5 urls alerts risk_counts passed) as Hmain.
    rewrite main_handled, Hrun in Hmain. by apply Hmain.
  - by eapply display_results_gate.
Qed.

(** C6 (amended).  [wait_for_zap] makes at most 30 status requests, each
    to the configured host and port with a 5-second timeout, and otherwise
    only sleeps 2 seconds; at the first attempt answered with HTTP 200 and
    a JSON object it returns the boolean [True] at once; when each of the
    30 attempts ends in an exception, in a status other than 200 or in a
    body that is not a JSON object, it returns the boolean [False] after
    30 requests and 30 sleeps, without raising, and [main] then exits with
    code 2. *)
Theorem wait_for_zap_polling (config : ScanConfig) :
  (∀ (w : world) (h : list event),
     ∃ new, (wait_for_zap config w h).2 = h ++ new
       ∧ Forall (λ e, wait_calls config (ev_call e) = true) new
       ∧ (length (List.filter is_status_request new) ≤ 30)%nat)
  ∧ (∀ (os : list (outcome response)) (resp : response) (version : option string),
       (length os < 30)%nat → Forall (λ o, unready o = true) os →
       status_code resp = 200%Z → content resp = JsonObject version →
       let script := failed_attempts config os
                     ++ [status_request config (Returns resp)] in
       produces (wait_for_zap config) script (Done (PyBool true))
       ∧ wait_for_zap config (scripted script) [] = (Done (PyBool true), script))
  ∧ (∀ (os : list (outcome response)),
       length os = 30%nat → Forall (λ o, unready o = true) os →
       produces (wait_for_zap config) (failed_attempts config os)
                (Done (PyBool false))
       ∧ wait_for_zap config (scripted (failed_attempts config os)) []
         = (Done (PyBool false), failed_attempts config os)
       ∧ ∀ environ fuel,
           ScanConfig_init environ = Done config →
           produces (main environ fuel) (failed_attempts config os)
                    (sys_exited 2)).
Proof.
  split; [|split].
  - intros w h. unfold wait_for_zap.
    destruct (wait_attempts_budget config 30 w h) as (new & Htr & Hn).
    destruct (wait_attempts_footprint config 30 w h) as (new' & Htr' & Hfp & _).
    rewrite Htr in Htr'. apply app_inv_head in Htr' as <-.
    by exists new.
  - intros os resp version Hlen Hos Hcode Hbody script.
    assert (Hwait : produces (wait_for_zap config) script (Done (PyBool true))).
    { unfold wait_for_zap.
      replace 30%nat with (length os + S (29 - length os))%nat by lia.
      by eapply wait_attempts_ready. }
    split; [exact Hwait | by apply produces_scripted].
  - intros os Hlen Hos.
    assert (Hwait : produces (wait_for_zap config) (failed_attempts config os)
                             (Done (PyBool false))).
    { unfold wait_for_zap. rewrite <- Hlen. by apply wait_attempts_exhausted. }
    split; [done|]. split; [by apply produces_scripted|].
    intros environ fuel Hcfg w h Hans.
    destruct (validated_profile config (ScanConfig_init_validated _ _ Hcfg))
      as (profile & Hprof & _).
    assert (Htry : main_try environ fuel w h
                   = (sys_exited 2, h ++ failed_attempts config os)).
    { unfold main_try.
      rewrite bind_run. unfold lift at 1. rewrite Hcfg. cbv beta iota.
      rewrite bind_run. unfold lift at 1. rewrite Hprof. cbv beta iota.
      by rewrite bind_run, (Hwait w h Hans). }
    by rewrite main_handled, Htry.
Qed.

(** C6 does not hold as to what is returned and when: on a first response
    with HTTP 200 that reports version 2.14.0 the poller returns the
    boolean [True], not the version string; and a response with HTTP 200
    whose body is not JSON does not end the polling. *)
Lemma wait_for_zap_returns_True_not_version :
  (wait_for_zap sample_config (prompt_world "2.14.0" []) []).1
    = Done (PyBool true)
  ∧ (wait_for_zap sample_config (prompt_world "2.14.0" []) []).1
    ≠ Done (PyStr "2.14.0")
  ∧ (wait_for_zap sample_config garbled_world []).1 = Done (PyBool false).
Proof.
  assert (H : (wait_for_zap sample_config (prompt_world "2.14.0" []) []).1
              = Done (PyBool true)) by (vm_compute; reflexivity).
  split; [exact H|]. split; [by rewrite H|]. vm_compute. reflexivity.
Qed.

(** C7.  In every run of the crawl driver, in every world: with a maximum
    depth of 0 the depth option is never set, and with a maximum duration
    of 0 no stop request is made, neither by [run_spider_scan] nor by its
    polling loop however long it runs.  The profile of scan type [full]
    has both limits 0. *)
Theorem zero_limit_is_unlimited (fuel : nat) (config : ScanConfig)
    (profile : ScanTypeProfile) (w : world) (h : list event) :
  (∃ new, (run_spider_scan fuel config profile w h).2 = h ++ new
     ∧ (spider_max_depth profile = 0%Z →
        ∀ e depth, e ∈ new → ev_call e ≠ SpiderSetOptionMaxDepth depth)
     ∧ (spider_max_duration profile = 0%Z →
        ∀ e scan_id, e ∈ new → ev_call e ≠ SpiderStop scan_id))
  ∧ (∀ scan_id start_time,
       ∃ new, (spider_wait fuel scan_id start_time 0 w h).2 = h ++ new
         ∧ ∀ e scan_id', e ∈ new → ev_call e ≠ SpiderStop scan_id')
  ∧ ScanTypeConfig.get "full" = Done ScanTypeConfig.full
  ∧ spider_max_depth ScanTypeConfig.full = 0%Z
  ∧ spider_max_duration ScanTypeConfig.full = 0%Z.
Proof.
  split; [|split; [|by vm_compute]].
  - destruct (run_spider_scan_footprint fuel config profile w h)
      as (new & Htr & Hfp & _).
    exists new. split; [done|]. rewrite Forall_forall in Hfp.
    split; intros Hzero e x He Hcall; specialize (Hfp e He);
      rewrite Hcall in Hfp; simpl in Hfp;
      apply bool_decide_eq_true in Hfp; lia.
  - intros scan_id start_time.
    destruct (spider_wait_footprint config ScanTypeConfig.full fuel scan_id
                start_time w h) as (new & Htr & Hfp & _).
    exists new. split; [exact Htr|]. rewrite Forall_forall in Hfp.
    intros e x He Hcall. specialize (Hfp e He).
    rewrite Hcall in Hfp. by simpl in Hfp.
Qed.

(** The run goes on after the crawl: whatever the world answers, the
    first request of the later phases is made. *)
Lemma after_spider_first_request (fuel : nat) (config : ScanConfig)
    (profile : ScanTypeProfile) (urls : list string) (w : world)
    (h : list event) :
  ∃ e rest,
    (after_spider fuel config profile urls w h).2 = h ++ e :: rest
    ∧ ev_call e = next_after_crawl config profile.
Proof.
  unfold after_spider.
  match goal with
  | |- context [(run_active_scan fuel config profile ≫= ?k) w h] =>
      set (tail := k)
  end.
  assert (Htail : ∀ h', ∃ e rest,
            (tail tt w h').2 = h' ++ e :: rest
            ∧ ev_call e = CoreAlerts (target_url config)).
  { intros h'. unfold tail. rewrite bind_run. unfold get_alerts, perform.
    destruct (w h' (CoreAlerts (target_url config))) as [alerts|what|];
      cbv beta iota zeta; [|by eexists _, []..].
    rewrite bind_run. unfold lift at 1.
    destruct (analyze_alerts alerts) as [rc|e|]; [|by eexists _, []..].
    rewrite bind_run. unfold lift at 1.
    destruct (display_results alerts rc config) as [passed|e|];
      [|by eexists _, []..].
    rewrite bind_run.
    match goal with
    | |- context [save_reports ?a ?c ?k ?p ?w0 ?h0] =>
        destruct (save_reports_footprint a c k p w0 h0) as (post & Hpost & _);
        destruct (save_reports a c k p w0 h0) as [r' h2]
    end.
    cbn [snd] in Hpost. subst h2.
    exists (Event (CoreAlerts (target_url config)) (Returns alerts)), post.
    split; [|done].
    destruct r' as [[]|e|]; [destruct passed|..]; cbn [snd];
      by rewrite <- app_assoc. }
  clearbody tail. unfold next_after_crawl, run_active_scan.
  destruct (active_scan profile) eqn:Hact; cbn [negb].
  - rewrite !bind_run. unfold perform at 1.
    destruct (w h (AscanScan (target_url config))) as [scan_id|what|];
      cbv beta iota zeta; [|by eexists _, []..].
    destruct (ascan_wait_footprint config profile fuel scan_id Hact w
                (h ++ [Event (AscanScan (target_url config)) (Returns scan_id)]))
      as (new & Hnew & _).
    destruct (ascan_wait fuel scan_id w _) as [[[]|e|] h1];
      cbn [snd] in Hnew; subst h1.
    2,3: exists (Event (AscanScan (target_url config)) (Returns scan_id)), new;
         by rewrite <- app_assoc.
    destruct (Htail ((h ++ [Event (AscanScan (target_url config))
                              (Returns scan_id)]) ++ new))
      as (e & rest & Htr & _).
    exists (Event (AscanScan (target_url config)) (Returns scan_id)),
           (new ++ e :: rest).
    split; [|done]. rewrite Htr. by rewrite <- !app_assoc.
  - rewrite bind_run. exact (Htail h).
Qed.

(** C8.  Let the crawl be polled for some rounds in which it is unfinished
    and within its time, and let the next poll find it unfinished with
    more whole seconds elapsed, as the driver computes them on the
    clock's doubles, than the nonzero maximum duration.  Then the driver
    makes the stop request, leaves the loop without another sleep,
    collects the results and returns them; it does not raise.  In [main]
    the run then goes on: the next request is the first one of the later
    phases (the start of the active scan, or the retrieval of the
    findings when the profile has no active scan), and when the later
    phases complete the run exits with 0 or 1 by the gate, the findings
    having been retrieved after the crawl. *)
Theorem crawl_timeout_returns_partial_results
    (config : ScanConfig) (profile : ScanTypeProfile)
    (scan_id status progress : string) (start_time now : float)
    (n : Z) (rounds : list (string * string * float))
    (urls : list string) (spare : nat) :
  let max_duration := (spider_max_duration profile * 60)%Z in
  let fuel := (length rounds + S spare)%nat in
  let script := spider_prelude config profile scan_id start_time
                ++ spider_rounds scan_id rounds
                ++ spider_timeout scan_id status progress now urls in
  Forall (λ '(status, progress, now),
            (∃ n, py_int status = Some n ∧ (n < 100)%Z)
            ∧ over_time max_duration start_time now = false) rounds →
  py_int status = Some n → (n < 100)%Z →
  (0 < max_duration)%Z → (max_duration < elapsed_since start_time now)%Z →
  produces (run_spider_scan fuel config profile) script (Done urls)
  ∧ run_spider_scan fuel config profile (scripted script) [] = (Done urls, script)
  ∧ Event (SpiderStop scan_id) (Returns tt) ∈ script
  ∧ (∀ (environ : gmap string string) (w : world) (ready : pyval)
       (h1 h2 : list event),
       ScanConfig_init environ = Done config →
       ScanTypeConfig.get (scan_type config) = Done profile →
       wait_for_zap config w [] = (Done ready, h1) → truthy ready = true →
       access_target config w h1 = (Done tt, h2) →
       answers w h2 script →
       ∃ e rest,
         (main environ fuel w []).2 = h2 ++ script ++ e :: rest
         ∧ ev_call e = next_after_crawl config profile)
  ∧ (∀ (environ : gmap string string) (w : world) (ready : pyval)
       (h1 h2 h4 h5 : list event) (alerts : list alert)
       (risk_counts : gmap string Z) (passed : bool),
       ScanConfig_init environ = Done config →
       ScanTypeConfig.get (scan_type config) = Done profile →
       wait_for_zap config w [] = (Done ready, h1) → truthy ready = true →
       access_target config w h1 = (Done tt, h2) →
       answers w h2 script →
       run_active_scan fuel config profile w (h2 ++ script) = (Done tt, h4) →
       w h4 (CoreAlerts (target_url config)) = Returns alerts →
       analyze_alerts alerts = Done risk_counts →
       display_results alerts risk_counts config = Done passed →
       save_reports alerts config risk_counts passed w
         (h4 ++ [Event (CoreAlerts (target_url config)) (Returns alerts)])
       = (Done tt, h5) →
       main environ fuel w [] = (sys_exited (if passed then 0 else 1), h5)
       ∧ ∃ later,
           h5 = h2 ++ script ++ later
           ∧ Event (CoreAlerts (target_url config)) (Returns alerts) ∈ later).
Proof.
  intros max_duration fuel script Hrounds Hn Hlt Hpos Hover.
  assert (Hot : over_time max_duration start_time now = true).
  { unfold over_time. apply andb_true_iff. by rewrite !Z.ltb_lt. }
  assert (Hrun : produces (run_spider_scan fuel config profile) script (Done urls))
    by (eapply run_spider_scan_timeout; eassumption).
  split; [exact Hrun|]. split; [by apply produces_scripted|]. split; [|split].
  - unfold script, spider_timeout. rewrite !elem_of_app. right. right.
    do 3 apply list_elem_of_further. apply list_elem_of_here.
  - intros environ w ready h1 h2 Hcfg Hprof Hwait Hready Haccess Hans.
    assert (Htry : main_try environ fuel w []
                   = after_spider fuel config profile urls w (h2 ++ script)).
    { unfold main_try.
      rewrite bind_run. unfold lift at 1. rewrite Hcfg. cbv beta iota.
      rewrite bind_run. unfold lift at 1. rewrite Hprof. cbv beta iota.
      rewrite bind_run, Hwait. cbv beta iota. rewrite Hready. cbn [negb].
      rewrite bind_run, Haccess. cbv beta iota.
      by rewrite bind_run, (Hrun w h2 Hans). }
    rewrite main_handled, Htry. cbn [snd].
    destruct (after_spider_first_request fuel config profile urls w
                (h2 ++ script)) as (e & rest & Htr & He).
    exists e, rest. by rewrite Htr, <- app_assoc.
  - intros environ w ready h1 h2 h4 h5 alerts rc passed Hcfg Hprof Hwait
           Hready Haccess Hans Hascan Halerts Hrc Hpassed Hsave.
    split.
    + eapply main_completed; try eassumption. exact (Hrun w h2 Hans).
    + destruct (run_active_scan_footprint fuel config profile w (h2 ++ script))
        as (new & Hnew & _).
      rewrite Hascan in Hnew. cbn [snd] in Hnew. subst h4.
      destruct (save_reports_footprint alerts config rc passed w
                  (((h2 ++ script) ++ new)
                   ++ [Event (CoreAlerts (target_url config)) (Returns alerts)]))
        as (post & Hpost & _).
      rewrite Hsave in Hpost. cbn [snd] in Hpost. subst h5.
      exists (new ++ [Event (CoreAlerts (target_url config)) (Returns alerts)]
              ++ post).
      split; [by rewrite <- !app_assoc|].
      rewrite !elem_of_app. right. left. apply list_elem_of_here.
Qed.




(** ** Further properties of the aggregator and the gate *)

Lemma initial_counts_dom :
  dom (list_to_map [("High", 0%Z); ("Medium", 0%Z); ("Low", 0%Z);
                    ("Informational", 0%Z)] : gmap string Z)
  = list_to_set severities.
Proof.
  apply set_eq. intros x.
  rewrite elem_of_dom, elem_of_list_to_set. unfold severities.
  rewrite !elem_of_cons, elem_of_nil. split.
  - intros [v Hv].
    destruct (decide (x = "High")); [auto|].
    destruct (decide (x = "Medium")); [auto|].
    destruct (decide (x = "Low")); [auto|].
    destruct (decide (x = "Informational")); [auto 6|].
    by simplify_map_eq.
  - intros [->|[->|[->|[->|[]]]]]; by simplify_map_eq.
Qed.

Lemma tally_Done_known (alerts : list alert) :
  ∀ rc rc', tally rc alerts = Done rc' →
            ∀ a, a ∈ alerts → risk_of a ∈ dom rc.
Proof.
  induction alerts as [|a rest IH]; intros rc rc' Ht b Hb.
  - by apply elem_of_nil in Hb.
  - simpl in Ht. unfold increment, getitem in Ht.
    destruct (rc !! risk_of a) as [n|] eqn:E; simpl in Ht; [|done].
    apply elem_of_cons in Hb as [->|Hb].
    + apply elem_of_dom. eauto.
    + specialize (IH _ _ Ht b Hb).
      rewrite dom_insert_lookup_L in IH by eauto. exact IH.
Qed.

Lemma analyze_alerts_Done_well_tagged (alerts : list alert) (rc : gmap string Z) :
  analyze_alerts alerts = Done rc → well_tagged alerts.
Proof.
  intros Hrc a s Ha Hs.
  pose proof (tally_Done_known _ _ _ Hrc a Ha) as Hin.
  rewrite initial_counts_dom, elem_of_list_to_set in Hin.
  unfold risk_of in Hin. by rewrite Hs in Hin.
Qed.

Lemma analyze_alerts_Done_counts (alerts : list alert) (rc : gmap string Z) :
  analyze_alerts alerts = Done rc →
  dom rc = list_to_set severities
  ∧ ∀ s, s ∈ severities → rc !! s = Some (count_risk s alerts).
Proof.
  intros Hrc.
  destruct (tally_counts alerts
              (list_to_map [("High", 0%Z); ("Medium", 0%Z); ("Low", 0%Z);
                            ("Informational", 0%Z)]) 0 0 0 0)
    as (rc' & Ht & Hd & H1 & H2 & H3 & H4);
    [by simplify_map_eq.. | by eapply analyze_alerts_Done_well_tagged |].
  unfold analyze_alerts in Hrc. rewrite Ht in Hrc. injection Hrc as <-.
  split; [by rewrite Hd, initial_counts_dom|].
  intros s Hs. unfold severities in Hs.
  repeat (apply elem_of_cons in Hs as [-> | Hs]);
    [ | | | |by apply elem_of_nil in Hs]; by simplify_eq.
Qed.

(** Two results of the aggregator with the same four counts are the same
    dictionary. *)
Lemma risk_counts_ext (rc1 rc2 : gmap string Z) :
  dom rc1 = list_to_set severities → dom rc2 = list_to_set severities →
  (∀ s, s ∈ severities → rc1 !! s = rc2 !! s) → rc1 = rc2.
Proof.
  intros Hd1 Hd2 Heq. apply map_eq. intros k.
  destruct (decide (k ∈ severities)) as [Hk|Hk]; [by apply Heq|].
  assert (Hn1 : rc1 !! k = None).
  { apply not_elem_of_dom. by rewrite Hd1, elem_of_list_to_set. }
  assert (Hn2 : rc2 !! k = None).
  { apply not_elem_of_dom. by rewrite Hd2, elem_of_list_to_set. }
  by rewrite Hn1, Hn2.
Qed.

Lemma well_tagged_app (l1 l2 : list alert) :
  well_tagged (l1 ++ l2) ↔ well_tagged l1 ∧ well_tagged l2.
Proof.
  unfold well_tagged. split.
  - intros H. split; intros a s Ha; apply H, elem_of_app; auto.
  - intros [H1 H2] a s [Ha|Ha]%elem_of_app; eauto.
Qed.

Lemma well_tagged_total (alerts : list alert) :
  well_tagged alerts → ∃ rc, analyze_alerts alerts = Done rc.
Proof.
  intros Hw.
  destruct (tally_counts alerts
              (list_to_map [("High", 0%Z); ("Medium", 0%Z); ("Low", 0%Z);
                            ("Informational", 0%Z)]) 0 0 0 0)
    as (rc & Ht & _); [by simplify_map_eq.. | done |].
  by exists rc.
Qed.

Lemma count_risk_app (s : string) (l1 l2 : list alert) :
  count_risk s (l1 ++ l2) = (count_risk s l1 + count_risk s l2)%Z.
Proof. unfold count_risk. rewrite filter_app, length_app. lia. Qed.

Lemma count_risk_nonneg (s : string) (alerts : list alert) :
  (0 ≤ count_risk s alerts)%Z.
Proof. unfold count_risk. lia. Qed.

(** X1.  [analyze_alerts] succeeds exactly on the finding lists whose
    severity tags, where present, are among the four buckets; on any other
    list it raises [KeyError] with the first tag in list order that is not
    a bucket, whatever comes after it. *)
Theorem analyze_alerts_succeeds_iff :
  (∀ alerts : list alert,
     (∃ rc, analyze_alerts alerts = Done rc) ↔ well_tagged alerts)
  ∧ (∀ (pre post : list alert) (a : alert),
       well_tagged pre → risk_of a ∉ severities →
       analyze_alerts (pre ++ a :: post) = Raised (KeyError (risk_of a))).
Proof.
  split.
  - intros alerts. split.
    + intros [rc Hrc]. by eapply analyze_alerts_Done_well_tagged.
    + apply well_tagged_total.
  - intros pre post a Hpre Ha.
    destruct (well_tagged_total pre Hpre) as [rc Hrc].
    destruct (analyze_alerts_Done_counts pre rc Hrc) as [Hd _].
    unfold analyze_alerts in *. rewrite tally_app, Hrc. simpl.
    unfold increment, getitem.
    assert (Hnone : rc !! risk_of a = None).
    { apply not_elem_of_dom. by rewrite Hd, elem_of_list_to_set. }
    by rewrite Hnone.
Qed.

(** X2.  The result of [analyze_alerts] does not depend on the order of
    the findings: a reordering of a list that is accepted is accepted
    with the same counts. *)
Theorem analyze_alerts_permutation (alerts alerts' : list alert)
    (rc : gmap string Z) :
  alerts ≡ₚ alerts' →
  analyze_alerts alerts = Done rc →
  analyze_alerts alerts' = Done rc.
Proof.
  intros Hp Hrc.
  assert (Hw : well_tagged alerts') .
  { intros a s Ha. apply (analyze_alerts_Done_well_tagged _ _ Hrc).
    by rewrite Hp. }
  destruct (well_tagged_total _ Hw) as [rc' Hrc'].
  rewrite Hrc'. f_equal.
  destruct (analyze_alerts_Done_counts _ _ Hrc) as [Hd Hc].
  destruct (analyze_alerts_Done_counts _ _ Hrc') as [Hd' Hc'].
  apply risk_counts_ext; [done..|].
  intros s Hs. rewrite (Hc s Hs), (Hc' s Hs). unfold count_risk.
  by rewrite Hp.
Qed.

(** X3.  Counting a concatenation is counting its parts and adding the
    counts key by key: [analyze_alerts] accepts [l1 ++ l2] exactly when it
    accepts [l1] and [l2], and then its result is the key-wise sum of
    theirs. *)
Theorem analyze_alerts_app (l1 l2 : list alert) :
  ((∃ rc, analyze_alerts (l1 ++ l2) = Done rc)
   ↔ (∃ rc1, analyze_alerts l1 = Done rc1)
     ∧ (∃ rc2, analyze_alerts l2 = Done rc2))
  ∧ (∀ rc1 rc2,
       analyze_alerts l1 = Done rc1 → analyze_alerts l2 = Done rc2 →
       analyze_alerts (l1 ++ l2)
       = Done (union_with (λ x y, Some (x + y)%Z) rc1 rc2)).
Proof.
  split.
  - split.
    + intros [rc Hrc].
      apply analyze_alerts_Done_well_tagged, well_tagged_app in Hrc as [H1 H2].
      split; by apply well_tagged_total.
    + intros [[rc1 H1] [rc2 H2]].
      apply well_tagged_total, well_tagged_app.
      split; by eapply analyze_alerts_Done_well_tagged.
  - intros rc1 rc2 H1 H2.
    assert (Hw : well_tagged (l1 ++ l2)).
    { apply well_tagged_app.
      split; by eapply analyze_alerts_Done_well_tagged. }
    destruct (well_tagged_total _ Hw) as [rc Hrc]. rewrite Hrc. f_equal.
    destruct (analyze_alerts_Done_counts _ _ H1) as [Hd1 Hc1].
    destruct (analyze_alerts_Done_counts _ _ H2) as [Hd2 Hc2].
    destruct (analyze_alerts_Done_counts _ _ Hrc) as [Hd Hc].
    apply risk_counts_ext; [done| |].
    + apply set_eq. intros k. rewrite elem_of_dom, lookup_union_with.
      rewrite <- Hd1 at 1. rewrite elem_of_dom.
      assert (Hk : is_Some (rc1 !! k) ↔ is_Some (rc2 !! k)).
      { by rewrite <- !elem_of_dom, Hd1, Hd2. }
      destruct (rc1 !! k), (rc2 !! k); simpl; done.
    + intros s Hs. rewrite lookup_union_with.
      rewrite (Hc s Hs), (Hc1 s Hs), (Hc2 s Hs). simpl.
      by rewrite count_risk_app.
Qed.

(** Membership of a written-out tag in [severities]. *)
Ltac severity_mem := unfold severities; rewrite !elem_of_cons; auto 6.

Lemma check_thresholds_pass_iff (rc : gmap string Z) (config : ScanConfig) :
  (∃ checks, check_thresholds rc config = Done (true, checks))
  ↔ ∃ high medium low,
      rc !! "High" = Some high ∧ rc !! "Medium" = Some medium
      ∧ rc !! "Low" = Some low
      ∧ (high ≤ max_high config ∧ medium ≤ max_medium config
         ∧ low ≤ max_low config)%Z.
Proof.
  unfold check_thresholds, getitem. split.
  - intros [checks H].
    destruct (rc !! "High") as [h|]; simpl in H; [|done].
    destruct (rc !! "Medium") as [m|]; simpl in H; [|done].
    destruct (rc !! "Low") as [l|]; simpl in H; [|done].
    injection H as H _. rewrite !andb_true_iff, !Z.leb_le in H.
    exists h, m, l. tauto.
  - intros (h & m & l & -> & -> & -> & Hh & Hm & Hl). simpl.
    apply Z.leb_le in Hh, Hm, Hl. rewrite Hh, Hm, Hl. simpl. eauto.
Qed.

(** X4.  Loosening the thresholds never fails a scan that passed: if the
    gate passes on some counts under one configuration, it passes on the
    same counts under every configuration whose three maxima are at least
    as large. *)
Theorem check_thresholds_monotone (rc : gmap string Z)
    (config config' : ScanConfig) (checks : list ThresholdCheck) :
  (max_high config ≤ max_high config')%Z →
  (max_medium config ≤ max_medium config')%Z →
  (max_low config ≤ max_low config')%Z →
  check_thresholds rc config = Done (true, checks) →
  ∃ checks', check_thresholds rc config' = Done (true, checks').
Proof.
  intros Hh Hm Hl Hpass. apply check_thresholds_pass_iff.
  destruct (proj1 (check_thresholds_pass_iff rc config))
    as (h & m & l & H1 & H2 & H3 & Hle); [by exists checks|].
  exists h, m, l. repeat split; try done; lia.
Qed.

(** X5.  Taking a finding away never fails a scan that passed: if the
    findings are accepted and pass the gate, so do the findings without
    any one of them. *)
Theorem removing_a_finding_keeps_pass (l1 l2 : list alert) (a : alert)
    (rc : gmap string Z) (config : ScanConfig) (checks : list ThresholdCheck) :
  analyze_alerts (l1 ++ a :: l2) = Done rc →
  check_thresholds rc config = Done (true, checks) →
  ∃ rc' checks',
    analyze_alerts (l1 ++ l2) = Done rc'
    ∧ check_thresholds rc' config = Done (true, checks').
Proof.
  intros Hrc Hpass.
  assert (Hw : well_tagged (l1 ++ l2)).
  { pose proof (analyze_alerts_Done_well_tagged _ _ Hrc) as Hw.
    apply well_tagged_app in Hw as [H1 H2]. apply well_tagged_app.
    split; [done|]. by apply well_tagged_cons in H2. }
  destruct (well_tagged_total _ Hw) as [rc' Hrc']. exists rc'.
  destruct (analyze_alerts_Done_counts _ _ Hrc) as [_ Hc].
  destruct (analyze_alerts_Done_counts _ _ Hrc') as [_ Hc'].
  assert (Hle : ∀ s, (count_risk s (l1 ++ l2) ≤ count_risk s (l1 ++ a :: l2))%Z).
  { intros s. rewrite !count_risk_app, count_risk_cons.
    case_decide; lia. }
  destruct (proj1 (check_thresholds_pass_iff rc config))
    as (h & m & l & H1 & H2 & H3 & Hh & Hm & Hl); [by exists checks|].
  rewrite Hc in H1 by severity_mem. rewrite Hc in H2 by severity_mem.
  rewrite Hc in H3 by severity_mem.
  injection H1 as <-. injection H2 as <-. injection H3 as <-.
  destruct (proj2 (check_thresholds_pass_iff rc' config)) as [checks' Hpass'].
  { exists (count_risk "High" (l1 ++ l2)), (count_risk "Medium" (l1 ++ l2)),
           (count_risk "Low" (l1 ++ l2)).
    rewrite !Hc' by severity_mem.
    pose proof (Hle "High"). pose proof (Hle "Medium"). pose proof (Hle "Low").
    repeat split; try done; lia. }
  by exists checks'.
Qed.

Lemma validate_iff (config : ScanConfig) :
  _validate config = Done tt
  ↔ scan_type config ∈ ["quick"; "standard"; "full"]
    ∧ (String.prefix "http://" (target_url config) = true
       ∨ String.prefix "https://" (target_url config) = true)
    ∧ (0 ≤ max_high config ∧ 0 ≤ max_medium config ∧ 0 ≤ max_low config)%Z.
Proof.
  unfold _validate. case_bool_decide as Htype; simpl;
    [|split; [done | by intros [? _]]].
  destruct (String.prefix "http://" _) eqn:H1,
           (String.prefix "https://" _) eqn:H2; simpl;
    try (destruct (_ || _ || _)%Z eqn:Hneg;
         rewrite ?orb_true_iff, ?orb_false_iff, ?Z.ltb_lt, ?Z.ltb_ge in Hneg).
  all: split; [try done; intros _; repeat split; auto; lia|].
  all: intros (_ & Hp & Hn); try done; try lia.
  all: by destruct Hp.
Qed.

Lemma count_risk_other (s t : string) (alerts : list alert) :
  s ≠ t → Forall (λ a, risk_of a = t) alerts → count_risk s alerts = 0%Z.
Proof.
  intros Hne. induction 1 as [|a rest Ha _ IH]; [done|].
  rewrite count_risk_cons, IH, Ha. by case_decide.
Qed.

(** X6.  Under every configuration that validation accepts, findings that
    are all Informational or untagged, and in particular no findings at
    all, pass the gate: the thresholds are not negative and the gated
    counts are all 0. *)
Theorem informational_only_passes (alerts : list alert) (config : ScanConfig) :
  _validate config = Done tt →
  Forall (λ a, risk_of a = "Informational") alerts →
  ∃ rc checks,
    analyze_alerts alerts = Done rc
    ∧ rc !! "High" = Some 0%Z ∧ rc !! "Medium" = Some 0%Z
    ∧ rc !! "Low" = Some 0%Z
    ∧ check_thresholds rc config = Done (true, checks).
Proof.
  intros (_ & _ & Hh & Hm & Hl)%validate_iff Hinfo.
  assert (Hw : well_tagged alerts).
  { intros a s Ha Hs. rewrite Forall_forall in Hinfo.
    specialize (Hinfo a Ha). unfold risk_of in Hinfo. rewrite Hs in Hinfo.
    simpl in Hinfo. subst s. severity_mem. }
  destruct (well_tagged_total _ Hw) as [rc Hrc].
  destruct (analyze_alerts_Done_counts _ _ Hrc) as [_ Hc].
  assert (H1 : rc !! "High" = Some 0%Z).
  { rewrite Hc by severity_mem.
    by rewrite (count_risk_other "High" "Informational"). }
  assert (H2 : rc !! "Medium" = Some 0%Z).
  { rewrite Hc by severity_mem.
    by rewrite (count_risk_other "Medium" "Informational"). }
  assert (H3 : rc !! "Low" = Some 0%Z).
  { rewrite Hc by severity_mem.
    by rewrite (count_risk_other "Low" "Informational"). }
  destruct (proj2 (check_thresholds_pass_iff rc config)) as [checks Hpass].
  { exists 0%Z, 0%Z, 0%Z. by repeat split. }
  by exists rc, checks.
Qed.

(** ** Further properties of the configuration *)

(** X7.  [ScanConfig()] succeeds exactly when the target URL is set and not
    empty, the port and the three thresholds are accepted by [int], the
    scan type is one of the three known ones, the URL starts with
    [http://] or [https://] and no threshold is negative; the object then
    holds the URL, the converted numbers and, for each optional setting,
    the environment's value or the default. *)
Theorem ScanConfig_init_accepts (environ : gmap string string)
    (config : ScanConfig) :
  ScanConfig_init environ = Done config
  ↔ ∃ url port high medium low,
      environ !! "ZAP_TARGET_URL" = Some url ∧ url ≠ ""
      ∧ py_int (_get_optional environ "ZAP_PORT" "8080") = Some port
      ∧ py_int (_get_optional environ "ZAP_MAX_HIGH" "0") = Some high
      ∧ py_int (_get_optional environ "ZAP_MAX_MEDIUM" "5") = Some medium
      ∧ py_int (_get_optional environ "ZAP_MAX_LOW" "999") = Some low
      ∧ config = {| target_url := url;
                    scan_type := _get_optional environ "ZAP_SCAN_TYPE" "standard";
                    zap_host := _get_optional environ "ZAP_HOST" "localhost";
                    zap_port := port;
                    max_high := high; max_medium := medium; max_low := low;
                    report_dir :=
                      _get_optional environ "ZAP_REPORT_DIR" "./reports" |}
      ∧ scan_type config ∈ ["quick"; "standard"; "full"]
      ∧ (String.prefix "http://" url = true
         ∨ String.prefix "https://" url = true)
      ∧ (0 ≤ high ∧ 0 ≤ medium ∧ 0 ≤ low)%Z.
Proof.
  unfold ScanConfig_init, _get_required, int. split.
  - destruct (environ !! "ZAP_TARGET_URL") as [url|]; simpl; [|done].
    destruct (String.eqb url "") eqn:Hurl; simpl; [done|].
    apply String.eqb_neq in Hurl.
    destruct (py_int (_get_optional environ "ZAP_PORT" "8080")) as [port|];
      simpl; [|done].
    destruct (py_int (_get_optional environ "ZAP_MAX_HIGH" "0")) as [high|];
      simpl; [|done].
    destruct (py_int (_get_optional environ "ZAP_MAX_MEDIUM" "5")) as [medium|];
      simpl; [|done].
    destruct (py_int (_get_optional environ "ZAP_MAX_LOW" "999")) as [low|];
      simpl; [|done].
    match goal with
    | |- context [_validate ?c] =>
        destruct (_validate c) as [[]| |] eqn:Hv; simpl; [|done..]
    end.
    intros [= <-]. apply validate_iff in Hv as (Ht & Hp & Hn1 & Hn2 & Hn3).
    simpl in Ht, Hp, Hn1, Hn2, Hn3.
    exists url, port, high, medium, low. by repeat split.
  - intros (url & port & high & medium & low & -> & Hurl & -> & -> & -> & ->
            & -> & Ht & Hp & Hn).
    apply String.eqb_neq in Hurl. rewrite Hurl. simpl.
    match goal with
    | |- context [_validate ?c] =>
        assert (Hv : _validate c = Done tt) by by apply validate_iff
    end.
    by rewrite Hv.
Qed.

(** X8.  How [ScanConfig()] fails.  A target URL that is missing or empty
    ends in [sys.exit(2)] whatever the other settings are; with the URL
    set, a port or threshold that [int] rejects raises [ValueError], also
    when the scan type or the URL would be rejected by validation, which
    runs later; and there is no other failure than these two. *)
Theorem ScanConfig_init_failures (environ : gmap string string) :
  (environ !! "ZAP_TARGET_URL" = None ∨ environ !! "ZAP_TARGET_URL" = Some "" →
   ScanConfig_init environ = Raised (SystemExit 2))
  ∧ (∀ url, environ !! "ZAP_TARGET_URL" = Some url → url ≠ "" →
       py_int (_get_optional environ "ZAP_PORT" "8080") = None
       ∨ py_int (_get_optional environ "ZAP_MAX_HIGH" "0") = None
       ∨ py_int (_get_optional environ "ZAP_MAX_MEDIUM" "5") = None
       ∨ py_int (_get_optional environ "ZAP_MAX_LOW" "999") = None →
       ScanConfig_init environ = Raised ValueError)
  ∧ ((∃ config, ScanConfig_init environ = Done config)
     ∨ ScanConfig_init environ = Raised (SystemExit 2)
     ∨ ScanConfig_init environ = Raised ValueError).
Proof.
  unfold ScanConfig_init, _get_required, int. split; [|split].
  - by intros [->| ->].
  - intros url -> Hurl%String.eqb_neq Hint. rewrite Hurl. simpl.
    destruct (py_int (_get_optional environ "ZAP_PORT" "8080")); simpl; [|done].
    destruct (py_int (_get_optional environ "ZAP_MAX_HIGH" "0")); simpl; [|done].
    destruct (py_int (_get_optional environ "ZAP_MAX_MEDIUM" "5")); simpl;
      [|done].
    destruct (py_int (_get_optional environ "ZAP_MAX_LOW" "999")); simpl;
      [|done].
    by destruct Hint as [|[|[|]]].
  - destruct (environ !! "ZAP_TARGET_URL") as [url|]; simpl; [|auto].
    destruct (String.eqb url ""); simpl; [auto|].
    destruct (py_int (_get_optional environ "ZAP_PORT" "8080")); simpl; [|auto].
    destruct (py_int (_get_optional environ "ZAP_MAX_HIGH" "0")); simpl; [|auto].
    destruct (py_int (_get_optional environ "ZAP_MAX_MEDIUM" "5")); simpl;
      [|auto].
    destruct (py_int (_get_optional environ "ZAP_MAX_LOW" "999")); simpl;
      [|auto].
    unfold _validate.
    repeat (match goal with
            | |- context [if ?b then _ else _] => destruct b; simpl
            end; [auto|]).
    left. eauto.
Qed.

(** X9.  The settings that are left out take their defaults: with a valid
    target URL and none of the optional variables set, and [int] reading
    the default literals as the numbers they write, the configuration is
    scan type [standard], host [localhost], port 8080, thresholds 0, 5
    and 999 and report directory [./reports]; its profile runs the active
    scan. *)
Theorem ScanConfig_init_defaults (environ : gmap string string) (url : string) :
  py_int "8080" = Some 8080%Z → py_int "0" = Some 0%Z →
  py_int "5" = Some 5%Z → py_int "999" = Some 999%Z →
  environ !! "ZAP_TARGET_URL" = Some url →
  String.prefix "http://" url = true ∨ String.prefix "https://" url = true →
  Forall (λ key, environ !! key = None)
         ["ZAP_SCAN_TYPE"; "ZAP_HOST"; "ZAP_PORT"; "ZAP_MAX_HIGH";
          "ZAP_MAX_MEDIUM"; "ZAP_MAX_LOW"; "ZAP_REPORT_DIR"] →
  ScanConfig_init environ
  = Done {| target_url := url; scan_type := "standard";
            zap_host := "localhost"; zap_port := 8080;
            max_high := 0; max_medium := 5; max_low := 999;
            report_dir := "./reports" |}
  ∧ ∃ profile, ScanTypeConfig.get "standard" = Done profile
               ∧ active_scan profile = true.
Proof.
  intros H8080 H0 H5 H999 Hurl Hscheme Hnone.
  repeat (apply Forall_cons in Hnone as [? Hnone]).
  split; [|by eexists; split; [vm_compute; reflexivity|]].
  unfold ScanConfig_init, _get_required, _get_optional, int.
  rewrite Hurl.
  assert (Hne : String.eqb url "" = false).
  { apply String.eqb_neq. intros ->. by destruct Hscheme. }
  rewrite Hne. simpl.
  repeat match goal with H : environ !! _ = None |- _ => rewrite H; clear H end.
  simpl. rewrite H8080, H0, H5, H999. simpl.
  unfold _validate. simpl.
  destruct Hscheme as [-> | ->]; simpl; [done|].
  by rewrite orb_true_r.
Qed.

(** X10.  The table of scan types has exactly the three types validation
    accepts, so the look-up made for a validated configuration never
    raises [KeyError], while any other name does.  Among its profiles the
    active scan is disabled for [quick] only, the crawl duration is
    unlimited for [full] only, and no limit is negative. *)
Theorem scan_type_table (s : string) :
  ((∃ profile, ScanTypeConfig.get s = Done profile)
   ↔ s ∈ ["quick"; "standard"; "full"])
  ∧ (s ∉ ["quick"; "standard"; "full"] →
     ScanTypeConfig.get s = Raised (KeyError s))
  ∧ (∀ config, _validate config = Done tt →
       ∃ profile, ScanTypeConfig.get (scan_type config) = Done profile)
  ∧ (∀ profile, ScanTypeConfig.get s = Done profile →
       (active_scan profile = false ↔ s = "quick")
       ∧ (spider_max_duration profile = 0%Z ↔ s = "full")
       ∧ (spider_max_depth profile = 0%Z ↔ s = "full")
       ∧ (0 ≤ spider_max_depth profile)%Z
       ∧ (0 ≤ spider_max_duration profile)%Z).
Proof.
  assert (Hcases : s = "quick" ∨ s = "standard" ∨ s = "full"
                   ∨ ScanTypeConfig.get s = Raised (KeyError s)
                     ∧ s ∉ ["quick"; "standard"; "full"]).
  { destruct (decide (s = "quick")); [auto|].
    destruct (decide (s = "standard")); [auto|].
    destruct (decide (s = "full")); [auto|].
    do 3 right. split.
    - unfold ScanTypeConfig.get, getitem, ScanTypeConfig.TYPES. simpl.
      by rewrite !lookup_insert_ne, lookup_empty.
    - rewrite !elem_of_cons, elem_of_nil. by intros [?|[?|[?|[]]]]. }
  split; [|split; [|split]].
  - rewrite !elem_of_cons, elem_of_nil.
    destruct Hcases as [->|[->|[->|[Hr Hn]]]].
    1-3: split; [auto 6|intros _; eexists; vm_compute; reflexivity].
    split; [intros [p Hp]; by rewrite Hr in Hp|].
    rewrite !elem_of_cons, elem_of_nil in Hn. intros H. by destruct Hn.
  - intros Hn. destruct Hcases as [->|[->|[->|[Hr _]]]]; [..|done];
      destruct Hn; rewrite !elem_of_cons; auto.
  - intros config Hv. by apply validated_profile in Hv as (p & Hp & _); eauto.
  - intros profile Hp.
    destruct Hcases as [->|[->|[->|[Hr _]]]]; [..|by rewrite Hr in Hp];
      vm_compute in Hp; injection Hp as <-; simpl;
      repeat split; try done; try lia.
Qed.

(** ** Further properties of the readiness poller *)

Lemma total_sleep_app (l1 l2 : list event) :
  total_sleep (l1 ++ l2) = (total_sleep l1 + total_sleep l2)%Z.
Proof.
  induction l1 as [|e l1 IH]; simpl; [done|].
  unfold total_sleep in *. simpl. rewrite IH. lia.
Qed.

Lemma total_sleep_request (config : ScanConfig) (o : outcome response) :
  total_sleep [status_request config o] = 0%Z.
Proof. reflexivity. Qed.

Lemma total_sleep_attempt (config : ScanConfig) (o : outcome response)
    (o' : outcome unit) (rest : list event) :
  total_sleep (status_request config o :: Event (Sleep 2) o' :: rest)
  = (2 + total_sleep rest)%Z.
Proof. reflexivity. Qed.

Lemma status_attempt_result (config : ScanConfig) (w : world) (h : list event) :
  (∃ b, (status_attempt config w h).1 = Done b)
  ∨ (status_attempt config w h).1 = Raised KeyboardInterrupt.
Proof.
  unfold status_attempt, try_except. rewrite bind_run. unfold perform.
  destruct (w h _) as [resp|what|]; simpl; [|eauto..].
  destruct (status_code resp =? 200)%Z; simpl; [|eauto].
  rewrite bind_run. unfold lift, reported_version.
  destruct (content resp); simpl; eauto.
Qed.

Lemma wait_attempts_sleep (config : ScanConfig) (attempts : nat) :
  ∀ (w : world) (h : list event),
    ∃ new, (wait_attempts config attempts w h).2 = h ++ new
      ∧ (0 ≤ total_sleep new ≤ 2 * Z.of_nat attempts)%Z
      ∧ ((wait_attempts config attempts w h).1 = Done (PyBool false) →
         total_sleep new = (2 * Z.of_nat attempts)%Z
         ∧ length (List.filter is_status_request new) = attempts)
      ∧ (wait_attempts config attempts w h).1 ≠ OutOfFuel
      ∧ ∀ v, (wait_attempts config attempts w h).1 = Done v →
             ∃ b, v = PyBool b.
Proof.
  induction attempts as [|n IH]; intros w h.
  - exists []. simpl. rewrite app_nil_r. repeat split; try done.
    intros v [= <-]. eauto.
  - cbn [wait_attempts]. rewrite bind_run, Nat2Z.inj_succ.
    pose proof (status_attempt_trace config w h) as Htr.
    pose proof (status_attempt_result config w h) as Hres.
    destruct (status_attempt config w h) as [[[]|e|] h1]; simpl in Htr; subst h1;
      [| | |exfalso; by destruct Hres as [[b Hb]|Hb]].
    + eexists [_]. cbn [fst snd]. split; [done|].
      rewrite total_sleep_request.
      repeat split; try done; try lia.
      intros v [= <-]. eauto.
    + rewrite bind_run. unfold perform.
      destruct (w _ (Sleep 2)) as [[]|what|]; cbn [fst snd].
      * destruct (IH w ((h ++ [status_request config
                                 (w h (RequestsGet (zap_host config) (zap_port config) 5))])
                        ++ [Event (Sleep 2) (Returns tt)]))
          as (new & Htr & Hb & Hex & Hnf & Hv).
        destruct (wait_attempts config n w _) as [r h2]. cbn [fst snd] in *.
        subst h2. eexists (_ :: _ :: new). rewrite <- !app_assoc.
        split; [done|]. rewrite total_sleep_attempt.
        split; [lia|]. split; [|done].
        intros Hr. destruct (Hex Hr) as [Hs Hc]. split; [lia|].
        simpl. by rewrite Hc.
      * eexists [_; _]. rewrite <- app_assoc. split; [done|].
        rewrite (total_sleep_attempt _ _ _ []).
        change (total_sleep []) with 0%Z. repeat split; try done; lia.
      * eexists [_; _]. rewrite <- app_assoc. split; [done|].
        rewrite (total_sleep_attempt _ _ _ []).
        change (total_sleep []) with 0%Z. repeat split; try done; lia.
    + eexists [_]. cbn [fst snd]. split; [done|].
      rewrite total_sleep_request. repeat split; try done; lia.
Qed.

(** X11.  Whatever the world does, [wait_for_zap] sleeps at most 60 seconds
    in all (30 attempts of 2 seconds); and it reports that the scanner is
    unavailable only after it has made all 30 status requests and slept
    the full 60 seconds. *)
Theorem wait_for_zap_sleeps_sixty_seconds (config : ScanConfig) (w : world)
    (h : list event) :
  ∃ new, (wait_for_zap config w h).2 = h ++ new
    ∧ (0 ≤ total_sleep new ≤ 60)%Z
    ∧ ((wait_for_zap config w h).1 = Done (PyBool false) →
       total_sleep new = 60%Z
       ∧ length (List.filter is_status_request new) = 30%nat).
Proof.
  destruct (wait_attempts_sleep config 30 w h) as (new & Htr & Hb & Hex & _).
  exists new. unfold wait_for_zap. change (Z.of_nat 30) with 30%Z in *. split; [done|]. split; [lia|].
  intros Hr. destruct (Hex Hr) as [Hs Hc]. split; [lia | done].
Qed.

(** X12.  Unless the readiness poller returned [True], [main] makes no
    request besides the poller's own: the scanner is not driven and nothing
    is written, and the process exits with 2, or with 130 if the user
    interrupted. *)
Theorem nothing_before_ready (environ : gmap string string) (fuel : nat)
    (w : world) (config : ScanConfig) :
  ScanConfig_init environ = Done config →
  (wait_for_zap config w []).1 ≠ Done (PyBool true) →
  (main environ fuel w []).2 = (wait_for_zap config w []).2
  ∧ Forall (λ e, wait_calls config (ev_call e) = true) (main environ fuel w []).2
  ∧ ((main environ fuel w []).1 = sys_exited 2
     ∨ (main environ fuel w []).1 = sys_exited 130).
Proof.
  intros Hcfg Hnot.
  destruct (validated_profile config (ScanConfig_init_validated _ _ Hcfg))
    as (profile & Hprof & _).
  destruct (wait_attempts_footprint config 30 w []) as (new & Htr & Hfp & Hs).
  destruct (wait_attempts_sleep config 30 w []) as (_ & _ & _ & _ & Hnf & Hbool).
  unfold wait_for_zap in *.
  assert (Htry : main_try environ fuel w []
                 = (match (wait_attempts config 30 w []).1 with
                    | Done _ => sys_exited 2
                    | Raised e => Raised e
                    | OutOfFuel => OutOfFuel
                    end, (wait_attempts config 30 w []).2)).
  { unfold main_try.
    rewrite bind_run. unfold lift at 1. rewrite Hcfg. cbv beta iota.
    rewrite bind_run. unfold lift at 1. rewrite Hprof. cbv beta iota.
    rewrite bind_run. unfold wait_for_zap.
    destruct (wait_attempts config 30 w []) as [[v|e|] h1];
      cbn [fst snd] in *; [|done..].
    destruct (Hbool v eq_refl) as [[] ->]; [done|]. done. }
  rewrite main_handled, Htry. cbn [fst snd].
  split; [done|]. split; [by rewrite Htr|].
  destruct (wait_attempts config 30 w []) as [[v|e|] h1]; cbn [fst snd] in *.
  - by left.
  - unfold sane in Hs. destruct e; simpl; auto. by destruct Hs as [[]%elem_of_nil _].
  - done.
Qed.

(** ** Further properties of the scan drivers *)

Lemma produces_lift_step {A B : Type} (r : result A) (a : A) (k : A → M B)
    (s : list event) (r' : result B) :
  r = Done a → produces (k a) s r' → produces (lift r ≫= k) s r'.
Proof.
  intros -> Hk. apply (produces_bind _ _ a [] s); [apply produces_lift | done].
Qed.

Lemma produces_lift_raised {A B : Type} (r : result A) (e : exn) (k : A → M B) :
  r = Raised e → produces (lift r ≫= k) [] (Raised e).
Proof. intros -> w h _. rewrite bind_run. unfold lift. by rewrite app_nil_r. Qed.

Lemma int_Done (s : string) (n : Z) : py_int s = Some n → int s = Done n.
Proof. unfold int. by intros ->. Qed.

Lemma int_Raised (s : string) : py_int s = None → int s = Raised ValueError.
Proof. unfold int. by intros ->. Qed.

Lemma ascan_wait_polls (fuel : nat) (scan_id : string) :
  satisfies (ascan_wait fuel scan_id) (inv ascan_poll_calls []).
Proof.
  induction fuel as [|fuel IH]; simpl; [by apply inv_lift|].
  repeat footprint_step.
  destruct (_ <? 100)%Z; [|apply inv_ret].
  repeat footprint_step. exact IH.
Qed.

(** X13.  The active scan driver, when it runs at all, starts one job
    against the target URL and from then on only reads the job's status
    and sleeps 5 seconds: it never reads the clock and never stops the
    job, so nothing but the job's progress ends its wait. *)
Theorem active_scan_only_polls (fuel : nat) (config : ScanConfig)
    (profile : ScanTypeProfile) (w : world) (h : list event) :
  ∃ new, (run_active_scan fuel config profile w h).2 = h ++ new
    ∧ (active_scan profile = false → new = [])
    ∧ (active_scan profile = true →
       ∃ o rest,
         new = Event (AscanScan (target_url config)) o :: rest
         ∧ Forall (λ e, ascan_poll_calls (ev_call e) = true) rest).
Proof.
  unfold run_active_scan. destruct (active_scan profile); simpl.
  - rewrite bind_run. unfold perform.
    destruct (w h (AscanScan (target_url config))) as [scan_id|what|] eqn:Hw;
      cbv beta iota zeta.
    + destruct (ascan_wait_polls fuel scan_id w
                  (h ++ [Event (AscanScan (target_url config)) (Returns scan_id)]))
        as (rest & Htr & Hfp & _).
      exists (Event (AscanScan (target_url config)) (Returns scan_id) :: rest).
      rewrite Htr, <- app_assoc. split; [done|]. split; [done|].
      intros _. by eexists _, rest.
    + eexists [_]. split; [done|]. split; [done|]. intros _.
      eexists _, []. by split.
    + eexists [_]. split; [done|]. split; [done|]. intros _.
      eexists _, []. by split.
  - exists []. rewrite app_nil_r. by repeat split.
Qed.

Lemma ascan_wait_stuck (w : world) (scan_id : string) :
  (∀ h, ∃ status n, w h (AscanStatus scan_id) = Returns status
                    ∧ py_int status = Some n ∧ (n < 100)%Z) →
  (∀ h, w h (Sleep 5) = Returns tt) →
  ∀ fuel h, (ascan_wait fuel scan_id w h).1 = OutOfFuel.
Proof.
  intros Hstatus Hsleep. induction fuel as [|fuel IH]; intros h; [done|].
  cbn [ascan_wait].
  destruct (Hstatus h) as (s1 & n1 & Hw1 & Hn1 & Hlt1). answered Hw1.
  rewrite bind_run. unfold lift at 1. rewrite (int_Done _ _ Hn1).
  cbv beta iota. apply Z.ltb_lt in Hlt1. rewrite Hlt1.
  destruct (Hstatus (h ++ [Event (AscanStatus scan_id) (Returns s1)]))
    as (s2 & n2 & Hw2 & Hn2 & _).
  answered Hw2.
  rewrite bind_run. unfold lift at 1. rewrite (int_Done _ _ Hn2).
  cbv beta iota. answered (Hsleep ((h ++ [Event (AscanStatus scan_id) (Returns s1)])
                                   ++ [Event (AscanStatus scan_id) (Returns s2)])).
  apply IH.
Qed.

Lemma spider_wait_stuck (w : world) (scan_id : string)
    (start_time : float) :
  (∀ h, ∃ status n, w h (SpiderStatus scan_id) = Returns status
                    ∧ py_int status = Some n ∧ (n < 100)%Z) →
  (∀ h, ∃ now, w h Time = Returns now) →
  (∀ h, w h (Sleep 2) = Returns tt) →
  ∀ fuel h, (spider_wait fuel scan_id start_time 0 w h).1 = OutOfFuel.
Proof.
  intros Hstatus Htime Hsleep. induction fuel as [|fuel IH]; intros h; [done|].
  cbn [spider_wait].
  destruct (Hstatus h) as (s1 & n1 & Hw1 & Hn1 & Hlt1). answered Hw1.
  rewrite bind_run. unfold lift at 1. rewrite (int_Done _ _ Hn1).
  cbv beta iota. apply Z.ltb_lt in Hlt1. rewrite Hlt1.
  destruct (Hstatus (h ++ [Event (SpiderStatus scan_id) (Returns s1)]))
    as (s2 & n2 & Hw2 & _).
  answered Hw2.
  destruct (Htime ((h ++ [Event (SpiderStatus scan_id) (Returns s1)])
                   ++ [Event (SpiderStatus scan_id) (Returns s2)]))
    as (now & Hw3).
  answered Hw3. cbn [Z.ltb Z.compare andb].
  answered (Hsleep (((h ++ [Event (SpiderStatus scan_id) (Returns s1)])
                     ++ [Event (SpiderStatus scan_id) (Returns s2)])
                    ++ [Event Time (Returns now)])).
  apply IH.
Qed.

(** X14.  Neither driver gives up on a job that makes no progress unless a
    time limit is set: while the scanner keeps reporting a status below
    100 and the other requests return, the active scan driver, and the
    crawl driver under a profile whose maximum duration is 0, are still
    polling after any number of rounds. *)
Theorem drivers_wait_without_limit (config : ScanConfig)
    (profile : ScanTypeProfile) (w : world) :
  (∀ h scan_id, ∃ status n,
     w h (AscanStatus scan_id) = Returns status
     ∧ py_int status = Some n ∧ (n < 100)%Z) →
  (∀ h scan_id, ∃ status n,
     w h (SpiderStatus scan_id) = Returns status
     ∧ py_int status = Some n ∧ (n < 100)%Z) →
  (∀ h c, match c with
          | AscanStatus _ | SpiderStatus _ => True
          | _ => ∃ v, w h c = Returns v
          end) →
  (active_scan profile = true →
   ∀ fuel h, (run_active_scan fuel config profile w h).1 = OutOfFuel)
  ∧ (spider_max_duration profile = 0%Z →
     ∀ fuel h, (run_spider_scan fuel config profile w h).1 = OutOfFuel).
Proof.
  intros Hascan Hspider Hret.
  assert (Hsleep : ∀ n h, w h (Sleep n) = Returns tt).
  { intros n h. destruct (Hret h (Sleep n)) as [[] Hv]. exact Hv. }
  split.
  - intros Hact fuel h. unfold run_active_scan. rewrite Hact. simpl.
    destruct (Hret h (AscanScan (target_url config))) as [scan_id Hw].
    answered Hw. by apply ascan_wait_stuck.
  - intros Hzero fuel h. unfold run_spider_scan. rewrite Hzero.
    rewrite bind_run.
    assert (Hdepth : ∃ h1,
      (if (0 <? spider_max_depth profile)%Z
       then perform (SpiderSetOptionMaxDepth (spider_max_depth profile))
       else mret tt) w h = (Done tt, h1)).
    { destruct (0 <? _)%Z; [|by eexists].
      destruct (Hret h (SpiderSetOptionMaxDepth (spider_max_depth profile)))
        as [[] Hw].
      unfold perform. rewrite Hw. by eexists. }
    destruct Hdepth as [h1 ->]. cbv beta iota.
    destruct (Hret h1 (SpiderScan (target_url config))) as [scan_id Hw1].
    answered Hw1.
    destruct (Hret (h1 ++ [Event (SpiderScan (target_url config)) (Returns scan_id)])
                Time) as [start_time Hw2].
    answered Hw2. rewrite bind_run.
    rewrite (surjective_pairing (spider_wait _ _ _ _ _ _)).
    rewrite (spider_wait_stuck w scan_id start_time); [done|by auto| |by auto].
    intros h'. destruct (Hret h' Time) as [now Hnow]. eauto.
Qed.

Lemma produces_bind_raised {A B : Type} (m : M A) (k : A → M B) (e : exn)
    (s : list event) :
  produces m s (Raised e) → produces (m ≫= k) s (Raised e).
Proof. intros Hm w h Hans. by rewrite bind_run, (Hm w h Hans). Qed.

Lemma ascan_wait_rounds (scan_id : string) (rounds : list (string * string))
    (script : list event) (r : result unit) (fuel : nat) :
  Forall (λ '(status, progress),
            (∃ n, py_int status = Some n ∧ (n < 100)%Z)
            ∧ is_Some (py_int progress)) rounds →
  produces (ascan_wait fuel scan_id) script r →
  produces (ascan_wait (length rounds + fuel) scan_id)
           (ascan_rounds scan_id rounds ++ script) r.
Proof.
  intros Hrounds Hrest.
  induction Hrounds as [|[status progress] rounds [(n & Hn & Hlt) [p Hp]] _ IH];
    simpl; [done|].
  apply (produces_step (AscanStatus _)).
  apply (produces_lift_step _ n); [by apply int_Done|].
  apply Z.ltb_lt in Hlt. rewrite Hlt.
  apply (produces_step (AscanStatus _)).
  apply (produces_lift_step _ p); [by apply int_Done|].
  apply (produces_step (Sleep 5)). exact IH.
Qed.

(** X15.  The active scan driver returns as soon as a poll reads a status
    of 100 or more: after any number of polls that found the job
    unfinished, each followed by a 5-second sleep, that reading ends the
    wait without a further request. *)
Theorem active_scan_completes (config : ScanConfig) (profile : ScanTypeProfile)
    (scan_id last : string) (n : Z) (rounds : list (string * string))
    (spare : nat) :
  let script := Event (AscanScan (target_url config)) (Returns scan_id)
                :: ascan_rounds scan_id rounds
                ++ [Event (AscanStatus scan_id) (Returns last)] in
  active_scan profile = true →
  Forall (λ '(status, progress),
            (∃ n, py_int status = Some n ∧ (n < 100)%Z)
            ∧ is_Some (py_int progress)) rounds →
  py_int last = Some n → (100 ≤ n)%Z →
  produces (run_active_scan (length rounds + S spare) config profile)
           script (Done tt)
  ∧ run_active_scan (length rounds + S spare) config profile
      (scripted script) [] = (Done tt, script).
Proof.
  intros script Hact Hrounds Hn Hge.
  assert (Hrun : produces (run_active_scan (length rounds + S spare) config
                             profile) script (Done tt)).
  { unfold run_active_scan, script. rewrite Hact. simpl.
    apply (produces_step (AscanScan _)).
    apply ascan_wait_rounds; [done|]. cbn [ascan_wait].
    apply (produces_step (AscanStatus _)).
    apply (produces_lift_step _ n); [by apply int_Done|].
    apply Z.ltb_ge in Hge. rewrite Hge. apply produces_ret. }
  split; [exact Hrun | by apply produces_scripted].
Qed.

(** X16.  A status the scanner reports that [int] rejects aborts the
    active scan with [ValueError], whether it is the reading that decides
    the loop or the second reading of a poll, which is taken only to be
    displayed; no sleep or further request follows. *)
Theorem active_scan_rejects_bad_status (config : ScanConfig)
    (profile : ScanTypeProfile) (scan_id bad : string)
    (rounds : list (string * string)) (spare : nat) :
  active_scan profile = true →
  Forall (λ '(status, progress),
            (∃ n, py_int status = Some n ∧ (n < 100)%Z)
            ∧ is_Some (py_int progress)) rounds →
  py_int bad = None →
  produces (run_active_scan (length rounds + S spare) config profile)
           (Event (AscanScan (target_url config)) (Returns scan_id)
            :: ascan_rounds scan_id rounds
            ++ [Event (AscanStatus scan_id) (Returns bad)])
           (Raised ValueError)
  ∧ ∀ status n,
      py_int status = Some n → (n < 100)%Z →
      produces (run_active_scan (length rounds + S spare) config profile)
               (Event (AscanScan (target_url config)) (Returns scan_id)
                :: ascan_rounds scan_id rounds
                ++ [Event (AscanStatus scan_id) (Returns status);
                    Event (AscanStatus scan_id) (Returns bad)])
               (Raised ValueError).
Proof.
  intros Hact Hrounds Hbad. split; [|intros status n Hn Hlt].
  - unfold run_active_scan. rewrite Hact. simpl.
    apply (produces_step (AscanScan _)).
    apply ascan_wait_rounds; [done|]. cbn [ascan_wait].
    apply (produces_step (AscanStatus _) _ _ []).
    by apply produces_lift_raised, int_Raised.
  - unfold run_active_scan. rewrite Hact. simpl.
    apply (produces_step (AscanScan _)).
    apply ascan_wait_rounds; [done|]. cbn [ascan_wait].
    apply (produces_step (AscanStatus _)).
    apply (produces_lift_step _ n); [by apply int_Done|].
    apply Z.ltb_lt in Hlt. rewrite Hlt.
    apply (produces_step (AscanStatus _) _ _ []).
    by apply produces_lift_raised, int_Raised.
Qed.

(** X17.  A crawl that finishes in time is not stopped: after polls that
    found it unfinished and within its time, whatever the second status
    reading of each poll was, a reading of 100 or more ends the wait, and
    the driver collects and returns the results, without a stop request. *)
Theorem crawl_completes_without_stop (config : ScanConfig)
    (profile : ScanTypeProfile) (scan_id last : string)
    (start_time : float) (n : Z)
    (rounds : list (string * string * float)) (urls : list string)
    (spare : nat) :
  let max_duration := (spider_max_duration profile * 60)%Z in
  let script := spider_prelude config profile scan_id start_time
                ++ spider_rounds scan_id rounds
                ++ [Event (SpiderStatus scan_id) (Returns last);
                    Event (SpiderResults scan_id) (Returns urls)] in
  Forall (λ '(status, progress, now),
            (∃ n, py_int status = Some n ∧ (n < 100)%Z)
            ∧ over_time max_duration start_time now = false) rounds →
  py_int last = Some n → (100 ≤ n)%Z →
  produces (run_spider_scan (length rounds + S spare) config profile)
           script (Done urls)
  ∧ run_spider_scan (length rounds + S spare) config profile
      (scripted script) [] = (Done urls, script)
  ∧ ∀ e scan_id', e ∈ script → ev_call e ≠ SpiderStop scan_id'.
Proof.
  intros max_duration script Hrounds Hn Hge.
  assert (Hrun : produces (run_spider_scan (length rounds + S spare) config
                             profile) script (Done urls)).
  { unfold run_spider_scan, script, spider_prelude. rewrite <- app_assoc.
    apply (produces_bind _ _ tt).
    { destruct (0 <? _)%Z; [|apply produces_ret].
      apply (produces_perform (SpiderSetOptionMaxDepth _) (Returns tt)). }
    simpl. apply (produces_step (SpiderScan _)), (produces_step Time).
    change [Event (SpiderStatus scan_id) (Returns last);
            Event (SpiderResults scan_id) (Returns urls)]
      with ([Event (SpiderStatus scan_id) (Returns last)]
            ++ [Event (SpiderResults scan_id) (Returns urls)]).
    rewrite app_assoc. apply (produces_bind _ _ tt).
    { apply spider_wait_rounds; [done|]. cbn [spider_wait].
      apply (produces_step (SpiderStatus _)).
      apply (produces_lift_step _ n); [by apply int_Done|].
      apply Z.ltb_ge in Hge. rewrite Hge. apply produces_ret. }
    apply (produces_step (SpiderResults _)), produces_ret. }
  split; [exact Hrun|]. split; [by apply produces_scripted|].
  intros e x He Hcall. unfold script, spider_prelude in He.
  rewrite !elem_of_app in He.
  destruct He as [[He|He]|[He|He]].
  - destruct (0 <? _)%Z; [|by apply elem_of_nil in He].
    apply list_elem_of_singleton in He as ->. done.
  - repeat (apply elem_of_cons in He as [->|He]); try done.
    by apply elem_of_nil in He.
  - clear -He Hcall. induction rounds as [|[[s p] t] rounds IH];
      [by apply elem_of_nil in He|].
    simpl in He.
    repeat (apply elem_of_cons in He as [->|He]); try done.
  - repeat (apply elem_of_cons in He as [->|He]); try done.
    by apply elem_of_nil in He.
Qed.

(** X18.  A status that [int] rejects where the crawl loop tests it aborts
    the crawl with [ValueError]: the driver makes no further request, so
    the URLs found so far are not collected. *)
Theorem crawl_rejects_bad_status (config : ScanConfig)
    (profile : ScanTypeProfile) (scan_id bad : string)
    (start_time : float)
    (rounds : list (string * string * float)) (spare : nat) :
  let max_duration := (spider_max_duration profile * 60)%Z in
  let script := spider_prelude config profile scan_id start_time
                ++ spider_rounds scan_id rounds
                ++ [Event (SpiderStatus scan_id) (Returns bad)] in
  Forall (λ '(status, progress, now),
            (∃ n, py_int status = Some n ∧ (n < 100)%Z)
            ∧ over_time max_duration start_time now = false) rounds →
  py_int bad = None →
  produces (run_spider_scan (length rounds + S spare) config profile)
           script (Raised ValueError)
  ∧ last script = Some (Event (SpiderStatus scan_id) (Returns bad)).
Proof.
  intros max_duration script Hrounds Hbad. split.
  - unfold run_spider_scan, script, spider_prelude. rewrite <- app_assoc.
    apply (produces_bind _ _ tt).
    { destruct (0 <? _)%Z; [|apply produces_ret].
      apply (produces_perform (SpiderSetOptionMaxDepth _) (Returns tt)). }
    simpl. apply (produces_step (SpiderScan _)), (produces_step Time).
    apply produces_bind_raised.
    apply spider_wait_rounds; [done|]. cbn [spider_wait].
    apply (produces_step (SpiderStatus _) _ _ []).
    by apply produces_lift_raised, int_Raised.
  - unfold script. by rewrite !app_assoc, last_snoc.
Qed.

(** ** The details of high-risk findings *)

Lemma shown_has_details (a : alert) :
  (has_details a → shown a = Done tt)
  ∧ (¬ has_details a → ∃ k, shown a = Raised (KeyError k) ∧ k ∈ detail_keys).
Proof.
  unfold shown, has_details, getitem, detail_keys.
  destruct (a !! "alert") as [x|] eqn:H1; simpl.
  2: { split; [by intros [[? [=]] _]|]. intros _. eexists. split; [done|].
       rewrite !elem_of_cons. auto. }
  destruct (a !! "url") as [y|] eqn:H2; simpl.
  2: { split; [by intros (_ & [? [=]] & _)|]. intros _. eexists.
       split; [done|]. rewrite !elem_of_cons. auto. }
  destruct (a !! "description") as [z|] eqn:H3; simpl.
  2: { split; [by intros (_ & _ & [? [=]])|]. intros _. eexists.
       split; [done|]. rewrite !elem_of_cons. auto. }
  split; [done|]. intros Hn. destruct Hn. by repeat split.
Qed.

Lemma show_all_has_details (alerts : list alert) :
  (Forall has_details alerts → show_all alerts = Done tt)
  ∧ (¬ Forall has_details alerts →
     ∃ k, show_all alerts = Raised (KeyError k) ∧ k ∈ detail_keys).
Proof.
  induction alerts as [|a rest [IHd IHr]]; simpl.
  - split; [done|]. intros Hn. destruct Hn. constructor.
  - destruct (shown_has_details a) as [Hd Hr]. split.
    + intros [Ha Hrest]%Forall_cons. rewrite (Hd Ha). simpl. by apply IHd.
    + intros Hn. destruct (decide (has_details a)) as [Ha|Ha].
      * rewrite (Hd Ha). simpl. apply IHr. intros Hrest. apply Hn.
        by constructor.
      * destruct (Hr Ha) as (k & -> & Hk). by exists k.
Qed.

Lemma substring_prefix (m : nat) (s : string) :
  (∃ rest, s = String.substring 0 m s +:+ rest)
  ∧ String.length (String.substring 0 m s) = (m `min` String.length s)%nat.
Proof.
  revert s. induction m as [|m IH]; intros s.
  - destruct s; simpl; (split; [by eexists | done]).
  - destruct s as [|c s]; simpl.
    + split; [by exists EmptyString | done].
    + destruct (IH s) as [[rest Hrest] Hlen]. split.
      * exists rest.
        change (String c s = String c (String.substring 0 m s +:+ rest)).
        by f_equal.
      * by rewrite Hlen.
Qed.

Lemma high_findings_cons (a : alert) (alerts : list alert) :
  high_findings (a :: alerts)
  = if bool_decide (a !! "risk" = Some "High")
    then a :: high_findings alerts else high_findings alerts.
Proof.
  unfold high_findings. rewrite filter_cons.
  case_bool_decide; by destruct (decide _).
Qed.

Lemma high_findings_count (alerts : list alert) :
  Z.of_nat (length (high_findings alerts)) = count_risk "High" alerts.
Proof.
  unfold count_risk, high_findings. f_equal.
  induction alerts as [|a rest IH]; [done|].
  rewrite !filter_cons.
  assert (Hiff : a !! "risk" = Some "High" ↔ risk_of a = "High").
  { unfold risk_of. destruct (a !! "risk"); simpl; split; congruence. }
  destruct (decide (a !! "risk" = Some "High")) as [H|H].
  - rewrite (decide_True (P := risk_of a = "High")) by (by apply Hiff).
    simpl. by rewrite IH.
  - rewrite (decide_False (P := risk_of a = "High")) by (by rewrite <- Hiff).
    done.
Qed.

(** X19.  The summary lists the high-risk findings in their order, each
    with its name, its URL and the first 200 characters of its
    description, so as many entries as findings counted under High.  It
    can be built exactly when every high-risk finding has the three
    entries; otherwise building it raises [KeyError] for one of them. *)
Theorem summary_lists_high_findings (alerts : list alert) :
  (∀ entries,
     high_risk_entries alerts = Done entries →
     Forall2 (λ a e,
                a !! "alert" = Some (hra_name e)
                ∧ a !! "url" = Some (hra_url e)
                ∧ ∃ d rest,
                    a !! "description" = Some d
                    ∧ d = hra_description e +:+ rest
                    ∧ String.length (hra_description e)
                      = (200 `min` String.length d)%nat)
             (high_findings alerts) entries
     ∧ Z.of_nat (length entries) = count_risk "High" alerts)
  ∧ ((∃ entries, high_risk_entries alerts = Done entries)
     ↔ Forall has_details (high_findings alerts))
  ∧ (¬ Forall has_details (high_findings alerts) →
     ∃ k, high_risk_entries alerts = Raised (KeyError k) ∧ k ∈ detail_keys).
Proof.
  assert (Hshape : ∀ entries,
     high_risk_entries alerts = Done entries →
     Forall2 (λ a e,
                a !! "alert" = Some (hra_name e)
                ∧ a !! "url" = Some (hra_url e)
                ∧ ∃ d rest,
                    a !! "description" = Some d
                    ∧ d = hra_description e +:+ rest
                    ∧ String.length (hra_description e)
                      = (200 `min` String.length d)%nat)
             (high_findings alerts) entries).
  { induction alerts as [|a rest IH]; intros entries; simpl.
    - intros [= <-]. constructor.
    - rewrite high_findings_cons. case_bool_decide; [|by apply IH].
      unfold getitem.
      destruct (a !! "alert") as [x|] eqn:H1; simpl; [|done].
      destruct (a !! "url") as [y|] eqn:H2; simpl; [|done].
      destruct (a !! "description") as [z|] eqn:H3; simpl; [|done].
      destruct (high_risk_entries rest) as [es| |]; simpl; [|done..].
      intros [= <-]. constructor; [|by apply IH].
      simpl. do 2 (split; [done|]).
      destruct (substring_prefix 200 z) as [[r Hr] Hlen].
      by exists z, r. }
  assert (Hiff : (Forall has_details (high_findings alerts) →
                  ∃ entries, high_risk_entries alerts = Done entries)
                 ∧ (¬ Forall has_details (high_findings alerts) →
                    ∃ k, high_risk_entries alerts = Raised (KeyError k)
                         ∧ k ∈ detail_keys)).
  { clear Hshape. induction alerts as [|a rest [IHd IHr]]; simpl.
    - split; [by eexists|]. intros Hn. destruct Hn. constructor.
    - rewrite high_findings_cons. case_bool_decide; [|done].
      destruct (shown_has_details a) as [Hd Hr].
      unfold shown, getitem in Hd, Hr. unfold getitem. split.
      + intros [Ha [es Hes]%IHd]%Forall_cons. specialize (Hd Ha).
        destruct (a !! "alert"); simpl in *; [|done].
        destruct (a !! "url"); simpl in *; [|done].
        destruct (a !! "description"); simpl in *; [|done].
        rewrite Hes. simpl. by eexists.
      + intros Hn. destruct (decide (has_details a)) as [Ha|Ha].
        * specialize (Hd Ha).
          destruct (a !! "alert"); simpl in *; [|done].
          destruct (a !! "url"); simpl in *; [|done].
          destruct (a !! "description"); simpl in *; [|done].
          destruct IHr as (k & -> & Hk); [|by exists k].
          intros Hrest. apply Hn. by constructor.
        * clear Hd Hr. unfold has_details, detail_keys in *.
          destruct (a !! "alert"); simpl;
            [|eexists; split; [done | rewrite !elem_of_cons; auto]].
          destruct (a !! "url"); simpl;
            [|eexists; split; [done | rewrite !elem_of_cons; auto]].
          destruct (a !! "description"); simpl;
            [|eexists; split; [done | rewrite !elem_of_cons; auto]].
          destruct Ha. by repeat split. }
  destruct Hiff as [Hd Hr]. split; [|split; [split|]].
  - intros entries Hes. split; [by apply Hshape|].
    rewrite <- high_findings_count.
    by rewrite (Forall2_length _ _ _ (Hshape _ Hes)).
  - intros [entries Hes].
    destruct (decide (Forall has_details (high_findings alerts)))
      as [|Hn]; [done|].
    destruct (Hr Hn) as (k & Hk & _). congruence.
  - exact Hd.
  - exact Hr.
Qed.

(** X20.  [display_results] reads the details of the first three
    high-risk findings only: on the counts of [analyze_alerts] it returns
    the verdict of the gate exactly when these three have their entries,
    whatever the later ones lack, and otherwise it raises [KeyError] for
    a missing entry. *)
Theorem display_results_reads_three (alerts : list alert)
    (rc : gmap string Z) (config : ScanConfig) :
  analyze_alerts alerts = Done rc →
  (Forall has_details (take 3 (high_findings alerts)) →
   display_results alerts rc config
   = Done (bool_decide (count_risk "High" alerts ≤ max_high config
                        ∧ count_risk "Medium" alerts ≤ max_medium config
                        ∧ count_risk "Low" alerts ≤ max_low config)%Z))
  ∧ (¬ Forall has_details (take 3 (high_findings alerts)) →
     ∃ k, display_results alerts rc config = Raised (KeyError k)
          ∧ k ∈ detail_keys).
Proof.
  intros Hrc. destruct (analyze_alerts_Done_counts _ _ Hrc) as [_ Hc].
  pose proof (Hc "High" ltac:(severity_mem)) as HH.
  pose proof (Hc "Medium" ltac:(severity_mem)) as HM.
  pose proof (Hc "Low" ltac:(severity_mem)) as HL.
  pose proof (Hc "Informational" ltac:(severity_mem)) as HI.
  destruct (show_all_has_details (take 3 (high_findings alerts))) as [Hd Hr].
  unfold display_results, check_thresholds, getitem.
  rewrite HH, HM, HL, HI. simpl. fold (high_findings alerts). split.
  - intros Hok. rewrite (Hd Hok). simpl. f_equal.
    rewrite andb_true_r.
    apply eq_true_iff_eq. rewrite !andb_true_iff, !Z.leb_le.
    rewrite bool_decide_eq_true. done.
  - intros Hn. destruct (Hr Hn) as (k & -> & Hk). by exists k.
Qed.

(** ** The reports *)

Lemma produces_try_swallow (body : M unit) (s : list event) (r : result unit) :
  produces body s r →
  match r with
  | Done _ => True
  | Raised e => is_Exception e = true
  | OutOfFuel => False
  end →
  produces (try_except body (λ _, mret tt)) s (Done tt).
Proof.
  intros Hb Hr w h Hans. unfold try_except. rewrite (Hb w h Hans).
  destruct r as [[]|e|]; [done| |done]. by rewrite Hr.
Qed.

Lemma result_of_uninterrupted (o : outcome unit) :
  uninterrupted o = true →
  match result_of o with
  | Done _ => True
  | Raised e => is_Exception e = true
  | OutOfFuel => False
  end.
Proof. by destruct o. Qed.

Lemma build_summary_result ts alerts config rc passed :
  match build_summary ts alerts config rc passed with
  | Done _ => True
  | Raised e => is_Exception e = true
  | OutOfFuel => False
  end.
Proof.
  pose proof (harmless_build_summary [] ts alerts config rc passed) as Hh.
  assert (Hnf : build_summary ts alerts config rc passed ≠ OutOfFuel).
  { unfold build_summary.
    assert (H : high_risk_entries alerts ≠ OutOfFuel).
    { clear Hh. induction alerts as [|a rest IH]; simpl; [done|].
      case_bool_decide; [|done]. unfold getitem.
      destruct (a !! "alert"); simpl; [|done].
      destruct (a !! "url"); simpl; [|done].
      destruct (a !! "description"); simpl; [|done].
      by destruct (high_risk_entries rest). }
    by destruct (high_risk_entries alerts). }
  destruct (build_summary ts alerts config rc passed) as [s|e|]; [done| |done].
  destruct e; simpl in *; try done. by apply elem_of_nil in Hh.
Qed.

(** X21.  The three reports are written independently: when the directory
    is made and no request is interrupted, [save_reports] returns
    normally whatever fails.  The HTML file is written only if the
    scanner delivered the report, the JSON report is attempted in any
    case, and the summary is attempted exactly when it could be built;
    a failed request or write does not stop the later ones. *)
Theorem save_reports_survives_failures (alerts : list alert)
    (config : ScanConfig) (risk_counts : gmap string Z) (scan_passed : bool)
    (timestamp : string) (o_html : outcome string)
    (o_write_html o_write_json o_write_summary : outcome unit) :
  let summary :=
    build_summary timestamp alerts config risk_counts scan_passed in
  let script :=
    Event (Mkdir (report_dir config)) (Returns tt)
    :: Event Strftime (Returns timestamp)
    :: report_attempts config timestamp alerts summary o_html
                       o_write_html o_write_json o_write_summary in
  uninterrupted o_html = true →
  uninterrupted o_write_html = true →
  uninterrupted o_write_json = true →
  uninterrupted o_write_summary = true →
  produces (save_reports alerts config risk_counts scan_passed) script (Done tt)
  ∧ save_reports alerts config risk_counts scan_passed (scripted script) []
    = (Done tt, script).
Proof.
  intros summary script Hh Hwh Hwj Hws.
  assert (Hrun : produces (save_reports alerts config risk_counts scan_passed)
                          script (Done tt)).
  { unfold save_reports, script, report_attempts.
    apply (produces_step (Mkdir _)), (produces_step Strftime).
    apply (produces_bind _ _ tt).
    { destruct o_html as [html|what|]; [| |done].
      - apply (produces_try_swallow _ _ (result_of o_write_html));
          [|by apply result_of_uninterrupted].
        apply (produces_step CoreHtmlreport).
        apply (produces_perform (WriteFile _ _ _)).
      - apply (produces_try_swallow _ _ (Raised (EnvironmentFault what)));
          [|done].
        apply produces_bind_raised.
        apply (produces_perform CoreHtmlreport (Fails what)). }
    apply (produces_bind _ _ tt).
    { apply (produces_try_swallow _ _ (result_of o_write_json));
        [|by apply result_of_uninterrupted].
      apply (produces_perform (WriteFile _ _ _)). }
    pose proof (build_summary_result timestamp alerts config risk_counts
                  scan_passed) as Hsum.
    fold summary in Hsum |- *.
    destruct summary as [s|e|] eqn:Hs; [| |done].
    - apply (produces_try_swallow _ _ (result_of o_write_summary));
        [|by apply result_of_uninterrupted].
      apply (produces_lift_step _ s); [done|].
      apply (produces_perform (WriteFile _ _ _)).
    - apply (produces_try_swallow _ _ (Raised e)); [|done].
      by apply produces_lift_raised. }
  split; [exact Hrun | by apply produces_scripted].
Qed.

Lemma build_summary_all_fields ts alerts config rc passed (summary : Summary) :
  build_summary ts alerts config rc passed = Done summary →
  sum_target_url summary = target_url config
  ∧ sum_scan_type summary = scan_type config
  ∧ sum_total_alerts summary = Z.of_nat (length alerts)
  ∧ sum_risk_counts summary = rc
  ∧ sum_thresholds summary = (max_high config, max_medium config, max_low config)
  ∧ sum_passed summary = passed.
Proof.
  unfold build_summary. destruct (high_risk_entries alerts); simpl; [|done..].
  by intros [= <-].
Qed.

Lemma save_reports_contents (alerts : list alert) (config : ScanConfig)
    (risk_counts : gmap string Z) (scan_passed : bool) :
  satisfies (save_reports alerts config risk_counts scan_passed)
            (inv (report_contents config alerts risk_counts scan_passed) []).
Proof.
  unfold save_reports.
  do 4 (apply inv_bind; [repeat footprint_step | intros ?]).
  apply inv_try_except; [|intros ?; apply inv_ret].
  apply inv_bind_lift; [auto with scan|].
  intros summary H%build_summary_all_fields.
  apply inv_perform. simpl. by rewrite bool_decide_eq_true.
Qed.

Lemma before_gate_not_write (config : ScanConfig) (profile : ScanTypeProfile)
    (c : call) :
  before_gate_calls config profile c = true → is_write c = false.
Proof. unfold before_gate_calls. by destruct c. Qed.

(** X22.  No run of [main] creates a directory or writes a file before it
    has the findings, so a run that ends before that leaves nothing
    behind.  Every write of a run follows the retrieval of findings that
    [analyze_alerts] and [display_results] accepted and goes to the
    configured report directory; the JSON report holds exactly the
    findings retrieved, and a summary carries their number, their
    counts, the verdict and the configured target, scan type and
    limits. *)
Theorem writes_follow_findings (environ : gmap string string) (fuel : nat)
    (w : world) (e : event) :
  let run := main environ fuel w [] in
  e ∈ run.2 → is_write (ev_call e) = true →
  ∃ config alerts risk_counts passed pre post,
    ScanConfig_init environ = Done config
    ∧ analyze_alerts alerts = Done risk_counts
    ∧ display_results alerts risk_counts config = Done passed
    ∧ run.2 = pre ++ [Event (CoreAlerts (target_url config)) (Returns alerts)]
                  ++ post
    ∧ Forall (λ e', is_write (ev_call e') = false) pre
    ∧ e ∈ post
    ∧ Forall (λ e', report_contents config alerts risk_counts passed
                      (ev_call e') = true) post.
Proof.
  intros run. unfold run. rewrite main_handled. cbn [snd].
  destruct (main_try environ fuel w []) as [r tr] eqn:Hrun. cbn [snd].
  apply main_try_run in Hrun
    as [(ex & Hcfg & -> & ->)
       |(config & profile & Hcfg & Hprof &
         [(Hfp & Hs & Hnd)
         |(pre & alerts & rc & passed & post & r' & Hfp & Hq & Hg & -> & ->)])].
  - by intros ?%elem_of_nil.
  - intros He Hw. rewrite Forall_forall in Hfp.
    apply Hfp, before_gate_not_write in He. congruence.
  - intros He Hw. exists config, alerts, rc, passed, pre, post.
    destruct Hg as (Hrc & Hdisp & Hsave & _ & _).
    assert (Hpre : Forall (λ e', is_write (ev_call e') = false) pre).
    { eapply Forall_impl; [exact Hfp|]. intros e'.
      apply before_gate_not_write. }
    do 5 (split; [done|]). split.
    + rewrite !elem_of_app in He. destruct He as [He|[He|He]]; [| |done].
      * rewrite Forall_forall in Hpre. apply Hpre in He. congruence.
      * apply list_elem_of_singleton in He as ->. done.
    + destruct (save_reports_contents alerts config rc passed w
                  (pre ++ [Event (CoreAlerts (target_url config))
                             (Returns alerts)])) as (new & Htr & Hc & _).
      rewrite Hsave in Htr. cbn [snd] in Htr.
      apply app_inv_head in Htr as ->. exact Hc.
Qed.

Lemma save_reports_mkdir (alerts : list alert) (config : ScanConfig)
    (risk_counts : gmap string Z) (scan_passed : bool) (w : world)
    (h : list event) :
  let o := w h (Mkdir (report_dir config)) in
  ∃ new,
    (save_reports alerts config risk_counts scan_passed w h).2
    = h ++ Event (Mkdir (report_dir config)) o :: new
    ∧ Forall (λ e, after_mkdir_calls (ev_call e) = true) new
    ∧ match o with
      | Returns _ => True
      | _ => new = []
             ∧ (save_reports alerts config risk_counts scan_passed w h).1
               = result_of o
      end.
Proof.
  intros o.
  assert (Hrun : ∀ k : unit → M unit,
            (perform (Mkdir (report_dir config)) ≫= k) w h
            = match o with
              | Returns v =>
                  k v w (h ++ [Event (Mkdir (report_dir config)) (Returns v)])
              | _ => (result_of o, h ++ [Event (Mkdir (report_dir config)) o])
              end).
  { intros k. rewrite bind_run. unfold perform. fold o. by destruct o. }
  unfold save_reports. rewrite Hrun. clear Hrun.
  destruct o as [[]|what|].
  2,3: exists []; by repeat split.
  match goal with
  | |- context [?m w (h ++ [?ev])] =>
      assert (Hfp : satisfies m (inv after_mkdir_calls []))
  end.
  { do 3 (apply inv_bind; [repeat footprint_step | intros ?]).
    apply inv_try_except; [|intros ?; apply inv_ret].
    apply inv_bind_lift; [auto with scan|].
    intros summary _. by apply inv_perform. }
  destruct (Hfp w (h ++ [Event (Mkdir (report_dir config)) (Returns ())]))
    as (new & Htr & Hc & _).
  exists new. split; [|done].
  etransitivity; [exact Htr|]. by rewrite <- app_assoc.
Qed.

Lemma after_mkdir_not_mkdir (e : event) (dir : string) :
  after_mkdir_calls (ev_call e) = true → ev_call e ≠ Mkdir dir.
Proof. by destruct e as [[] ?]. Qed.

(** X23.  The report directory is made outside every [try] of
    [save_reports]: in a run of [main] in which making it fails, the
    findings had been retrieved and the gate computed, yet the run exits
    with 2 whatever the verdict was, the failed request is the last of
    the run and no file is written. *)
Theorem mkdir_failure_exits_2 (environ : gmap string string) (fuel : nat)
    (w : world) (dir what : string) :
  let run := main environ fuel w [] in
  Event (Mkdir dir) (Fails what) ∈ run.2 →
  run.1 = sys_exited 2
  ∧ last run.2 = Some (Event (Mkdir dir) (Fails what))
  ∧ (∀ e d f c, e ∈ run.2 → ev_call e ≠ WriteFile d f c)
  ∧ ∃ config alerts risk_counts passed,
      ScanConfig_init environ = Done config
      ∧ dir = report_dir config
      ∧ Event (CoreAlerts (target_url config)) (Returns alerts) ∈ run.2
      ∧ analyze_alerts alerts = Done risk_counts
      ∧ display_results alerts risk_counts config = Done passed.
Proof.
  intros run. unfold run. rewrite main_handled. cbn [fst snd].
  destruct (main_try environ fuel w []) as [r tr] eqn:Hrun. cbn [fst snd].
  apply main_try_run in Hrun
    as [(ex & Hcfg & -> & ->)
       |(config & profile & Hcfg & Hprof &
         [(Hfp & Hs & Hnd)
         |(pre & alerts & rc & passed & post & r' & Hfp & Hq & Hg & -> & ->)])].
  - by intros ?%elem_of_nil.
  - intros He. rewrite Forall_forall in Hfp.
    apply Hfp, before_gate_not_write in He. done.
  - intros He. destruct Hg as (Hrc & Hdisp & Hsave & _ & _).
    assert (Hpre : ∀ e', e' ∈ pre → is_write (ev_call e') = false).
    { intros e' He'. rewrite Forall_forall in Hfp.
      by eapply before_gate_not_write, Hfp. }
    destruct (save_reports_mkdir alerts config rc passed w
                (pre ++ [Event (CoreAlerts (target_url config))
                           (Returns alerts)])) as (new & Htr & Hc & Ho).
    rewrite Hsave in Htr, Ho. cbn [fst snd] in Htr, Ho.
    apply app_inv_head in Htr as ->.
    rewrite !elem_of_app in He. destruct He as [He|[He|He]].
    { by apply Hpre in He. }
    { by apply list_elem_of_singleton in He. }
    apply elem_of_cons in He as [He|He].
    2: { rewrite Forall_forall in Hc.
         by apply Hc, (after_mkdir_not_mkdir _ dir) in He. }
    pose proof (f_equal failed He) as Hfail.
    pose proof (f_equal ev_call He) as Hcall. simpl in Hcall.
    injection Hcall as ->.
    destruct (w _ (Mkdir (report_dir config))) as [[]|what'|] eqn:Hw;
      [done| |done].
    destruct Ho as [-> ->]. rewrite <- He.
    split; [done|]. split; [by rewrite !app_assoc, last_snoc|]. split.
    + intros e' d f c He'. rewrite !elem_of_app in He'.
      destruct He' as [He'|[He'|He']].
      * apply Hpre in He'. by destruct (ev_call e').
      * by apply list_elem_of_singleton in He' as ->.
      * by apply list_elem_of_singleton in He' as ->.
    + exists config, alerts, rc, passed. do 2 (split; [done|]).
      split; [|done]. rewrite !elem_of_app. right. left.
      by apply list_elem_of_singleton.
Qed.

(** ** The order of the phases *)

Lemma after_crawl_ascan (config : ScanConfig) (profile : ScanTypeProfile)
    (c : call) :
  ascan_calls config profile c || alerts_calls config c = true →
  after_crawl_calls config profile c = true.
Proof. destruct c; simpl; try done; by rewrite orb_false_r. Qed.

Lemma after_crawl_report (config : ScanConfig) (profile : ScanTypeProfile)
    (rc : gmap string Z) (passed : bool) (c : call) :
  report_calls config rc passed c = true →
  after_crawl_calls config profile c = true.
Proof.
  destruct c as [| | | | | | | | | | | | | | |dir file []]; simpl; try done.
  rewrite !bool_decide_eq_true. by intros [? _].
Qed.

(** X24.  [main] runs its phases one after the other, each from the
    history the previous one left and only if that one returned: the
    requests of a run are those of the readiness poller, then those of
    opening the target, then those of the crawl, then those of the
    active scan, the retrieval of the findings and the reports.  The
    target is opened only after the scanner answered, the crawl starts
    only after the target was opened, and nothing follows a crawl that
    did not return its URLs. *)
Theorem phases_in_order (environ : gmap string string) (fuel : nat)
    (w : world) (config : ScanConfig) :
  ScanConfig_init environ = Done config →
  ∃ profile waited opened crawled rest,
    ScanTypeConfig.get (scan_type config) = Done profile
    ∧ (main environ fuel w []).2 = waited ++ opened ++ crawled ++ rest
    ∧ (wait_for_zap config w []).2 = waited
    ∧ Forall (λ e, access_calls config (ev_call e) = true) opened
    ∧ Forall (λ e, spider_calls config profile (ev_call e) = true) crawled
    ∧ Forall (λ e, after_crawl_calls config profile (ev_call e) = true) rest
    ∧ (opened ≠ [] →
       ∃ ready, (wait_for_zap config w []).1 = Done ready
                ∧ truthy ready = true)
    ∧ (crawled ≠ [] →
       access_target config w waited = (Done tt, waited ++ opened))
    ∧ (rest ≠ [] →
       ∃ urls, run_spider_scan fuel config profile w (waited ++ opened)
               = (Done urls, waited ++ opened ++ crawled)).
Proof.
  intros Hcfg.
  destruct (validated_profile config (ScanConfig_init_validated _ _ Hcfg))
    as (profile & Hprof & _).
  exists profile. rewrite main_handled. cbn [snd].
  destruct (main_try environ fuel w []) as [r tr] eqn:Hrun. cbn [snd].
  revert Hrun. unfold main_try. rewrite bind_run. unfold lift at 1.
  rewrite Hcfg. rewrite bind_run. unfold lift at 1. rewrite Hprof.
  rewrite bind_run.
  destruct (wait_attempts_footprint config 30 w []) as (new1 & Htr1 & _ & _).
  unfold wait_for_zap.
  destruct (wait_attempts config 30 w []) as [[ready|e|] h1];
    cbn [fst snd] in Htr1 |- *; subst h1.
  2,3: intros [= <- <-]; exists new1, [], [], [];
       rewrite !app_nil_r; by repeat split.
  destruct (truthy ready) eqn:Hready; simpl.
  2: { intros [= <- <-]. exists new1, [], [], [].
       rewrite !app_nil_r. by repeat split. }
  rewrite bind_run.
  destruct (access_target_footprint config w new1) as (new2 & Htr2 & Hfp2 & _).
  destruct (access_target config w new1) as [[[]|e|] h2] eqn:Hacc;
    cbn [fst snd] in Htr2; subst h2.
  2,3: intros [= <- <-]; exists new1, new2, [], [];
       rewrite !app_nil_r; repeat split; try done; by exists ready.
  rewrite bind_run.
  destruct (run_spider_scan_footprint fuel config profile w (new1 ++ new2))
    as (new3 & Htr3 & Hfp3 & _).
  destruct (run_spider_scan fuel config profile w (new1 ++ new2))
    as [[urls|e|] h3] eqn:Hcrawl; cbn [fst snd] in Htr3; subst h3.
  2,3: intros [= <- <-]; exists new1, new2, new3, [];
       rewrite !app_nil_r, <- !app_assoc; repeat split; try done;
       by exists ready.
  intros [(new4 & -> & Hfp4 & _)
         |(new4 & alerts & rc & passed & post & r' & Hfp4 & _ & Hg & -> & _)]
         %after_spider_run.
  - exists new1, new2, new3, new4. rewrite <- !app_assoc in Hcrawl.
    split; [done|]. split; [by rewrite <- !app_assoc|].
    do 3 (split; [done|]). split; [|split; [|split]].
    + eapply Forall_impl; [exact Hfp4|]. intros e. apply after_crawl_ascan.
    + intros _. by exists ready.
    + done.
    + intros _. by exists urls.
  - exists new1, new2, new3,
      (new4 ++ [Event (CoreAlerts (target_url config)) (Returns alerts)]
       ++ post).
    rewrite <- !app_assoc in Hcrawl.
    split; [done|]. split; [by rewrite <- !app_assoc|].
    do 3 (split; [done|]). split; [|split; [|split]].
    + destruct Hg as (_ & _ & _ & Hpost & _).
      apply Forall_app. split; [|apply Forall_app; split].
      * eapply Forall_impl; [exact Hfp4|]. intros e He.
        apply after_crawl_ascan. by rewrite He.
      * apply Forall_singleton. simpl. by rewrite bool_decide_true.
      * eapply Forall_impl; [exact Hpost|]. intros e.
        apply after_crawl_report.
    + intros _. by exists ready.
    + done.
    + intros _. by exists urls.
Qed.

(** X25.  An interrupt is never swallowed and nothing follows it: in a
    run of [main] in which a request was cut short by the user, that
    request is the last of the run, no earlier one was interrupted, and
    the run exits with 130. *)
Theorem interrupt_ends_run (environ : gmap string string) (fuel : nat)
    (w : world) (c : call) :
  let run := main environ fuel w [] in
  Event c Interrupted ∈ run.2 →
  run.1 = sys_exited 130
  ∧ ∃ pre, run.2 = pre ++ [Event c Interrupted] ∧ Forall quiet pre.
Proof.
  intros run. unfold run. rewrite main_handled. cbn [fst snd].
  destruct (main_try environ fuel w []) as [r tr] eqn:Hrun. cbn [fst snd].
  apply main_try_sane in Hrun as [Hs _]. intros Hc.
  assert (Hr : r = Raised KeyboardInterrupt).
  { apply (sane_interrupt _ _ _ Hs). by exists c. }
  subst r. split; [done|].
  destruct Hs as (pre & c' & -> & Hq). exists pre. split; [|done].
  apply elem_of_app in Hc as [Hc|Hc].
  - rewrite Forall_forall in Hq. by apply Hq in Hc.
  - by apply list_elem_of_singleton in Hc as <-.
Qed.

End Scanner.

(** ** Worked instances *)

Lemma check_thresholds_gate_witness :
  sample_counts !! "High" = Some 0%Z
  ∧ ∃ checks, check_thresholds sample_counts sample_config = Done (true, checks).
Proof.
  split; [vm_compute; reflexivity|].
  destruct (check_thresholds_gate sample_counts sample_config 0 3 10)
    as (all_passed & Heq & _ & _ & Hscenario);
    [vm_compute; reflexivity..|].
  destruct Hscenario as [Hpass _]; [reflexivity..|].
  rewrite Hpass in Heq by reflexivity. eexists. exact Heq.
Defined.

Lemma sample_alerts_well_tagged : well_tagged sample_alerts.
Proof.
  intros a s Ha Hs. unfold sample_alerts in Ha.
  apply elem_of_cons in Ha as [->|Ha].
  - vm_compute in Hs. injection Hs as <-. unfold severities.
    apply list_elem_of_further, list_elem_of_here.
  - apply list_elem_of_singleton in Ha as ->. vm_compute in Hs. discriminate.
Defined.

Lemma analyze_alerts_total_on_known_severities_witness :
  ∃ risk_counts,
    analyze_alerts sample_alerts = Done risk_counts
    ∧ risk_counts !! "Medium" = Some 1%Z.
Proof.
  destruct (analyze_alerts_total_on_known_severities sample_alerts
              sample_alerts_well_tagged) as (rc & Hrc & _ & Hcount).
  exists rc. split; [exact Hrc|].
  rewrite (Hcount "Medium") by (apply list_elem_of_further, list_elem_of_here).
  vm_compute. reflexivity.
Defined.


Lemma analyze_alerts_counts_sum_witness :
  ∃ risk_counts high medium low informational,
    analyze_alerts sample_alerts = Done risk_counts
    ∧ risk_counts !! "High" = Some high
    ∧ risk_counts !! "Medium" = Some medium
    ∧ risk_counts !! "Low" = Some low
    ∧ risk_counts !! "Informational" = Some informational
    ∧ (high + medium + low + informational)%Z = 2%Z.
Proof.
  exact (analyze_alerts_counts_sum sample_alerts sample_alerts_well_tagged).
Defined.

Lemma summary_matches_computed_values_witness :
  ∃ summary,
    Event (WriteFile "./reports" "zap_summary_20240101_000000.json"
                     (SummaryJson summary)) (Returns tt)
    ∈ (main decimal_int sample_environ 1
         (prompt_world "2.14.0" sample_alerts) []).2
    ∧ analyze_alerts sample_alerts = Done (sum_risk_counts summary)
    ∧ sum_passed summary = true
    ∧ (main decimal_int sample_environ 1
         (prompt_world "2.14.0" sample_alerts) []).1 = sys_exited 0.
Proof.
  destruct (summary_matches_computed_values decimal_int)
    as (_ & _ & _ & Hmain).
  edestruct (Hmain sample_environ 1%nat (prompt_world "2.14.0" sample_alerts)
               sample_config ScanTypeConfig.quick)
    with (passed := true) (timestamp := "20240101_000000")
         (html := "<html></html>")
    as (Hrun & Hin & Hcounts & Hpassed & _).
  - vm_compute. reflexivity.
  - vm_compute. reflexivity.
  - vm_compute. reflexivity.
  - reflexivity.
  - vm_compute. reflexivity.
  - vm_compute. reflexivity.
  - vm_compute. reflexivity.
  - vm_compute. reflexivity.
  - vm_compute. reflexivity.
  - vm_compute. reflexivity.
  - vm_compute. reflexivity.
  - vm_compute. repeat split.
  - eexists. split; [exact Hin|]. rewrite Hcounts, Hpassed, Hrun.
    split; [vm_compute; reflexivity|]. split; reflexivity.
Defined.

Lemma main_exit_code_witness :
  (main decimal_int sample_environ 1 (prompt_world "2.14.0" sample_alerts) []).1
  = sys_exited 0
  ∧ ∃ config alerts risk_counts checks,
      ScanConfig_init decimal_int sample_environ = Done config
      ∧ Event (CoreAlerts (target_url config)) (Returns alerts)
        ∈ (main decimal_int sample_environ 1
             (prompt_world "2.14.0" sample_alerts) []).2
      ∧ analyze_alerts alerts = Done risk_counts
      ∧ check_thresholds risk_counts config = Done (true, checks).
Proof.
  split; [vm_compute; reflexivity|].
  destruct (main_exit_code decimal_int sample_environ 1
              (prompt_world "2.14.0" sample_alerts))
    as (_ & _ & _ & _ & _ & Hgate & _).
  apply (Hgate 0%Z); [vm_compute; reflexivity | left; reflexivity].
Defined.

Lemma wait_for_zap_polling_witness :
  produces (wait_for_zap sample_config)
           (failed_attempts sample_config
              [Fails "connection refused";
               Returns {| status_code := 503; content := NotJson |}]
            ++ [status_request sample_config
                  (Returns {| status_code := 200;
                              content := JsonObject (Some "2.14.0") |})])
           (Done (PyBool true)).
Proof.
  destruct (wait_for_zap_polling decimal_int sample_config) as (_ & Hready & _).
  refine (proj1 (Hready _ _ (Some "2.14.0") _ _ _ _)).
  - vm_compute. lia.
  - repeat constructor.
  - reflexivity.
  - reflexivity.
Defined.

Lemma zero_limit_is_unlimited_witness :
  ∃ new,
    (run_spider_scan decimal_int 3 sample_config ScanTypeConfig.full
       (slow_world []) []).2 = [] ++ new
    ∧ (∀ e depth, e ∈ new → ev_call e ≠ SpiderSetOptionMaxDepth depth)
    ∧ (∀ e scan_id, e ∈ new → ev_call e ≠ SpiderStop scan_id).
Proof.
  destruct (zero_limit_is_unlimited decimal_int 3 sample_config
              ScanTypeConfig.full (slow_world []) [])
    as ((new & Htr & Hdepth & Hstop) & _).
  exists new. split; [exact Htr|]. split.
  - apply Hdepth. reflexivity.
  - apply Hstop. reflexivity.
Defined.

Lemma crawl_timeout_returns_partial_results_witness :
  elapsed_since tenth two_minutes_later = 121%Z
  ∧ produces (run_spider_scan decimal_int 1 sample_config ScanTypeConfig.quick)
             (spider_prelude sample_config ScanTypeConfig.quick "0" tenth
              ++ spider_rounds "0" []
              ++ spider_timeout "0" "50" "50" two_minutes_later
                                ["http://target.test/"])
             (Done ["http://target.test/"])
  ∧ (main decimal_int sample_environ 1 (overdue_world sample_alerts) []).1
    = sys_exited 0.
Proof.
  split; [vm_compute; reflexivity|].
  destruct (crawl_timeout_returns_partial_results decimal_int sample_config
              ScanTypeConfig.quick "0" "50" "50" tenth two_minutes_later 50
              [] ["http://target.test/"] 0)
    as (Hrun & _ & _ & _ & Hmain).
  - constructor.
  - reflexivity.
  - lia.
  - vm_compute. reflexivity.
  - vm_compute. reflexivity.
  - split; [exact Hrun|].
    edestruct (Hmain sample_environ (overdue_world sample_alerts))
      with (passed := true) as [Hexit _].
    + vm_compute. reflexivity.
    + vm_compute. reflexivity.
    + vm_compute. reflexivity.
    + reflexivity.
    + vm_compute. reflexivity.
    + vm_compute. repeat split.
    + vm_compute. reflexivity.
    + vm_compute. reflexivity.
    + vm_compute. reflexivity.
    + vm_compute. reflexivity.
    + vm_compute. reflexivity.
    + exact (f_equal fst Hexit).
Defined.


(** ** Worked instances of the further properties *)

Lemma analyze_alerts_succeeds_iff_witness :
  analyze_alerts (sample_alerts ++ <["risk" := "Critical"]> ∅ :: sample_alerts)
  = Raised (KeyError "Critical").
Proof.
  destruct analyze_alerts_succeeds_iff as [_ Hraise].
  assert (Hrisk : risk_of (<["risk" := "Critical"]> ∅) = "Critical")
    by (vm_compute; reflexivity).
  specialize (Hraise sample_alerts sample_alerts (<["risk" := "Critical"]> ∅)
                sample_alerts_well_tagged).
  rewrite Hrisk in Hraise. apply Hraise.
  intros H. unfold severities in H.
  repeat (apply elem_of_cons in H as [H|H]; [discriminate H|]).
  by apply elem_of_nil in H.
Defined.

Lemma analyze_alerts_permutation_witness :
  ∃ rc, analyze_alerts sample_alerts = Done rc
        ∧ analyze_alerts (reverse sample_alerts) = Done rc.
Proof.
  eexists. split; [vm_compute; reflexivity|].
  apply (analyze_alerts_permutation sample_alerts).
  - symmetry. apply reverse_Permutation.
  - vm_compute. reflexivity.
Defined.

Lemma analyze_alerts_app_witness :
  ∃ rc, analyze_alerts sample_alerts = Done rc
        ∧ analyze_alerts (sample_alerts ++ sample_alerts)
          = Done (union_with (λ x y, Some (x + y)%Z) rc rc).
Proof.
  eexists. split; [vm_compute; reflexivity|].
  destruct (analyze_alerts_app sample_alerts sample_alerts) as [_ Hsum].
  apply Hsum; vm_compute; reflexivity.
Defined.

Lemma check_thresholds_monotone_witness :
  ∃ checks',
    check_thresholds sample_counts
      {| target_url := "http://target.test"; scan_type := "quick";
         zap_host := "localhost"; zap_port := 8080;
         max_high := 2; max_medium := 5; max_low := 999;
         report_dir := "./reports" |}
    = Done (true, checks').
Proof.
  eapply (check_thresholds_monotone sample_counts sample_config).
  - simpl. lia.
  - simpl. lia.
  - simpl. lia.
  - vm_compute. reflexivity.
Defined.

Lemma removing_a_finding_keeps_pass_witness :
  ∃ rc' checks',
    analyze_alerts (sample_alerts ++ []) = Done rc'
    ∧ check_thresholds rc' sample_config = Done (true, checks').
Proof.
  eapply (removing_a_finding_keeps_pass sample_alerts [] ∅ _ sample_config).
  - vm_compute. reflexivity.
  - vm_compute. reflexivity.
Defined.

Lemma informational_only_passes_witness :
  ∃ rc checks,
    analyze_alerts [∅; {[ "alert" := "Modern Web Application" ]}] = Done rc
    ∧ rc !! "High" = Some 0%Z ∧ rc !! "Medium" = Some 0%Z
    ∧ rc !! "Low" = Some 0%Z
    ∧ check_thresholds rc sample_config = Done (true, checks).
Proof.
  apply informational_only_passes.
  - vm_compute. reflexivity.
  - repeat constructor.
Defined.

Lemma ScanConfig_init_accepts_witness :
  ∃ url, sample_environ !! "ZAP_TARGET_URL" = Some url ∧ url ≠ "".
Proof.
  destruct (proj1 (ScanConfig_init_accepts decimal_int sample_environ
                     sample_config))
    as (url & port & high & medium & low & Hurl & Hne & _).
  - vm_compute. reflexivity.
  - exists url. exact (conj Hurl Hne).
Defined.

Lemma ScanConfig_init_failures_witness :
  ScanConfig_init decimal_int {[ "ZAP_SCAN_TYPE" := "full" ]}
  = Raised (SystemExit 2).
Proof.
  destruct (ScanConfig_init_failures decimal_int {[ "ZAP_SCAN_TYPE" := "full" ]})
    as [Hmissing _].
  apply Hmissing. left. reflexivity.
Defined.

Lemma ScanConfig_init_defaults_witness :
  ScanConfig_init decimal_int {[ "ZAP_TARGET_URL" := "https://target.test" ]}
  = Done {| target_url := "https://target.test"; scan_type := "standard";
            zap_host := "localhost"; zap_port := 8080;
            max_high := 0; max_medium := 5; max_low := 999;
            report_dir := "./reports" |}.
Proof.
  refine (proj1 (ScanConfig_init_defaults decimal_int
                   {[ "ZAP_TARGET_URL" := "https://target.test" ]}
                   "https://target.test" _ _ _ _ _ _ _)).
  - reflexivity.
  - reflexivity.
  - reflexivity.
  - reflexivity.
  - reflexivity.
  - right. reflexivity.
  - repeat constructor.
Defined.

Lemma scan_type_table_witness :
  ∃ profile, ScanTypeConfig.get "quick" = Done profile
             ∧ active_scan profile = false.
Proof.
  destruct (scan_type_table "quick") as (Hget & _ & _ & Hprofile).
  destruct (proj2 Hget) as [profile Hp]; [apply list_elem_of_here|].
  exists profile. split; [exact Hp|].
  destruct (Hprofile profile Hp) as [Hquick _]. apply Hquick. reflexivity.
Defined.

Lemma wait_for_zap_sleeps_sixty_seconds_witness :
  ∃ new, (wait_for_zap sample_config garbled_world []).2 = [] ++ new
         ∧ total_sleep new = 60%Z.
Proof.
  destruct (wait_for_zap_sleeps_sixty_seconds sample_config garbled_world [])
    as (new & Htr & _ & Hfull).
  exists new. split; [exact Htr|].
  apply Hfull. vm_compute. reflexivity.
Defined.

Lemma nothing_before_ready_witness :
  (main decimal_int sample_environ 1 garbled_world []).2
  = (wait_for_zap sample_config garbled_world []).2.
Proof.
  refine (proj1 (nothing_before_ready decimal_int sample_environ 1
                   garbled_world sample_config _ _)).
  - vm_compute. reflexivity.
  - intros H. vm_compute in H. discriminate H.
Defined.

Lemma active_scan_only_polls_witness :
  ∃ new,
    (run_active_scan decimal_int 2 sample_config ScanTypeConfig.standard
       (prompt_world "2.14.0" []) []).2 = [] ++ new
    ∧ ∃ o rest,
        new = Event (AscanScan (target_url sample_config)) o :: rest
        ∧ Forall (λ e, ascan_poll_calls (ev_call e) = true) rest.
Proof.
  destruct (active_scan_only_polls decimal_int 2 sample_config
              ScanTypeConfig.standard (prompt_world "2.14.0" []) [])
    as (new & Htr & _ & Hactive).
  exists new. split; [exact Htr|]. apply Hactive. reflexivity.
Defined.

Lemma drivers_wait_without_limit_witness :
  (run_active_scan decimal_int 7 sample_config ScanTypeConfig.standard
     stuck_world []).1 = OutOfFuel.
Proof.
  destruct (drivers_wait_without_limit decimal_int sample_config
              ScanTypeConfig.standard stuck_world) as [Hactive _].
  - intros h scan_id. exists "50", 50%Z.
    split; [reflexivity|]. split; [reflexivity | lia].
  - intros h scan_id. exists "50", 50%Z.
    split; [reflexivity|]. split; [reflexivity | lia].
  - intros h c. destruct c; try exact I; eexists; reflexivity.
  - apply Hactive. reflexivity.
Defined.

Lemma active_scan_completes_witness :
  produces (run_active_scan decimal_int 1 sample_config ScanTypeConfig.standard)
           (Event (AscanScan (target_url sample_config)) (Returns "0")
            :: ascan_rounds "0" []
            ++ [Event (AscanStatus "0") (Returns "100")])
           (Done tt).
Proof.
  refine (proj1 (active_scan_completes decimal_int sample_config
                   ScanTypeConfig.standard "0" "100" 100 [] 0 _ _ _ _)).
  - reflexivity.
  - constructor.
  - reflexivity.
  - lia.
Defined.

Lemma active_scan_rejects_bad_status_witness :
  produces (run_active_scan decimal_int 1 sample_config ScanTypeConfig.standard)
           (Event (AscanScan (target_url sample_config)) (Returns "0")
            :: ascan_rounds "0" []
            ++ [Event (AscanStatus "0") (Returns "n/a")])
           (Raised ValueError).
Proof.
  refine (proj1 (active_scan_rejects_bad_status decimal_int sample_config
                   ScanTypeConfig.standard "0" "n/a" [] 0 _ _ _)).
  - reflexivity.
  - constructor.
  - reflexivity.
Defined.

Lemma crawl_completes_without_stop_witness :
  produces (run_spider_scan decimal_int 2 sample_config ScanTypeConfig.quick)
           (spider_prelude sample_config ScanTypeConfig.quick "0"
                           (seconds 0)
            ++ spider_rounds "0" [("10", "10", seconds 30)]
            ++ [Event (SpiderStatus "0") (Returns "100");
                Event (SpiderResults "0") (Returns ["http://target.test/"])])
           (Done ["http://target.test/"]).
Proof.
  refine (proj1 (crawl_completes_without_stop decimal_int sample_config
                   ScanTypeConfig.quick "0" "100" (seconds 0) 100
                   [("10", "10", seconds 30)]
                   ["http://target.test/"] 0 _ _ _)).
  - constructor; [|constructor]. split; [|vm_compute; reflexivity].
    exists 10%Z. split; [reflexivity | lia].
  - reflexivity.
  - lia.
Defined.

Lemma crawl_rejects_bad_status_witness :
  produces (run_spider_scan decimal_int 1 sample_config ScanTypeConfig.quick)
           (spider_prelude sample_config ScanTypeConfig.quick "0"
                           (seconds 0)
            ++ spider_rounds "0" []
            ++ [Event (SpiderStatus "0") (Returns "n/a")])
           (Raised ValueError).
Proof.
  refine (proj1 (crawl_rejects_bad_status decimal_int sample_config
                   ScanTypeConfig.quick "0" "n/a" (seconds 0)
                   [] 0 _ _)).
  - constructor.
  - reflexivity.
Defined.

Lemma summary_lists_high_findings_witness :
  ∃ entries,
    high_risk_entries risky_alerts = Done entries
    ∧ Z.of_nat (length entries) = count_risk "High" risky_alerts.
Proof.
  destruct (summary_lists_high_findings risky_alerts) as [Hshape _].
  eexists. split; [vm_compute; reflexivity|].
  apply Hshape. vm_compute. reflexivity.
Defined.

Lemma risky_alerts_have_details :
  Forall has_details (take 3 (high_findings risky_alerts)).
Proof.
  assert (Hhigh : high_findings risky_alerts = take 1 risky_alerts)
    by (vm_compute; reflexivity).
  rewrite Hhigh. constructor; [|constructor].
  repeat split; eexists; vm_compute; reflexivity.
Defined.

Lemma display_results_reads_three_witness :
  ∃ rc,
    analyze_alerts risky_alerts = Done rc
    ∧ display_results risky_alerts rc sample_config = Done false.
Proof.
  eexists. split; [vm_compute; reflexivity|].
  match goal with
  | |- display_results _ ?rc _ = _ =>
      destruct (display_results_reads_three risky_alerts rc sample_config)
        as [Hshown _]; [vm_compute; reflexivity|]
  end.
  rewrite (Hshown risky_alerts_have_details). vm_compute. reflexivity.
Defined.

Lemma save_reports_survives_failures_witness :
  produces (save_reports sample_alerts sample_config sample_counts true)
           (Event (Mkdir (report_dir sample_config)) (Returns tt)
            :: Event Strftime (Returns "20240101_000000")
            :: report_attempts sample_config "20240101_000000" sample_alerts
                 (build_summary "20240101_000000" sample_alerts sample_config
                                sample_counts true)
                 (Fails "timed out") (Returns tt) (Fails "disk full")
                 (Returns tt))
           (Done tt).
Proof.
  refine (proj1 (save_reports_survives_failures sample_alerts sample_config
                   sample_counts true "20240101_000000" (Fails "timed out")
                   (Returns tt) (Fails "disk full") (Returns tt) _ _ _ _)).
  - reflexivity.
  - reflexivity.
  - reflexivity.
  - reflexivity.
Defined.

Lemma writes_follow_findings_witness :
  ∃ config alerts,
    ScanConfig_init decimal_int sample_environ = Done config
    ∧ Event (CoreAlerts (target_url config)) (Returns alerts)
      ∈ (main decimal_int sample_environ 1
           (prompt_world "2.14.0" sample_alerts) []).2.
Proof.
  destruct (writes_follow_findings decimal_int sample_environ 1
              (prompt_world "2.14.0" sample_alerts)
              (Event (Mkdir "./reports") (Returns tt)))
    as (config & alerts & rc & passed & pre & post & Hcfg & _ & _ & Htr & _).
  - apply (list_elem_of_lookup_2 _ 9). vm_compute. reflexivity.
  - reflexivity.
  - exists config, alerts. split; [exact Hcfg|].
    rewrite Htr. apply elem_of_app. right. apply list_elem_of_here.
Defined.

Lemma mkdir_failure_exits_2_witness :
  (main decimal_int sample_environ 1 (readonly_world sample_alerts) []).1
  = sys_exited 2.
Proof.
  refine (proj1 (mkdir_failure_exits_2 decimal_int sample_environ 1
                   (readonly_world sample_alerts) "./reports"
                   "permission denied" _)).
  apply (list_elem_of_lookup_2 _ 9). vm_compute. reflexivity.
Defined.

Lemma phases_in_order_witness :
  ∃ profile waited opened crawled rest,
    ScanTypeConfig.get (scan_type sample_config) = Done profile
    ∧ (main decimal_int sample_environ 1
         (prompt_world "2.14.0" sample_alerts) []).2
      = waited ++ opened ++ crawled ++ rest.
Proof.
  destruct (phases_in_order decimal_int sample_environ 1
              (prompt_world "2.14.0" sample_alerts) sample_config)
    as (profile & waited & opened & crawled & rest & Hprof & Htr & _).
  - vm_compute. reflexivity.
  - exists profile, waited, opened, crawled, rest. exact (conj Hprof Htr).
Defined.

Lemma interrupt_ends_run_witness :
  (main decimal_int sample_environ 1 (impatient_world sample_alerts) []).1
  = sys_exited 130.
Proof.
  refine (proj1 (interrupt_ends_run decimal_int sample_environ 1
                   (impatient_world sample_alerts) CoreHtmlreport _)).
  apply (list_elem_of_lookup_2 _ 11). vm_compute. reflexivity.
Defined.
